(** * The relationship (connection) subsystem of server-userprofile

    A shallow embedding of the two route files that implement
    relationships between people,

    - [routes/connections copy.js] over the [Connection] model
      ([models/Connection.js]), with the cover-letter routes that the
      file carries at its end, and
    - [routes/careerAgent copy.js] over the [CareerAgent] model
      ([models/CareerAgent.js]),

    followed by the properties of the specification that concern them
    and by further properties of the handlers, of the collections they
    maintain and of the listings they serve.

    Conventions of the embedding.
    - A collection is the list of its documents in insertion order; a
      handler is a function from the collection to the response and the
      collection afterwards.
    - A JavaScript value that may be [undefined] is an [option]; a
      string is truthy when it is not empty.
    - [Date.now()] is the argument [now] of a handler.
    - [req.user] is the payload of the verified token; its [userId] is
      a string.
    - The [UserProfile] model is not part of the sources: the directory
      is the list of the [userId]s of the stored profiles, every profile
      having one.
    - [createdAt] and [updatedAt] are maintained by the store and are
      not fields of the embedded documents; a listing that sorts by
      [createdAt] takes the creation time of an identifier as its
      argument [createdAt]. *)

From stdpp Require Import base strings list gmap sorting.
From Stdlib Require Import ZArith Lia.

Local Open Scope string_scope.
Local Open Scope list_scope.
Local Open Scope nat_scope.

(** ** Values shared by both models *)

Definition ObjectId := nat.
Definition Date := Z.

(** enum: ['active', 'inactive', 'pending', 'proposed', 'requested', 'rejected'] *)
Inductive Status := active | inactive | pending | proposed | requested | rejected.

(** enum: ['friend', 'careerAgent'] *)
Inductive ConnectionType := friend | careerAgent.

#[global] Instance Status_eq_dec : EqDecision Status.
Proof. solve_decision. Defined.

#[global] Instance ConnectionType_eq_dec : EqDecision ConnectionType.
Proof. solve_decision. Defined.

Definition status_of_string (s : string) : option Status :=
  if bool_decide (s = "active") then Some active
  else if bool_decide (s = "inactive") then Some inactive
  else if bool_decide (s = "pending") then Some pending
  else if bool_decide (s = "proposed") then Some proposed
  else if bool_decide (s = "requested") then Some requested
  else if bool_decide (s = "rejected") then Some rejected
  else None.

Definition connectionType_of_string (s : string) : option ConnectionType :=
  if bool_decide (s = "friend") then Some friend
  else if bool_decide (s = "careerAgent") then Some careerAgent
  else None.

(** Truthiness of a value that is a string or [undefined]. *)
Definition truthy (v : option string) : bool :=
  match v with
  | Some s => bool_decide (s ≠ "")
  | None => false
  end.

(** [a || b] on strings. *)
Definition or_else (v : option string) (d : string) : string :=
  match v with
  | Some s => if bool_decide (s ≠ "") then s else d
  | None => d
  end.

(** The failure taxonomy of the specification.  The handlers answer 400
    both for malformed input and for a blocking record; each return site
    below names the kind next to its HTTP status. *)
Inductive Failure := ValidationError | Conflict | NotFound | Forbidden | InternalError.

Inductive Response (A : Type) : Type :=
| Json (code : nat) (data : A)         (* res.status(code).json({ success: true, data }) *)
| Error (code : nat) (kind : Failure). (* res.status(code).json({ success: false, message }) *)

Arguments Json {A} code data.
Arguments Error {A} code kind.

(** What [save] and [findOneAndUpdate] throw. *)
Inductive StoreError :=
| ValidationFailed   (* a schema validator rejected the document *)
| DuplicateKey.      (* error.code === 11000 *)

(** The payload of the verified token, [req.user]. *)
Record User := mkUser {
  userId : string;
  firstName : option string
}.

(** [UserProfile.findOne({ userId })] as a test for existence. *)
Definition profileExists (dir : list string) (uid : option string) : bool :=
  match uid with
  | Some u => bool_decide (u ∈ dir)
  | None => false
  end.

(** [body(f).optional().trim().isLength({ max: 1000 })], on the trimmed value. *)
Definition optionalMax1000 (m : option string) : bool :=
  match m with
  | Some s => bool_decide (String.length s ≤ 1000)%nat
  | None => true
  end.

(** [body(f).trim().isLength({ min: 1 })], on the trimmed value. *)
Definition nonEmpty (v : option string) : bool :=
  match v with
  | Some s => bool_decide (1 ≤ String.length s)%nat
  | None => false
  end.

(** [body('relationshipStatus').optional().isIn([...])] *)
Definition optionalStatus (v : option string) : bool :=
  match v with
  | Some s => bool_decide (is_Some (status_of_string s))
  | None => true
  end.

(** A fresh [ObjectId]: one that no document of the collection carries. *)
Definition freshId (ids : list ObjectId) : ObjectId := S (list_max ids).

(** ** routes/connections copy.js over models/Connection.js *)

Module ConnectionRoutes.

Record Connection := mkConnection {
  _id : ObjectId;
  careerAgentId : option string;
  candidateId : option string;
  requestorUserId : option string;
  recipientUserId : option string;
  connectionType : ConnectionType;
  relationshipStatus : Status;
  startDate : option Date;
  endDate : option Date;
  message : option string
}.

#[global] Instance Connection_eq_dec : EqDecision Connection.
Proof. solve_decision. Defined.

Definition set_relationshipStatus (s : Status) (c : Connection) : Connection :=
  mkConnection (_id c) (careerAgentId c) (candidateId c) (requestorUserId c)
    (recipientUserId c) (connectionType c) s (startDate c) (endDate c) (message c).

Definition set_startDate (d : option Date) (c : Connection) : Connection :=
  mkConnection (_id c) (careerAgentId c) (candidateId c) (requestorUserId c)
    (recipientUserId c) (connectionType c) (relationshipStatus c) d (endDate c) (message c).

Definition set_endDate (d : option Date) (c : Connection) : Connection :=
  mkConnection (_id c) (careerAgentId c) (candidateId c) (requestorUserId c)
    (recipientUserId c) (connectionType c) (relationshipStatus c) (startDate c) d (message c).

Definition set_message (m : option string) (c : Connection) : Connection :=
  mkConnection (_id c) (careerAgentId c) (candidateId c) (requestorUserId c)
    (recipientUserId c) (connectionType c) (relationshipStatus c) (startDate c) (endDate c) m.

(** The schema's validators: the conditional [required] of the four
    party fields and [maxlength: 1000] of the message. *)
Definition validate (c : Connection) : bool :=
  match connectionType c with
  | careerAgent => truthy (careerAgentId c) && truthy (candidateId c)
  | friend => truthy (requestorUserId c) && truthy (recipientUserId c)
  end
  && optionalMax1000 (message c).

(** The partial unique index on
    [{ candidateId, relationshipStatus, connectionType }] with filter
    [relationshipStatus: 'active', connectionType: 'careerAgent']. *)
Definition inCandidateIndex (c : Connection) : bool :=
  bool_decide (relationshipStatus c = active) && bool_decide (connectionType c = careerAgent).

(** The partial unique index on
    [{ requestorUserId, recipientUserId, connectionType }] with filter
    [connectionType: 'friend']. *)
Definition inFriendIndex (c : Connection) : bool :=
  bool_decide (connectionType c = friend).

(** Two distinct documents with the same key in one of the unique indexes. *)
Definition clashes (c d : Connection) : bool :=
  negb (bool_decide (_id d = _id c))
  && ((inCandidateIndex c && inCandidateIndex d
       && bool_decide (candidateId d = candidateId c))
      || (inFriendIndex c && inFriendIndex d
          && bool_decide (requestorUserId d = requestorUserId c)
          && bool_decide (recipientUserId d = recipientUserId c))).

Definition findById (id : ObjectId) (db : list Connection) : option Connection :=
  List.find (λ d, bool_decide (_id d = id)) db.

(** [Connection.findOne(filter)] *)
Definition findOne (filter : Connection → bool) (db : list Connection) : option Connection :=
  List.find filter db.

(** Writing a document back: the document with its [_id] is replaced. *)
Definition replace (c : Connection) (db : list Connection) : list Connection :=
  map (λ d, if bool_decide (_id d = _id c) then c else d) db.

(** [connection.save()]: validation, then the write under the unique
    indexes; a new document is appended, a stored one is replaced. *)
Definition save (c : Connection) (db : list Connection) : StoreError + list Connection :=
  if negb (validate c) then inl ValidationFailed
  else if existsb (clashes c) db then inl DuplicateKey
  else match findById (_id c) db with
       | Some _ => inr (replace c db)
       | None => inr (db ++ [c])%list
       end.

(** *** POST / *)

Record CreateBody := mkCreateBody {
  b_careerAgentId : option string;
  b_candidateId : option string;
  b_requestorUserId : option string;
  b_recipientUserId : option string;
  b_connectionType : option string;
  b_message : option string;
  b_relationshipStatus : option string
}.

(** [validateConnectionRelationship], on the body as the sanitizers leave it. *)
Definition validateConnectionRelationship (b : CreateBody) : bool :=
  match b_connectionType b ≫= connectionType_of_string with
  | None => false
  | Some careerAgent => nonEmpty (b_careerAgentId b) && nonEmpty (b_candidateId b)
  | Some friend => nonEmpty (b_requestorUserId b) && nonEmpty (b_recipientUserId b)
  end
  && optionalMax1000 (b_message b)
  && optionalStatus (b_relationshipStatus b).

Definition post_create (now : Date) (b : CreateBody) (dir : list string)
    (db : list Connection) : Response (option Connection) * list Connection :=
  if negb (validateConnectionRelationship b) then (Error 400 ValidationError, db)
  else
    match b_connectionType b ≫= connectionType_of_string,
          (* relationshipStatus = 'pending' *)
          status_of_string (default "pending" (b_relationshipStatus b)) with
    | Some ty, Some st =>
      if match ty with
         | careerAgent => negb (truthy (b_careerAgentId b)) || negb (truthy (b_candidateId b))
         | friend => negb (truthy (b_requestorUserId b)) || negb (truthy (b_recipientUserId b))
         end
      then (Error 400 ValidationError, db)
      else if negb (profileExists dir (b_requestorUserId b)) then (Error 404 NotFound, db)
      else if negb (profileExists dir (b_recipientUserId b)) then (Error 404 NotFound, db)
      else
        match findOne (λ d,
                (bool_decide (requestorUserId d = b_requestorUserId b)
                 && bool_decide (recipientUserId d = b_recipientUserId b)
                 && bool_decide (connectionType d = ty))
                || (bool_decide (requestorUserId d = b_recipientUserId b)
                    && bool_decide (recipientUserId d = b_requestorUserId b)
                    && bool_decide (connectionType d = ty))) db with
        | Some _ => (Error 400 Conflict, db)
        | None =>
          let connection :=
            {| _id := freshId (map _id db);
               careerAgentId := match ty with careerAgent => b_careerAgentId b | friend => None end;
               candidateId := match ty with careerAgent => b_candidateId b | friend => None end;
               requestorUserId := b_requestorUserId b;
               recipientUserId := b_recipientUserId b;
               connectionType := ty;
               relationshipStatus := st;
               startDate := Some now;          (* default: Date.now *)
               endDate := None;                (* default: null *)
               message := b_message b |} in
          match save connection db with
          | inr db' => (Json 201 (findById (_id connection) db'), db')
          | inl DuplicateKey => (Error 400 Conflict, db)
          | inl ValidationFailed => (Error 500 InternalError, db)
          end
        end
    | _, _ => (Error 400 ValidationError, db)
    end.

(** *** POST /request *)

Record RequestBody := mkRequestBody {
  r_recipientUserId : option string;
  r_connectionType : option string;
  r_message : option string
}.

Definition post_request (now : Date) (user : User) (b : RequestBody) (dir : list string)
    (db : list Connection) : Response (option Connection) * list Connection :=
  let requestor := Some (userId user) in
  if negb (truthy (r_recipientUserId b)) || negb (truthy (r_connectionType b))
  then (Error 400 ValidationError, db)
  else
    match r_connectionType b ≫= connectionType_of_string with
    | None => (Error 400 ValidationError, db)
    | Some ty =>
      if negb (profileExists dir (r_recipientUserId b)) then (Error 404 NotFound, db)
      else
        match findOne (λ d,
                (bool_decide (requestorUserId d = requestor)
                 && bool_decide (recipientUserId d = r_recipientUserId b)
                 && bool_decide (connectionType d = ty))
                || (bool_decide (requestorUserId d = r_recipientUserId b)
                    && bool_decide (recipientUserId d = requestor)
                    && bool_decide (connectionType d = ty))) db with
        | Some _ => (Error 400 Conflict, db)
        | None =>
          let connection :=
            {| _id := freshId (map _id db);
               careerAgentId := match ty with careerAgent => requestor | friend => None end;
               candidateId := match ty with careerAgent => r_recipientUserId b | friend => None end;
               requestorUserId := requestor;
               recipientUserId := r_recipientUserId b;
               connectionType := ty;
               relationshipStatus := requested;
               startDate := Some now;
               endDate := None;
               message := r_message b |} in
          match save connection db with
          | inr db' => (Json 201 (findById (_id connection) db'), db')
          | inl _ => (Error 500 InternalError, db)
          end
        end
    end.

(** *** POST /propose *)

Record ProposeBody := mkProposeBody {
  p_candidateUserId : option string;
  p_message : option string
}.

Definition post_propose (now : Date) (user : User) (b : ProposeBody) (dir : list string)
    (db : list Connection) : Response (option Connection) * list Connection :=
  let careerAgentUserId := Some (userId user) in
  if negb (truthy (p_candidateUserId b)) then (Error 400 ValidationError, db)
  else if negb (profileExists dir (p_candidateUserId b)) then (Error 404 NotFound, db)
  else
    match findOne (λ d,
            (bool_decide (careerAgentId d = careerAgentUserId)
             && bool_decide (candidateId d = p_candidateUserId b)
             && bool_decide (connectionType d = careerAgent))
            || (bool_decide (requestorUserId d = careerAgentUserId)
                && bool_decide (recipientUserId d = p_candidateUserId b)
                && bool_decide (connectionType d = careerAgent))
            || (bool_decide (requestorUserId d = p_candidateUserId b)
                && bool_decide (recipientUserId d = careerAgentUserId)
                && bool_decide (connectionType d = careerAgent))) db with
    | Some _ => (Error 400 Conflict, db)
    | None =>
      let connection :=
        {| _id := freshId (map _id db);
           careerAgentId := careerAgentUserId;
           candidateId := p_candidateUserId b;
           requestorUserId := careerAgentUserId;
           recipientUserId := p_candidateUserId b;
           connectionType := careerAgent;
           relationshipStatus := proposed;
           startDate := Some now;
           endDate := None;
           message := p_message b |} in
      match save connection db with
      | inr db' => (Json 201 (findById (_id connection) db'), db')
      | inl _ => (Error 500 InternalError, db)
      end
    end.

(** *** GET /potentialcontact *)

(** [parseInt(req.query.limit) || 50]; [None] is a missing or
    non-numeric parameter.  The store reads a negative limit as its
    absolute value. *)
Definition parseLimit (q : option Z) : nat :=
  match q with
  | Some n => if bool_decide (n = 0%Z) then 50%nat else Z.to_nat (Z.abs n)
  | None => 50%nat
  end.

Definition involves (uid : string) (c : Connection) : bool :=
  bool_decide (requestorUserId c = Some uid)
  || bool_decide (recipientUserId c = Some uid)
  || bool_decide (careerAgentId c = Some uid)
  || bool_decide (candidateId c = Some uid).

(** The body of the [forEach]: the ids of the other parties of one connection. *)
Definition addConnected (uid : string) (s : gset (option string)) (c : Connection)
    : gset (option string) :=
  let s1 := if bool_decide (requestorUserId c ≠ Some uid) then {[requestorUserId c]} ∪ s else s in
  let s2 := if bool_decide (recipientUserId c ≠ Some uid) then {[recipientUserId c]} ∪ s1 else s1 in
  let s3 := if truthy (careerAgentId c) && bool_decide (careerAgentId c ≠ Some uid)
            then {[careerAgentId c]} ∪ s2 else s2 in
  if truthy (candidateId c) && bool_decide (candidateId c ≠ Some uid)
  then {[candidateId c]} ∪ s3 else s3.

Definition connectedUserIds (uid : string) (db : list Connection) : gset (option string) :=
  foldl (addConnected uid) ∅ (filter (λ c, involves uid c = true) db).

Definition excludeUserIds (uid : string) (db : list Connection) : list (option string) :=
  (elements (connectedUserIds uid db) ++ [Some uid])%list.

Definition get_potentialcontact (user : User) (limit : option Z) (dir : list string)
    (db : list Connection) : list string :=
  take (parseLimit limit)
       (filter (λ p, Some p ∉ excludeUserIds (userId user) db) dir).

(** *** PUT /:connectionId/accept

    The path parameter is [None] when
    [mongoose.Types.ObjectId.isValid] rejects it. *)

Definition put_accept (now : Date) (user : User) (connectionId : option ObjectId)
    (db : list Connection) : Response (option Connection) * list Connection :=
  match connectionId with
  | None => (Error 400 ValidationError, db)
  | Some id =>
    match findById id db with
    | None => (Error 404 NotFound, db)
    | Some connection =>
      let isRecipient := bool_decide (recipientUserId connection = Some (userId user)) in
      let isCandidate := bool_decide (candidateId connection = Some (userId user)) in
      if negb isRecipient && negb isCandidate then (Error 403 Forbidden, db)
      else if negb (bool_decide (relationshipStatus connection ∈ [requested; proposed; pending]))
      then (Error 400 Conflict, db)
      else
        let connection' := set_startDate (Some now) (set_relationshipStatus active connection) in
        match save connection' db with
        | inr db' => (Json 200 (findById id db'), db')
        | inl _ => (Error 500 InternalError, db)
        end
    end
  end.

(** *** PUT /:connectionId/reject *)

Definition put_reject (user : User) (connectionId : option ObjectId)
    (body_message : option string) (db : list Connection)
    : Response (option Connection) * list Connection :=
  match connectionId with
  | None => (Error 400 ValidationError, db)
  | Some id =>
    match findById id db with
    | None => (Error 404 NotFound, db)
    | Some connection =>
      if bool_decide (recipientUserId connection ≠ Some (userId user))
         && bool_decide (candidateId connection ≠ Some (userId user))
      then (Error 403 Forbidden, db)
      else
        let c1 := set_relationshipStatus rejected connection in
        let c2 := if truthy body_message then set_message body_message c1 else c1 in
        match save c2 db with
        | inr db' => (Json 200 (findById id db'), db')
        | inl _ => (Error 500 InternalError, db)
        end
    end
  end.

(** *** PUT /:connectionId *)

Record UpdateBody := mkUpdateBody {
  u_relationshipStatus : option string;
  u_message : option string;
  u_endDate : option Date
}.

Definition put_update (user : User) (connectionId : option ObjectId) (b : UpdateBody)
    (db : list Connection) : Response (option Connection) * list Connection :=
  match connectionId with
  | None => (Error 400 ValidationError, db)
  | Some id =>
    match findById id db with
    | None => (Error 404 NotFound, db)
    | Some connection =>
      let isPartOfConnection :=
        bool_decide (Some (userId user) ∈
          [requestorUserId connection; recipientUserId connection;
           careerAgentId connection; candidateId connection]) in
      if negb isPartOfConnection then (Error 403 Forbidden, db)
      else
        (* a truthy status outside the enum is refused by the validator in save *)
        match (if truthy (u_relationshipStatus b)
               then (λ s, set_relationshipStatus s connection)
                      <$> (u_relationshipStatus b ≫= status_of_string)
               else Some connection) with
        | None => (Error 500 InternalError, db)
        | Some c1 =>
          let c2 := match u_message b with Some m => set_message (Some m) c1 | None => c1 end in
          let c3 := match u_endDate b with Some d => set_endDate (Some d) c2 | None => c2 end in
          match save c3 db with
          | inr db' => (Json 200 (findById id db'), db')
          | inl _ => (Error 500 InternalError, db)
          end
        end
    end
  end.

(** *** GET /proposals/received and GET /proposals/sent

    [createdAt] is the creation time that the store keeps for the
    document of each identifier ([timestamps: true]); ties of the sort
    are left in the order of the sort at hand. *)

Definition newerFirst (createdAt : ObjectId → Date) (c d : Connection) : Prop :=
  (createdAt (_id d) ≤ createdAt (_id c))%Z.

#[global] Instance newerFirst_dec createdAt c d : Decision (newerFirst createdAt c d).
Proof. unfold newerFirst. apply _. Defined.

(** [.sort({ createdAt: -1 })] *)
Definition sortByCreatedAtDesc (createdAt : ObjectId → Date) (l : list Connection)
    : list Connection :=
  merge_sort (newerFirst createdAt) l.

(** [Connection.find(filter).sort({ createdAt: -1 }).limit(limit)] *)
Definition findSortedLimited (createdAt : ObjectId → Date) (filter : Connection → bool)
    (limit : nat) (db : list Connection) : list Connection :=
  take limit (sortByCreatedAtDesc createdAt (List.filter filter db)).

Definition get_proposals_received (createdAt : ObjectId → Date) (user : User)
    (limit : option Z) (db : list Connection) : Response (list Connection) :=
  Json 200 (findSortedLimited createdAt
              (λ d, bool_decide (candidateId d = Some (userId user))
                    && bool_decide (connectionType d = careerAgent)
                    && bool_decide (relationshipStatus d = proposed))
              (parseLimit limit) db).

Definition get_proposals_sent (createdAt : ObjectId → Date) (user : User)
    (limit : option Z) (db : list Connection) : Response (list Connection) :=
  Json 200 (findSortedLimited createdAt
              (λ d, bool_decide (careerAgentId d = Some (userId user))
                    && bool_decide (connectionType d = careerAgent)
                    && bool_decide (relationshipStatus d = proposed))
              (parseLimit limit) db).

(** *** The aggregations GET /connected, GET /requests/received and
    GET /requests/sent

    The three pipelines match the connections of the caller, name the
    other user of each, group by that user, count that user's active
    friends and active candidates, project one row per user, sort the
    rows from the newest to the oldest and cut at the limit.  The fields
    that the rows take from the profile of the other user are left out,
    the [UserProfile] model not being part of the sources.  The store
    fixes no order of the groups; they are taken in the order of their
    first document.  In a comparison of the pipeline a missing field
    equals no value. *)

(** The [$limit] stage.  The store refuses a limit that is not positive
    and the handler then answers 500; [parseInt(req.query.limit) || 50]
    never yields zero. *)
Definition limitStage {A} (limit : option Z) (rows : list A) : Response (list A) :=
  match limit with
  | Some n => if bool_decide (n < 0)%Z then Error 500 InternalError
              else Json 200 (take (parseLimit limit) rows)
  | None => Json 200 (take (parseLimit limit) rows)
  end.

(** [...(connectionType && { connectionType })] *)
Definition typeQuery (connectionType' : option string) (c : Connection) : bool :=
  if truthy connectionType'
  then bool_decide (connectionType' ≫= connectionType_of_string = Some (connectionType c))
  else true.

(** The [$group] stage: a group is the user it stands for, its first
    document and the later ones. *)
Fixpoint groupInsert (k : option string) (c : Connection)
    (groups : list (option string * (Connection * list Connection)))
    : list (option string * (Connection * list Connection)) :=
  match groups with
  | [] => [(k, (c, []))]
  | (k', (first, rest)) :: groups' =>
    if bool_decide (k' = k) then (k', (first, rest ++ [c])) :: groups'
    else (k', (first, rest)) :: groupInsert k c groups'
  end.

Definition groupByOther (other : Connection → option string) (docs : list Connection)
    : list (option string * (Connection * list Connection)) :=
  foldl (λ groups c, groupInsert (other c) c groups) [] docs.

(** Stage 5: the active friend connections of the other user. *)
Definition friendsCount (other : option string) (db : list Connection) : nat :=
  match other with
  | Some o =>
    length (List.filter (λ d, (bool_decide (requestorUserId d = Some o)
                               || bool_decide (recipientUserId d = Some o))
                              && bool_decide (connectionType d = friend)
                              && bool_decide (relationshipStatus d = active)) db)
  | None => 0
  end.

(** Stage 6: the active candidates of the other user. *)
Definition candidatesCount (other : option string) (db : list Connection) : nat :=
  match other with
  | Some o =>
    length (List.filter (λ d, bool_decide (careerAgentId d = Some o)
                              && bool_decide (connectionType d = careerAgent)
                              && bool_decide (relationshipStatus d = active)) db)
  | None => 0
  end.

(** GET /connected, stage 1; [status = 'active'] when the caller names none. *)
Definition connectedMatch (uid : string) (status : option string)
    (connectionType' : option string) (c : Connection) : bool :=
  involves uid c
  && bool_decide (status_of_string (default "active" status) = Some (relationshipStatus c))
  && typeQuery connectionType' c.

(** GET /connected, stage 2. *)
Definition connectedOther (uid : string) (c : Connection) : option string :=
  if bool_decide (requestorUserId c = Some uid) then recipientUserId c
  else if bool_decide (recipientUserId c = Some uid) then requestorUserId c
  else if bool_decide (careerAgentId c = Some uid) then candidateId c
  else if bool_decide (candidateId c = Some uid) then careerAgentId c
  else None.

Definition connectionRole (uid : string) (c : Connection) : string :=
  if bool_decide (requestorUserId c = Some uid) then "requestor"
  else if bool_decide (recipientUserId c = Some uid) then "recipient"
  else if bool_decide (careerAgentId c = Some uid) then "careerAgent"
  else if bool_decide (candidateId c = Some uid) then "candidate"
  else "unknown".

Record ConnectedUser := mkConnectedUser {
  cu_userId : option string;
  cu_connectionId : ObjectId;
  cu_mutualConnections : nat;
  cu_candidatesCount : nat;
  cu_connectionTypes : list ConnectionType;
  cu_roles : list string;
  cu_connectionDate : Date
}.

(** GET /connected, stages 5 to 7. *)
Definition connectedRow (createdAt : ObjectId → Date) (uid : string) (db : list Connection)
    (g : option string * (Connection * list Connection)) : ConnectedUser :=
  let connections := g.2.1 :: g.2.2 in
  {| cu_userId := g.1;
     cu_connectionId := _id g.2.1;
     cu_mutualConnections := friendsCount g.1 db;
     cu_candidatesCount := candidatesCount g.1 db;
     cu_connectionTypes := remove_dups (map connectionType connections);
     cu_roles := remove_dups (map (connectionRole uid) connections);
     cu_connectionDate := createdAt (_id g.2.1) |}.

Definition newerConnected (r1 r2 : ConnectedUser) : Prop :=
  (cu_connectionDate r2 ≤ cu_connectionDate r1)%Z.

#[global] Instance newerConnected_dec r1 r2 : Decision (newerConnected r1 r2).
Proof. unfold newerConnected. apply _. Defined.

Definition get_connected (createdAt : ObjectId → Date) (user : User) (limit : option Z)
    (connectionType' status : option string) (db : list Connection)
    : Response (list ConnectedUser) :=
  limitStage limit
    (merge_sort newerConnected
       (map (connectedRow createdAt (userId user) db)
          (groupByOther (connectedOther (userId user))
             (List.filter (connectedMatch (userId user) status connectionType') db)))).

(** GET /requests/received, stage 1. *)
Definition receivedMatch (uid : string) (connectionType' : option string)
    (c : Connection) : bool :=
  ((bool_decide (recipientUserId c = Some uid)
    && bool_decide (connectionType c = friend)
    && bool_decide (relationshipStatus c ∈ [requested; pending]))
   || (bool_decide (candidateId c = Some uid)
       && bool_decide (connectionType c = careerAgent)
       && bool_decide (relationshipStatus c ∈ [requested; pending]))
   || (bool_decide (recipientUserId c = Some uid)
       && bool_decide (connectionType c = careerAgent)
       && bool_decide (relationshipStatus c ∈ [proposed; pending])))
  && typeQuery connectionType' c.

(** GET /requests/received, stage 2. *)
Definition receivedOther (uid : string) (c : Connection) : option string :=
  if bool_decide (connectionType c = friend) && bool_decide (recipientUserId c = Some uid)
  then requestorUserId c
  else if bool_decide (connectionType c = careerAgent)
          && bool_decide (candidateId c = Some uid)
  then careerAgentId c
  else if bool_decide (connectionType c = careerAgent)
          && bool_decide (recipientUserId c = Some uid)
  then requestorUserId c
  else None.

Definition receivedType (uid : string) (c : Connection) : string :=
  if bool_decide (connectionType c = friend) && bool_decide (recipientUserId c = Some uid)
  then "friend_request"
  else if bool_decide (connectionType c = careerAgent)
          && bool_decide (candidateId c = Some uid)
  then "career_agent_request"
  else if bool_decide (connectionType c = careerAgent)
          && bool_decide (recipientUserId c = Some uid)
  then "career_agent_proposal"
  else "unknown".

(** GET /requests/sent, stage 1. *)
Definition sentMatch (uid : string) (connectionType' : option string)
    (c : Connection) : bool :=
  ((bool_decide (requestorUserId c = Some uid)
    && bool_decide (connectionType c = friend)
    && bool_decide (relationshipStatus c ∈ [requested; pending]))
   || (bool_decide (careerAgentId c = Some uid)
       && bool_decide (connectionType c = careerAgent)
       && bool_decide (relationshipStatus c ∈ [requested; pending]))
   || (bool_decide (requestorUserId c = Some uid)
       && bool_decide (connectionType c = careerAgent)
       && bool_decide (relationshipStatus c ∈ [proposed; pending])))
  && typeQuery connectionType' c.

(** GET /requests/sent, stage 2. *)
Definition sentOther (uid : string) (c : Connection) : option string :=
  if bool_decide (connectionType c = friend) && bool_decide (requestorUserId c = Some uid)
  then recipientUserId c
  else if bool_decide (connectionType c = careerAgent)
          && bool_decide (careerAgentId c = Some uid)
  then candidateId c
  else if bool_decide (connectionType c = careerAgent)
          && bool_decide (requestorUserId c = Some uid)
  then recipientUserId c
  else None.

Definition sentType (uid : string) (c : Connection) : string :=
  if bool_decide (connectionType c = friend) && bool_decide (requestorUserId c = Some uid)
  then "friend_request"
  else if bool_decide (connectionType c = careerAgent)
          && bool_decide (careerAgentId c = Some uid)
  then "career_agent_request"
  else if bool_decide (connectionType c = careerAgent)
          && bool_decide (requestorUserId c = Some uid)
  then "career_agent_proposal"
  else "unknown".

Record RequestRow := mkRequestRow {
  rq_userId : option string;
  rq_connectionId : ObjectId;
  rq_mutualConnections : nat;
  rq_candidatesCount : nat;
  rq_requestTypes : list string;
  rq_connectionTypes : list ConnectionType;
  rq_requestDate : Date;
  rq_relationshipStatus : Status;
  rq_message : option string
}.

(** Stages 5 to 7 of the two request pipelines. *)
Definition requestRow (createdAt : ObjectId → Date) (requestType : Connection → string)
    (db : list Connection) (g : option string * (Connection * list Connection))
    : RequestRow :=
  let requests := g.2.1 :: g.2.2 in
  {| rq_userId := g.1;
     rq_connectionId := _id g.2.1;
     rq_mutualConnections := friendsCount g.1 db;
     rq_candidatesCount := candidatesCount g.1 db;
     rq_requestTypes := remove_dups (map requestType requests);
     rq_connectionTypes := remove_dups (map connectionType requests);
     rq_requestDate := createdAt (_id g.2.1);
     rq_relationshipStatus := relationshipStatus g.2.1;
     rq_message := message g.2.1 |}.

Definition newerRequest (r1 r2 : RequestRow) : Prop :=
  (rq_requestDate r2 ≤ rq_requestDate r1)%Z.

#[global] Instance newerRequest_dec r1 r2 : Decision (newerRequest r1 r2).
Proof. unfold newerRequest. apply _. Defined.

Definition get_requests_received (createdAt : ObjectId → Date) (user : User)
    (limit : option Z) (connectionType' : option string) (db : list Connection)
    : Response (list RequestRow) :=
  limitStage limit
    (merge_sort newerRequest
       (map (requestRow createdAt (receivedType (userId user)) db)
          (groupByOther (receivedOther (userId user))
             (List.filter (receivedMatch (userId user) connectionType') db)))).

Definition get_requests_sent (createdAt : ObjectId → Date) (user : User)
    (limit : option Z) (connectionType' : option string) (db : list Connection)
    : Response (list RequestRow) :=
  limitStage limit
    (merge_sort newerRequest
       (map (requestRow createdAt (sentType (userId user)) db)
          (groupByOther (sentOther (userId user))
             (List.filter (sentMatch (userId user) connectionType') db)))).

End ConnectionRoutes.

(** ** routes/careerAgent copy.js over models/CareerAgent.js *)

Module CareerAgentRoutes.

Record CareerAgent := mkCareerAgent {
  _id : ObjectId;
  careerAgentId : option string;
  candidateId : option string;
  relationshipStatus : Status;
  startDate : option Date;
  endDate : option Date;
  message : option string
}.

#[global] Instance CareerAgent_eq_dec : EqDecision CareerAgent.
Proof. solve_decision. Defined.

Definition set_careerAgentId (a : option string) (c : CareerAgent) : CareerAgent :=
  mkCareerAgent (_id c) a (candidateId c) (relationshipStatus c)
    (startDate c) (endDate c) (message c).

Definition set_candidateId (a : option string) (c : CareerAgent) : CareerAgent :=
  mkCareerAgent (_id c) (careerAgentId c) a (relationshipStatus c)
    (startDate c) (endDate c) (message c).

Definition set_relationshipStatus (s : Status) (c : CareerAgent) : CareerAgent :=
  mkCareerAgent (_id c) (careerAgentId c) (candidateId c) s
    (startDate c) (endDate c) (message c).

Definition set_startDate (d : option Date) (c : CareerAgent) : CareerAgent :=
  mkCareerAgent (_id c) (careerAgentId c) (candidateId c) (relationshipStatus c)
    d (endDate c) (message c).

Definition set_endDate (d : option Date) (c : CareerAgent) : CareerAgent :=
  mkCareerAgent (_id c) (careerAgentId c) (candidateId c) (relationshipStatus c)
    (startDate c) d (message c).

Definition set_message (m : option string) (c : CareerAgent) : CareerAgent :=
  mkCareerAgent (_id c) (careerAgentId c) (candidateId c) (relationshipStatus c)
    (startDate c) (endDate c) m.

(** The schema's validators: [required: true] of the two parties and
    [maxlength: 1000] of the message. *)
Definition validate (c : CareerAgent) : bool :=
  truthy (careerAgentId c) && truthy (candidateId c) && optionalMax1000 (message c).

(** The partial unique index on [{ candidateId, relationshipStatus }]
    with filter [relationshipStatus: 'active']. *)
Definition clashes (c d : CareerAgent) : bool :=
  negb (bool_decide (_id d = _id c))
  && bool_decide (relationshipStatus c = active)
  && bool_decide (relationshipStatus d = active)
  && bool_decide (candidateId d = candidateId c).

Definition findOne (filter : CareerAgent → bool) (db : list CareerAgent) : option CareerAgent :=
  List.find filter db.

Definition findById (id : ObjectId) (db : list CareerAgent) : option CareerAgent :=
  findOne (λ d, bool_decide (_id d = id)) db.

Definition replace (c : CareerAgent) (db : list CareerAgent) : list CareerAgent :=
  map (λ d, if bool_decide (_id d = _id c) then c else d) db.

(** The write of a validated document under the unique index. *)
Definition write (c : CareerAgent) (db : list CareerAgent) : StoreError + list CareerAgent :=
  if existsb (clashes c) db then inl DuplicateKey
  else match findById (_id c) db with
       | Some _ => inr (replace c db)
       | None => inr (db ++ [c])%list
       end.

(** [relationship.save()] *)
Definition save (c : CareerAgent) (db : list CareerAgent) : StoreError + list CareerAgent :=
  if negb (validate c) then inl ValidationFailed else write c db.

(** *** POST / *)

Record CreateBody := mkCreateBody {
  b_careerAgentId : option string;
  b_candidateId : option string;
  b_message : option string;
  b_relationshipStatus : option string
}.

(** [validateCareerAgentRelationship], on the body as the sanitizers leave it. *)
Definition validateCareerAgentRelationship (b : CreateBody) : bool :=
  nonEmpty (b_careerAgentId b) && nonEmpty (b_candidateId b)
  && optionalMax1000 (b_message b) && optionalStatus (b_relationshipStatus b).

Definition post_create (now : Date) (b : CreateBody) (dir : list string)
    (db : list CareerAgent) : Response CareerAgent * list CareerAgent :=
  if negb (validateCareerAgentRelationship b) then (Error 400 ValidationError, db)
  else if bool_decide (b_careerAgentId b = b_candidateId b) then (Error 400 ValidationError, db)
  else if negb (profileExists dir (b_careerAgentId b)) then (Error 404 NotFound, db)
  else if negb (profileExists dir (b_candidateId b)) then (Error 404 NotFound, db)
  else
    match findOne (λ d, bool_decide (candidateId d = b_candidateId b)
                        && bool_decide (relationshipStatus d = active)) db with
    | Some _ => (Error 400 Conflict, db)
    | None =>
      match findOne (λ d, bool_decide (careerAgentId d = b_careerAgentId b)
                          && bool_decide (candidateId d = b_candidateId b)
                          && bool_decide (relationshipStatus d ∈ [pending; proposed])) db with
      | Some _ => (Error 400 Conflict, db)
      | None =>
        (* relationshipStatus || 'active' *)
        match status_of_string (or_else (b_relationshipStatus b) "active") with
        | None => (Error 500 InternalError, db)
        | Some st =>
          let careerAgentRelationship :=
            {| _id := freshId (map _id db);
               careerAgentId := b_careerAgentId b;
               candidateId := b_candidateId b;
               relationshipStatus := st;
               startDate := Some now;                       (* default: Date.now *)
               endDate := None;                             (* default: null *)
               message := Some (or_else (b_message b) "") |} in
          match save careerAgentRelationship db with
          | inr db' => (Json 201 careerAgentRelationship, db')
          | inl DuplicateKey => (Error 400 Conflict, db)
          | inl ValidationFailed => (Error 500 InternalError, db)
          end
        end
      end
    end.

(** *** POST /request *)

Record RequestBody := mkRequestBody {
  r_careerAgentId : option string;
  r_message : option string
}.

Definition post_request (now : Date) (user : User) (b : RequestBody) (dir : list string)
    (db : list CareerAgent) : Response CareerAgent * list CareerAgent :=
  let candidate := Some (userId user) in
  if bool_decide (r_careerAgentId b = candidate) then (Error 400 ValidationError, db)
  else if negb (profileExists dir (r_careerAgentId b)) then (Error 404 NotFound, db)
  else
    match findOne (λ d, bool_decide (candidateId d = candidate)
                        && bool_decide (relationshipStatus d = active)) db with
    | Some _ => (Error 400 Conflict, db)
    | None =>
      match findOne (λ d, bool_decide (careerAgentId d = r_careerAgentId b)
                          && bool_decide (candidateId d = candidate)
                          && bool_decide (relationshipStatus d = pending)) db with
      | Some _ => (Error 400 Conflict, db)
      | None =>
        let careerAgentRequest :=
          {| _id := freshId (map _id db);
             careerAgentId := r_careerAgentId b;
             candidateId := candidate;
             relationshipStatus := pending;
             startDate := Some now;
             endDate := None;
             message := Some (or_else (r_message b)
                          (or_else (firstName user) "User"
                             +:+ " has requested you to be their career agent")) |} in
        match save careerAgentRequest db with
        | inr db' => (Json 201 careerAgentRequest, db')
        | inl _ => (Error 500 InternalError, db)
        end
      end
    end.

(** *** POST /propose *)

Record ProposeBody := mkProposeBody {
  p_candidateId : option string;
  p_message : option string
}.

Definition post_propose (now : Date) (user : User) (b : ProposeBody) (dir : list string)
    (db : list CareerAgent) : Response CareerAgent * list CareerAgent :=
  let agent := Some (userId user) in
  if bool_decide (agent = p_candidateId b) then (Error 400 ValidationError, db)
  else if negb (profileExists dir (p_candidateId b)) then (Error 404 NotFound, db)
  else
    match findOne (λ d, bool_decide (candidateId d = p_candidateId b)
                        && bool_decide (relationshipStatus d = active)) db with
    | Some _ => (Error 400 Conflict, db)
    | None =>
      match findOne (λ d, bool_decide (careerAgentId d = agent)
                          && bool_decide (candidateId d = p_candidateId b)
                          && bool_decide (relationshipStatus d ∈ [pending; proposed])) db with
      | Some _ => (Error 400 Conflict, db)
      | None =>
        let careerAgentProposal :=
          {| _id := freshId (map _id db);
             careerAgentId := agent;
             candidateId := p_candidateId b;
             relationshipStatus := proposed;
             startDate := Some now;
             endDate := None;
             message := Some (or_else (p_message b)
                          (or_else (firstName user) "A career agent"
                             +:+ " has proposed to mentor you")) |} in
        match save careerAgentProposal db with
        | inr db' => (Json 201 careerAgentProposal, db')
        | inl _ => (Error 500 InternalError, db)
        end
      end
    end.

(** *** PUT /:relationshipId/accept

    The path parameter is [None] when it cannot be cast to an
    [ObjectId]; the query then throws. *)

Definition isAuthorized (user : User) (relationship : CareerAgent) : bool :=
  match relationshipStatus relationship with
  | pending => bool_decide (careerAgentId relationship = Some (userId user))
  | proposed => bool_decide (candidateId relationship = Some (userId user))
  | _ => false
  end.

Definition put_accept (now : Date) (user : User) (relationshipId : option ObjectId)
    (db : list CareerAgent) : Response CareerAgent * list CareerAgent :=
  match relationshipId with
  | None => (Error 500 InternalError, db)
  | Some id =>
    match findOne (λ d, bool_decide (_id d = id)
                        && bool_decide (relationshipStatus d ∈ [pending; proposed])) db with
    | None => (Error 404 NotFound, db)
    | Some relationship =>
      if negb (isAuthorized user relationship) then (Error 403 Forbidden, db)
      else
        let relationship' := set_startDate (Some now) (set_relationshipStatus active relationship) in
        match save relationship' db with
        | inr db' => (Json 200 relationship', db')
        | inl _ => (Error 500 InternalError, db)
        end
    end
  end.

(** *** PUT /:relationshipId/reject *)

Definition put_reject (now : Date) (user : User) (relationshipId : option ObjectId)
    (body_message : option string) (db : list CareerAgent)
    : Response CareerAgent * list CareerAgent :=
  match relationshipId with
  | None => (Error 500 InternalError, db)
  | Some id =>
    match findOne (λ d, bool_decide (_id d = id)
                        && bool_decide (relationshipStatus d ∈ [pending; proposed])) db with
    | None => (Error 404 NotFound, db)
    | Some relationship =>
      if negb (isAuthorized user relationship) then (Error 403 Forbidden, db)
      else
        let r1 := set_endDate (Some now) (set_relationshipStatus inactive relationship) in
        let r2 := if truthy body_message then set_message body_message r1 else r1 in
        match save r2 db with
        | inr db' => (Json 200 r2, db')
        | inl _ => (Error 500 InternalError, db)
        end
    end
  end.

(** *** PUT /:relationshipId

    [updateData] is the request body; its fields are the paths of the
    schema, the others being dropped by the model. *)

Record UpdateData := mkUpdateData {
  u_careerAgentId : option string;
  u_candidateId : option string;
  u_relationshipStatus : option string;
  u_startDate : option Date;
  u_endDate : option Date;
  u_message : option string
}.

(** The update validators ([runValidators: true]) on the paths that are set. *)
Definition validateUpdate (u : UpdateData) : bool :=
  match u_careerAgentId u with Some s => bool_decide (s ≠ "") | None => true end
  && match u_candidateId u with Some s => bool_decide (s ≠ "") | None => true end
  && optionalStatus (u_relationshipStatus u)
  && optionalMax1000 (u_message u).

(** The document after the [$set] of the supplied paths. *)
Definition applyUpdate (u : UpdateData) (c : CareerAgent) : CareerAgent :=
  {| _id := _id c;
     careerAgentId := match u_careerAgentId u with Some a => Some a | None => careerAgentId c end;
     candidateId := match u_candidateId u with Some a => Some a | None => candidateId c end;
     relationshipStatus := default (relationshipStatus c)
                             (u_relationshipStatus u ≫= status_of_string);
     startDate := match u_startDate u with Some d => Some d | None => startDate c end;
     endDate := match u_endDate u with Some d => Some d | None => endDate c end;
     message := match u_message u with Some m => Some m | None => message c end |}.

(** [CareerAgent.findOneAndUpdate({ _id }, updateData, { new: true, runValidators: true })] *)
Definition findOneAndUpdate (id : ObjectId) (u : UpdateData) (db : list CareerAgent)
    : StoreError + (option CareerAgent * list CareerAgent) :=
  if negb (validateUpdate u) then inl ValidationFailed
  else match findById id db with
       | None => inr (None, db)
       | Some c =>
         match write (applyUpdate u c) db with
         | inr db' => inr (Some (applyUpdate u c), db')
         | inl e => inl e
         end
       end.

Definition put_update (now : Date) (user : User) (relationshipId : option ObjectId)
    (updateData : UpdateData) (db : list CareerAgent)
    : Response CareerAgent * list CareerAgent :=
  let updateData' :=
    if bool_decide (u_relationshipStatus updateData = Some "inactive")
       && bool_decide (u_endDate updateData = None)
    then mkUpdateData (u_careerAgentId updateData) (u_candidateId updateData)
           (u_relationshipStatus updateData) (u_startDate updateData) (Some now)
           (u_message updateData)
    else updateData in
  match relationshipId with
  | None => (Error 500 InternalError, db)
  | Some id =>
    match findOneAndUpdate id updateData' db with
    | inl _ => (Error 500 InternalError, db)
    | inr (None, _) => (Error 404 NotFound, db)
    | inr (Some relationship, db') => (Json 200 relationship, db')
    end
  end.

(** *** DELETE /:relationshipId *)

(** The collection without the first document of that identifier. *)
Fixpoint deleteOne (id : ObjectId) (db : list CareerAgent) : list CareerAgent :=
  match db with
  | [] => []
  | d :: db' => if bool_decide (_id d = id) then db' else d :: deleteOne id db'
  end.

(** [CareerAgent.findOneAndDelete({ _id })] *)
Definition findOneAndDelete (id : ObjectId) (db : list CareerAgent)
    : option CareerAgent * list CareerAgent :=
  (findById id db, deleteOne id db).

Definition delete_relationship (user : User) (relationshipId : option ObjectId)
    (db : list CareerAgent) : Response unit * list CareerAgent :=
  match relationshipId with
  | None => (Error 500 InternalError, db)
  | Some id =>
    match findOneAndDelete id db with
    | (None, _) => (Error 404 NotFound, db)
    | (Some _, db') => (Json 200 (), db')
    end
  end.

(** *** GET /candidate/:candidateId *)

Definition get_candidate (candidateId' : string) (db : list CareerAgent)
    : Response CareerAgent :=
  match findOne (λ d, bool_decide (candidateId d = Some candidateId')
                      && bool_decide (relationshipStatus d ∈ [active; pending; proposed])) db with
  | None => Error 404 NotFound
  | Some relationship => Json 200 relationship
  end.

(** *** GET /stats/agent/:careerAgentId *)

Record Stats := mkStats {
  totalCandidates : nat;
  activeCandidates : nat;
  pendingCandidates : nat;
  proposedCandidates : nat;
  inactiveCandidates : nat
}.

(** The [$group] stage on the matched documents: one entry
    [{ _id: status, count }] per status that occurs among them. *)
Definition groupByStatus (docs : list CareerAgent) : list (Status * nat) :=
  List.filter (λ g, negb (Nat.eqb g.2 0))
    (map (λ s, (s, length (List.filter (λ d, bool_decide (relationshipStatus d = s)) docs)))
         [active; inactive; pending; proposed; requested; rejected]).

(** [CareerAgent.aggregate([{ $match: { careerAgentId } }, { $group: ... }])] *)
Definition aggregateStats (careerAgentId' : string) (db : list CareerAgent)
    : list (Status * nat) :=
  groupByStatus (List.filter (λ d, bool_decide (careerAgentId d = Some careerAgentId')) db).

(** The body of [stats.forEach]. *)
Definition addStat (formattedStats : Stats) (stat : Status * nat) : Stats :=
  let total := totalCandidates formattedStats + stat.2 in
  match stat.1 with
  | active => mkStats total stat.2 (pendingCandidates formattedStats)
                (proposedCandidates formattedStats) (inactiveCandidates formattedStats)
  | pending => mkStats total (activeCandidates formattedStats) stat.2
                 (proposedCandidates formattedStats) (inactiveCandidates formattedStats)
  | proposed => mkStats total (activeCandidates formattedStats)
                  (pendingCandidates formattedStats) stat.2 (inactiveCandidates formattedStats)
  | inactive => mkStats total (activeCandidates formattedStats)
                  (pendingCandidates formattedStats) (proposedCandidates formattedStats) stat.2
  | _ => mkStats total (activeCandidates formattedStats) (pendingCandidates formattedStats)
           (proposedCandidates formattedStats) (inactiveCandidates formattedStats)
  end.

Definition formatStats (stats : list (Status * nat)) : Stats :=
  foldl addStat (mkStats 0 0 0 0 0) stats.

Definition get_stats (careerAgentId' : string) (db : list CareerAgent) : Response Stats :=
  Json 200 (formatStats (aggregateStats careerAgentId' db)).

(** *** The listing handlers

    [createdAt] is the creation time that the store keeps for the
    document of each identifier ([timestamps: true]); ties of the sort
    are left in the order of the sort at hand. *)

Definition newerFirst (createdAt : ObjectId → Date) (c d : CareerAgent) : Prop :=
  (createdAt (_id d) ≤ createdAt (_id c))%Z.

#[global] Instance newerFirst_dec createdAt c d : Decision (newerFirst createdAt c d).
Proof. unfold newerFirst. apply _. Defined.

(** [.sort({ createdAt: -1 })] *)
Definition sortByCreatedAtDesc (createdAt : ObjectId → Date) (l : list CareerAgent)
    : list CareerAgent :=
  merge_sort (newerFirst createdAt) l.

(** [.limit(parseInt(limit))] with [{ limit = 50 } = req.query]; the
    parameter is [None] when it is missing.  The store reads the limit 0
    as no limit and a negative limit as its absolute value. *)
Definition limitTo (limit : option Z) (l : list CareerAgent) : list CareerAgent :=
  let n := default 50%Z limit in
  if bool_decide (n = 0%Z) then l else take (Z.to_nat (Z.abs n)) l.

(** [CareerAgent.find(query).limit(parseInt(limit)).sort({ createdAt: -1 })] *)
Definition findSortedLimited (createdAt : ObjectId → Date) (query : CareerAgent → bool)
    (limit : option Z) (db : list CareerAgent) : list CareerAgent :=
  limitTo limit (sortByCreatedAtDesc createdAt (List.filter query db)).

(** GET /requests/received *)
Definition get_requests_received (createdAt : ObjectId → Date) (user : User)
    (limit : option Z) (db : list CareerAgent) : Response (list CareerAgent) :=
  Json 200 (findSortedLimited createdAt
              (λ d, bool_decide (careerAgentId d = Some (userId user))
                    && bool_decide (relationshipStatus d = pending)) limit db).

(** GET /requests/sent *)
Definition get_requests_sent (createdAt : ObjectId → Date) (user : User)
    (limit : option Z) (db : list CareerAgent) : Response (list CareerAgent) :=
  Json 200 (findSortedLimited createdAt
              (λ d, bool_decide (candidateId d = Some (userId user))
                    && bool_decide (relationshipStatus d = pending)) limit db).

(** GET /proposals/received *)
Definition get_proposals_received (createdAt : ObjectId → Date) (user : User)
    (limit : option Z) (db : list CareerAgent) : Response (list CareerAgent) :=
  Json 200 (findSortedLimited createdAt
              (λ d, bool_decide (candidateId d = Some (userId user))
                    && bool_decide (relationshipStatus d = proposed)) limit db).

(** GET /proposals/sent *)
Definition get_proposals_sent (createdAt : ObjectId → Date) (user : User)
    (limit : option Z) (db : list CareerAgent) : Response (list CareerAgent) :=
  Json 200 (findSortedLimited createdAt
              (λ d, bool_decide (careerAgentId d = Some (userId user))
                    && bool_decide (relationshipStatus d = proposed)) limit db).

(** [if (status) query.relationshipStatus = status]: a status outside
    the enum matches no document. *)
Definition statusQuery (status : option string) (d : CareerAgent) : bool :=
  if truthy status
  then bool_decide (status ≫= status_of_string = Some (relationshipStatus d))
  else true.

(** GET /connected *)
Definition get_connected (createdAt : ObjectId → Date) (user : User)
    (limit : option Z) (status : option string) (db : list CareerAgent)
    : Response (list CareerAgent) :=
  Json 200 (findSortedLimited createdAt
              (λ d, (bool_decide (candidateId d = Some (userId user))
                     || bool_decide (careerAgentId d = Some (userId user)))
                    && statusQuery status d) limit db).

(** GET /agent/:careerAgentId *)
Definition get_agent (createdAt : ObjectId → Date) (careerAgentId' : string)
    (status : option string) (limit : option Z) (db : list CareerAgent)
    : Response (list CareerAgent) :=
  Json 200 (findSortedLimited createdAt
              (λ d, bool_decide (careerAgentId d = Some careerAgentId')
                    && statusQuery status d) limit db).

End CareerAgentRoutes.

(** ** The cover-letter routes over the [UserCoverLetter] model

    The handlers that read and delete; the two that write pass the
    request body through the trimming setters of the schema and are not
    modelled. *)

Module CoverLetterRoutes.

Record UserCoverLetter := mkUserCoverLetter {
  _id : ObjectId;
  fromUserId : string;
  forUserId : string;
  title : string;
  text : string;
  createdAt : Date
}.

#[global] Instance UserCoverLetter_eq_dec : EqDecision UserCoverLetter.
Proof. solve_decision. Defined.

(** [{ _id: req.params.id, $or: [{ forUserId: userId }, { fromUserId: userId }] }] *)
Definition ownQuery (user : User) (id : ObjectId) (d : UserCoverLetter) : bool :=
  bool_decide (_id d = id)
  && (bool_decide (forUserId d = userId user) || bool_decide (fromUserId d = userId user)).

(** The collection without the first document that passes the query. *)
Fixpoint deleteFirst (query : UserCoverLetter → bool) (db : list UserCoverLetter)
    : list UserCoverLetter :=
  match db with
  | [] => []
  | d :: db' => if query d then db' else d :: deleteFirst query db'
  end.

(** GET /user/:userId *)
Definition get_for_user (user : User) (forUser : string) (db : list UserCoverLetter)
    : Response (list UserCoverLetter) :=
  Json 200 (List.filter (λ d, bool_decide (forUserId d = forUser)
                              && bool_decide (fromUserId d = userId user)) db).

(** GET /:id; the path parameter is [None] when it cannot be cast to
    an [ObjectId]. *)
Definition get_letter (user : User) (id : option ObjectId) (db : list UserCoverLetter)
    : Response UserCoverLetter :=
  match id with
  | None => Error 500 InternalError
  | Some i =>
    match List.find (ownQuery user i) db with
    | None => Error 404 NotFound
    | Some coverLetter => Json 200 coverLetter
    end
  end.

(** DELETE /:id *)
Definition delete_letter (user : User) (id : option ObjectId) (db : list UserCoverLetter)
    : Response unit * list UserCoverLetter :=
  match id with
  | None => (Error 500 InternalError, db)
  | Some i =>
    match List.find (ownQuery user i) db with
    | None => (Error 404 NotFound, db)
    | Some _ => (Json 200 (), deleteFirst (ownQuery user i) db)
    end
  end.

End CoverLetterRoutes.

(** ** Vocabulary of the specification *)

(** The response reports a failure. *)
Definition failed {A} (r : Response A) : Prop :=
  match r with Error _ _ => True | Json _ _ => False end.

Module ConnectionSpec.
Import ConnectionRoutes.

(** The fields an accept must leave alone: the kind, the four party
    identifiers, the message and the end date. *)
Definition sameFrame (c c' : Connection) : Prop :=
  connectionType c' = connectionType c ∧
  careerAgentId c' = careerAgentId c ∧
  candidateId c' = candidateId c ∧
  requestorUserId c' = requestorUserId c ∧
  recipientUserId c' = recipientUserId c ∧
  message c' = message c ∧
  endDate c' = endDate c.

(** [p] is one of the parties of the connection. *)
Definition partyOf (p : string) (c : Connection) : Prop :=
  Some p ∈ [requestorUserId c; recipientUserId c; careerAgentId c; candidateId c].

(** Some connection, whatever its status, has both [u] and [p] among its parties. *)
Definition linked (db : list Connection) (u p : string) : Prop :=
  ∃ c, c ∈ db ∧ partyOf u c ∧ partyOf p c.

(** The receiving party in the sense of the specification: the agent
    of a career-agent record that its candidate initiated, the
    recipient of every other record. *)
Definition receivingParty (c : Connection) : option string :=
  if bool_decide (connectionType c = careerAgent)
     && bool_decide (requestorUserId c = candidateId c)
  then careerAgentId c
  else recipientUserId c.

(** Candidate exclusivity (I3): the active career-agent connections of
    one candidate are one and the same document. *)
Definition exclusive (db : list Connection) : Prop :=
  ∀ c d, c ∈ db → d ∈ db →
    inCandidateIndex c = true → inCandidateIndex d = true →
    candidateId c = candidateId d → _id c = _id d.

(** Identifiers are unique in the collection. *)
Definition uniqueIds (db : list Connection) : Prop := NoDup (map _id db).

(** Every stored document passes the validators of the schema. *)
Definition allValid (db : list Connection) : Prop := ∀ c, c ∈ db → validate c = true.

(** Two connections of one kind between the same two people, in
    either direction of requestor and recipient. *)
Definition samePair (c d : Connection) : Prop :=
  connectionType c = connectionType d ∧
  ((requestorUserId c = requestorUserId d ∧ recipientUserId c = recipientUserId d)
   ∨ (requestorUserId c = recipientUserId d ∧ recipientUserId c = requestorUserId d)).


(** One call of a handler that writes. *)
Inductive step : list Connection → list Connection → Prop :=
| step_create now b dir db : step db (post_create now b dir db).2
| step_request now user b dir db : step db (post_request now user b dir db).2
| step_propose now user b dir db : step db (post_propose now user b dir db).2
| step_accept now user id db : step db (put_accept now user id db).2
| step_reject user id m db : step db (put_reject user id m db).2
| step_update user id b db : step db (put_update user id b db).2.

(** The collections that the handlers produce from the empty one. *)
Definition reachable (db : list Connection) : Prop := rtc step [] db.

(** What one call does to the collection: nothing, the insertion of a
    new document that shares its pair with no stored one, or the
    writing back of a stored document with its kind and its requestor
    and recipient unchanged. *)
Inductive Effect (db db' : list Connection) : Prop :=
| Unchanged : db' = db → Effect db db'
| Inserted c :
    save c db = inr db' → findById (_id c) db = None →
    (∀ d, d ∈ db → ¬ samePair c d) → Effect db db'
| Rewritten c0 c :
    findById (_id c) db = Some c0 → save c db = inr db' →
    connectionType c = connectionType c0 →
    requestorUserId c = requestorUserId c0 →
    recipientUserId c = recipientUserId c0 → Effect db db'.

(** [keys] names the users of the rows of an aggregation over the
    documents of [db] that pass [query], a document being listed under
    the user [other] gives it: no user is named twice, there are no more
    rows than the limit, every row stands for a document that passes,
    and every document that passes is listed under its user when the
    collection is no longer than the limit. *)
Definition OnePerUser (limit : nat) (db : list Connection) (query : Connection → bool)
    (other : Connection → option string) (keys : list (option string)) : Prop :=
  NoDup keys
  ∧ length keys ≤ limit
  ∧ (∀ k, k ∈ keys → ∃ c, c ∈ db ∧ query c = true ∧ other c = k)
  ∧ (length db ≤ limit → ∀ c, c ∈ db → query c = true → other c ∈ keys).

End ConnectionSpec.

Module CareerAgentSpec.
Import CareerAgentRoutes.

Definition sameFrame (c c' : CareerAgent) : Prop :=
  careerAgentId c' = careerAgentId c ∧
  candidateId c' = candidateId c ∧
  message c' = message c ∧
  endDate c' = endDate c.

Definition exclusive (db : list CareerAgent) : Prop :=
  ∀ c d, c ∈ db → d ∈ db →
    relationshipStatus c = active → relationshipStatus d = active →
    candidateId c = candidateId d → _id c = _id d.

Definition uniqueIds (db : list CareerAgent) : Prop := NoDup (map _id db).

Definition allValid (db : list CareerAgent) : Prop := ∀ c, c ∈ db → validate c = true.

(** One call of a handler that writes. *)
Inductive step : list CareerAgent → list CareerAgent → Prop :=
| step_create now b dir db : step db (post_create now b dir db).2
| step_request now user b dir db : step db (post_request now user b dir db).2
| step_propose now user b dir db : step db (post_propose now user b dir db).2
| step_accept now user id db : step db (put_accept now user id db).2
| step_reject now user id m db : step db (put_reject now user id m db).2
| step_update now user id u db : step db (put_update now user id u db).2
| step_delete user id db : step db (delete_relationship user id db).2.

(** The collections that the handlers produce from the empty one. *)
Definition reachable (db : list CareerAgent) : Prop := rtc step [] db.

(** What one call does to the collection: nothing, the write of a
    document that is valid if the stored ones are, or the deletion of
    a document. *)
Inductive Effect (db db' : list CareerAgent) : Prop :=
| Unchanged : db' = db → Effect db db'
| Written c : write c db = inr db' → (allValid db → validate c = true) → Effect db db'
| Deleted id : db' = deleteOne id db → Effect db db'.

(** The counter that the statistics keep for a status; the statuses
    Requested and Rejected have none. *)
Definition statOf (s : Status) (st : Stats) : nat :=
  match s with
  | active => activeCandidates st
  | pending => pendingCandidates st
  | proposed => proposedCandidates st
  | inactive => inactiveCandidates st
  | _ => 0
  end.

(** The number of documents of a status. *)
Definition countStatus (s : Status) (docs : list CareerAgent) : nat :=
  length (List.filter (λ d, bool_decide (relationshipStatus d = s)) docs).

(** [l] lists documents of the collection that satisfy [P], from the
    newest to the oldest; it is no longer than the limit, unless the
    limit is 0, and holds every such document when the limit is 0 or the
    collection is no larger than the limit.  The limit is 50 when the
    caller gives none. *)
Definition Listing (createdAt : ObjectId → Date) (limit : option Z)
    (db : list CareerAgent) (P : CareerAgent → Prop) (l : list CareerAgent) : Prop :=
  (∀ c, c ∈ l → c ∈ db ∧ P c)
  ∧ StronglySorted (newerFirst createdAt) l
  ∧ (default 50%Z limit ≠ 0%Z → length l ≤ Z.to_nat (Z.abs (default 50%Z limit)))
  ∧ (default 50%Z limit = 0%Z ∨ length db ≤ Z.to_nat (Z.abs (default 50%Z limit)) →
     ∀ c, c ∈ db → P c → c ∈ l).

End CareerAgentSpec.

(** ** Scenarios

    The people and the collections of the worked examples; every
    collection is produced by the handlers themselves. *)

Module Scenario.

Local Open Scope Z_scope.

Definition directory : list string := ["U1"; "U2"; "U3"; "A1"; "A2"; "C1"].

Definition U1 := mkUser "U1" (Some "Uma").
Definition U2 := mkUser "U2" None.
Definition A1 := mkUser "A1" (Some "Ann").
Definition A2 := mkUser "A2" None.
Definition C1 := mkUser "C1" None.
Definition X := mkUser "X" None.

Module Conn.
Import ConnectionRoutes.

(** [A1] proposes to [C1] and [C1] accepts. *)
Definition proposed1 : list Connection :=
  (post_propose 10 A1 (mkProposeBody (Some "C1") None) directory []).2.
Definition active1 : list Connection :=
  (put_accept 12 C1 (Some 1%nat) proposed1).2.

(** [A1] proposes to [C1], then [A2] does, then [C1] accepts [A1]. *)
Definition proposed2 : list Connection :=
  (post_propose 11 A2 (mkProposeBody (Some "C1") None) directory proposed1).2.
Definition accepted1 : list Connection :=
  (put_accept 12 C1 (Some 1%nat) proposed2).2.

(** [U1] asks [U2] to be friends and [U2] declines. *)
Definition friendRequest : list Connection :=
  (post_request 20 U1 (mkRequestBody (Some "U2") (Some "friend") None) directory []).2.
Definition friendRejected : list Connection :=
  (put_reject U2 (Some 1%nat) None friendRequest).2.

(** A career-agent record created directly on behalf of the candidate
    [C1], who is its requestor; the agent [A1] is its recipient. *)
Definition candidateInitiated : list Connection :=
  (post_create 30
     (mkCreateBody (Some "A1") (Some "C1") (Some "C1") (Some "A1")
        (Some "careerAgent") None None) directory []).2.

End Conn.

Module Agent.
Import CareerAgentRoutes.

Definition proposed1 : list CareerAgent :=
  (post_propose 10 A1 (mkProposeBody (Some "C1") None) directory []).2.
Definition active1 : list CareerAgent :=
  (put_accept 12 C1 (Some 1%nat) proposed1).2.
Definition proposed2 : list CareerAgent :=
  (post_propose 11 A2 (mkProposeBody (Some "C1") None) directory proposed1).2.
Definition accepted1 : list CareerAgent :=
  (put_accept 12 C1 (Some 1%nat) proposed2).2.

End Agent.

End Scenario.

(** * Properties *)

(** ** The Connection collection and its handlers *)

Module ConnectionLemmas.
Import ConnectionRoutes.

Lemma findById_Some id db c :
  findById id db = Some c → c ∈ db ∧ _id c = id.
Proof.
  unfold findById. intros H. apply find_some in H as [Hin Hid].
  split; [by apply list_elem_of_In | by apply bool_decide_eq_true in Hid].
Qed.

Lemma findById_replace_eq c db d :
  findById (_id c) db = Some d → findById (_id c) (replace c db) = Some c.
Proof.
  unfold findById, replace. induction db as [|x db IH]; simpl; [done|].
  destruct (bool_decide (_id x = _id c)) eqn:E; simpl.
  - intros _. by rewrite bool_decide_eq_true_2.
  - rewrite E. exact IH.
Qed.

Lemma findById_replace_ne id c db :
  id ≠ _id c → findById id (replace c db) = findById id db.
Proof.
  intros Hne. unfold findById, replace. induction db as [|x db IH]; simpl; [done|].
  destruct (bool_decide (_id x = _id c)) eqn:E; simpl.
  - apply bool_decide_eq_true in E.
    rewrite (bool_decide_eq_false_2 (_id c = id)) by congruence.
    rewrite (bool_decide_eq_false_2 (_id x = id)) by congruence.
    exact IH.
  - destruct (bool_decide (_id x = id)); [done | exact IH].
Qed.

Lemma elem_of_replace c db d :
  d ∈ replace c db → d = c ∨ (d ∈ db ∧ _id d ≠ _id c).
Proof.
  unfold replace. intros H. apply list_elem_of_fmap in H as (x & -> & Hx).
  case_bool_decide; [by left | right; done].
Qed.

Lemma findById_app_fresh id db c :
  findById id (db ++ [c]) =
  match findById id db with
  | Some d => Some d
  | None => if bool_decide (_id c = id) then Some c else None
  end.
Proof.
  unfold findById. induction db as [|x db IH]; simpl; [done|].
  destruct (bool_decide (_id x = id)); [done | exact IH].
Qed.

(** What a successful [save] has checked and written. *)
Lemma save_inr c db db' :
  save c db = inr db' →
  validate c = true ∧ existsb (clashes c) db = false ∧
  db' = match findById (_id c) db with
        | Some _ => replace c db
        | None => (db ++ [c])%list
        end.
Proof.
  unfold save. destruct (validate c); simpl; [|done].
  destruct (existsb (clashes c) db); [done|].
  destruct (findById (_id c) db); intros [= <-]; done.
Qed.

(** The anatomy of a successful accept. *)
Lemma put_accept_Json now user cid db code r db' :
  put_accept now user cid db = (Json code r, db') →
  ∃ id c,
    cid = Some id ∧ findById id db = Some c ∧
    (recipientUserId c = Some (userId user) ∨ candidateId c = Some (userId user)) ∧
    relationshipStatus c ∈ [requested; proposed; pending] ∧
    save (set_startDate (Some now) (set_relationshipStatus active c)) db = inr db' ∧
    db' = replace (set_startDate (Some now) (set_relationshipStatus active c)) db ∧
    r = Some (set_startDate (Some now) (set_relationshipStatus active c)) ∧
    code = 200.
Proof.
  unfold put_accept. destruct cid as [id|]; [|done].
  destruct (findById id db) as [c|] eqn:Hf; [|done].
  destruct (negb _ && negb _) eqn:Hauth; [done|].
  destruct (negb (bool_decide (relationshipStatus c ∈ _))) eqn:Hst; [done|].
  destruct (save _ db) as [e|db1] eqn:Hs; [done|].
  intros [= <- <- <-].
  pose proof (findById_Some _ _ _ Hf) as [Hin Hid].
  pose proof (save_inr _ _ _ Hs) as (_ & _ & Hdb). simpl in Hdb.
  rewrite Hid, Hf in Hdb. subst db1.
  exists id, c. repeat split; try done.
  - apply andb_false_iff in Hauth as [H|H]; apply negb_false_iff, bool_decide_eq_true in H; auto.
  - by apply negb_false_iff, bool_decide_eq_true in Hst.
  - subst id.
    exact (findById_replace_eq
             (set_startDate (Some now) (set_relationshipStatus active c)) db c Hf).
Qed.

Import ConnectionSpec.

(** A successful accept leaves the frame of the accepted record alone
    and does not touch the other records. *)
Lemma Connection_accept_frame now user id db code r db' c :
  put_accept now user (Some id) db = (Json code r, db') →
  findById id db = Some c →
  ∃ c', findById id db' = Some c' ∧ r = Some c' ∧ sameFrame c c' ∧
        ∀ id', id' ≠ id → findById id' db' = findById id' db.
Proof.
  intros H Hc.
  apply put_accept_Json in H as (id0 & c0 & [= <-] & Hf & _ & _ & Hs & -> & -> & _).
  rewrite Hc in Hf. injection Hf as <-.
  pose proof (findById_Some _ _ _ Hc) as [_ Hid].
  exists (set_startDate (Some now) (set_relationshipStatus active c)).
  split; [|split; [done|split; [by repeat split|]]].
  - subst id. exact (findById_replace_eq
                       (set_startDate (Some now) (set_relationshipStatus active c)) db c Hc).
  - intros id' Hne. apply findById_replace_ne. simpl. congruence.
Qed.

(** The anatomy of a successful reject. *)
Lemma put_reject_Json user id m db code r db' c :
  put_reject user (Some id) m db = (Json code r, db') →
  findById id db = Some c →
  let c' := if truthy m then set_message m (set_relationshipStatus rejected c)
            else set_relationshipStatus rejected c in
  findById id db' = Some c' ∧ r = Some c' ∧ db' = replace c' db.
Proof.
  unfold put_reject. intros H Hc. rewrite Hc in H.
  destruct (bool_decide _ && bool_decide _); [done|].
  pose proof (findById_Some _ _ _ Hc) as [_ Hid].
  destruct (save _ db) as [e|db1] eqn:Hs; [done|].
  injection H as <- <- <-.
  apply save_inr in Hs as (_ & _ & Hdb).
  assert (Hid' : _id (if truthy m then set_message m (set_relationshipStatus rejected c)
                      else set_relationshipStatus rejected c) = id)
    by (destruct (truthy m); exact Hid).
  rewrite Hid', Hc in Hdb. subst db1. simpl.
  assert (findById id (replace (if truthy m
                                then set_message m (set_relationshipStatus rejected c)
                                else set_relationshipStatus rejected c) db)
          = Some (if truthy m then set_message m (set_relationshipStatus rejected c)
                  else set_relationshipStatus rejected c)) as Hfind.
  { rewrite <- Hid' at 1. eapply findById_replace_eq. rewrite Hid'. exact Hc. }
  rewrite Hfind. done.
Qed.

(** An actor who is neither the recipient nor the candidate of the
    record is refused, by accept and by reject alike. *)
Lemma Connection_accept_reject_forbidden now user id m db c :
  findById id db = Some c →
  recipientUserId c ≠ Some (userId user) →
  candidateId c ≠ Some (userId user) →
  put_accept now user (Some id) db = (Error 403 Forbidden, db) ∧
  put_reject user (Some id) m db = (Error 403 Forbidden, db).
Proof.
  intros Hc Hr Hk. unfold put_accept, put_reject. rewrite Hc.
  rewrite (bool_decide_eq_false_2 _ Hr), (bool_decide_eq_false_2 _ Hk).
  rewrite (bool_decide_eq_true_2 _ Hr), (bool_decide_eq_true_2 _ Hk). done.
Qed.

(** An accept never changes a rejected record; a reject leaves it rejected. *)
Lemma Connection_rejected_final id db c :
  findById id db = Some c →
  relationshipStatus c = rejected →
  (∀ now user, ∃ r, put_accept now user (Some id) db = (r, db) ∧ failed r) ∧
  (∀ user m r db', put_reject user (Some id) m db = (r, db') →
     ∃ c', findById id db' = Some c' ∧ relationshipStatus c' = rejected).
Proof.
  intros Hc Hst. split.
  - intros now user. unfold put_accept. rewrite Hc, Hst.
    destruct (negb _ && negb _); [by eexists|].
    rewrite bool_decide_eq_false_2; [by eexists|].
    rewrite !elem_of_cons, elem_of_nil. intros [?|[?|[?|[]]]]; discriminate.
  - intros user m r db' H. destruct r as [code r|code k].
    + pose proof (put_reject_Json _ _ _ _ _ _ _ _ H Hc) as (Hf & _ & _).
      eexists; split; [exact Hf|]. by destruct (truthy m).
    + assert (db' = db) as ->.
      { revert H. unfold put_reject. rewrite Hc.
        destruct (bool_decide _ && bool_decide _); [by intros [= <-]|].
        destruct (save _ db); [by intros [= <-]|done]. }
      by exists c.
Qed.

(** An update by someone who is no party of the record is refused. *)
Lemma Connection_update_forbidden user id b db c :
  findById id db = Some c →
  ¬ partyOf (userId user) c →
  put_update user (Some id) b db = (Error 403 Forbidden, db).
Proof.
  intros Hc Hp. unfold put_update. rewrite Hc.
  rewrite bool_decide_eq_false_2; done.
Qed.

(** The identifier of a new document is carried by no stored one. *)
Lemma freshId_fresh (ids : list ObjectId) : freshId ids ∉ ids.
Proof.
  intros Hin. unfold freshId in Hin.
  assert (Forall (λ k, (k ≤ list_max ids)%nat) ids) as Hall by (by apply list_max_le).
  rewrite Forall_forall in Hall. specialize (Hall _ Hin). lia.
Qed.

Lemma findById_fresh db : findById (freshId (map _id db)) db = None.
Proof.
  destruct (findById _ db) as [c|] eqn:Hf; [|done].
  apply findById_Some in Hf as [Hin Hid].
  exfalso. apply (freshId_fresh (map _id db)). rewrite <- Hid.
  apply list_elem_of_fmap. eauto.
Qed.

(** Saving a document under a fresh identifier appends it. *)
Lemma save_fresh c db db' :
  _id c = freshId (map _id db) →
  save c db = inr db' →
  db' = (db ++ [c])%list ∧ findById (_id c) db' = Some c.
Proof.
  intros Hid Hs. apply save_inr in Hs as (_ & _ & ->).
  rewrite Hid, findById_fresh. split; [done|].
  rewrite findById_app_fresh, findById_fresh, <- Hid.
  by rewrite bool_decide_eq_true_2.
Qed.

(** The anatomy of a successful direct creation. *)
Lemma post_create_Json now b dir db code r db' :
  post_create now b dir db = (Json code r, db') →
  ∃ c, r = Some c ∧ db' = (db ++ [c])%list ∧ code = 201 ∧
       startDate c = Some now ∧ endDate c = None ∧
       requestorUserId c = b_requestorUserId b ∧
       recipientUserId c = b_recipientUserId b ∧
       (∀ s, b_relationshipStatus b = Some s →
             status_of_string s = Some (relationshipStatus c)).
Proof.
  unfold post_create.
  destruct (negb (validateConnectionRelationship b)); [done|].
  destruct (b_connectionType b ≫= connectionType_of_string) as [ty|]; [|done].
  destruct (status_of_string (default "pending" (b_relationshipStatus b))) as [st|] eqn:Hst;
    [|done].
  match goal with |- context [if ?g then _ else _] => destruct g end; [done|].
  destruct (negb (profileExists dir (b_requestorUserId b))); [done|].
  destruct (negb (profileExists dir (b_recipientUserId b))); [done|].
  destruct (findOne _ db); [done|].
  match goal with |- context [save ?c db] => set (conn := c) end.
  destruct (save conn db) as [[]|db1] eqn:Hs; [done|done|].
  intros [= <- <- <-].
  apply (save_fresh conn db db1 eq_refl) in Hs as [-> Hf].
  exists conn. split; [exact Hf|]. repeat split; try done.
  intros s Hs. rewrite Hs in Hst. exact Hst.
Qed.

(** [List.find] finds a document as soon as one passes the filter. *)
Lemma findOne_is_Some (f : Connection → bool) db d :
  d ∈ db → f d = true → ∃ x, findOne f db = Some x.
Proof.
  intros Hin Hf. destruct (findOne f db) as [x|] eqn:E; [by eexists|].
  apply list_elem_of_In in Hin.
  pose proof (find_none _ _ E d Hin). congruence.
Qed.

(** A proposal is refused as soon as the two users share a career-agent
    connection, whatever its status. *)
Lemma Connection_propose_conflict now user b dir db d :
  truthy (p_candidateUserId b) = true →
  profileExists dir (p_candidateUserId b) = true →
  d ∈ db →
  connectionType d = careerAgent →
  (careerAgentId d = Some (userId user) ∧ candidateId d = p_candidateUserId b)
  ∨ (requestorUserId d = Some (userId user) ∧ recipientUserId d = p_candidateUserId b)
  ∨ (requestorUserId d = p_candidateUserId b ∧ recipientUserId d = Some (userId user)) →
  post_propose now user b dir db = (Error 400 Conflict, db).
Proof.
  intros Ht Hp Hin Hty Hd. unfold post_propose. rewrite Ht, Hp. simpl.
  match goal with |- context [findOne ?f db] =>
    destruct (findOne_is_Some f db d Hin) as [x ->]; [|done] end.
  simpl. rewrite (bool_decide_eq_true_2 _ Hty).
  destruct Hd as [[H1 H2]|[[H1 H2]|[H1 H2]]];
    rewrite (bool_decide_eq_true_2 _ H1), (bool_decide_eq_true_2 _ H2);
    rewrite ?orb_true_r; done.
Qed.

(** A request is refused as soon as a connection of the requested kind
    links the two users in either direction, whatever its status. *)
Lemma Connection_request_conflict now user b dir db ty d :
  truthy (r_recipientUserId b) = true →
  r_connectionType b ≫= connectionType_of_string = Some ty →
  profileExists dir (r_recipientUserId b) = true →
  d ∈ db →
  connectionType d = ty →
  (requestorUserId d = Some (userId user) ∧ recipientUserId d = r_recipientUserId b)
  ∨ (requestorUserId d = r_recipientUserId b ∧ recipientUserId d = Some (userId user)) →
  post_request now user b dir db = (Error 400 Conflict, db).
Proof.
  intros Ht Hty Hp Hin Hk Hd. unfold post_request. rewrite Ht, Hty, Hp.
  assert (truthy (r_connectionType b) = true) as ->.
  { destruct (r_connectionType b) as [s|]; [|done]. simpl in *.
    apply bool_decide_eq_true_2. intros ->. done. }
  simpl.
  match goal with |- context [findOne ?f db] =>
    destruct (findOne_is_Some f db d Hin) as [x ->]; [|done] end.
  simpl. rewrite (bool_decide_eq_true_2 _ Hk).
  destruct Hd as [[H1 H2]|[H1 H2]];
    rewrite (bool_decide_eq_true_2 _ H1), (bool_decide_eq_true_2 _ H2);
    rewrite ?orb_true_r; done.
Qed.

(** *** Potential contacts *)

Lemma partyOf_involves u c : partyOf u c ↔ involves u c = true.
Proof.
  unfold partyOf, involves. rewrite !elem_of_cons, elem_of_nil.
  rewrite !orb_true_iff, !bool_decide_eq_true.
  split; intros H; repeat (destruct H as [H|H]); try done; auto 10 using eq_sym.
Qed.

Lemma truthy_Some p : truthy (Some p) = true ↔ p ≠ "".
Proof. simpl. apply bool_decide_eq_true. Qed.

(** What one connection adds to the set of connected user ids. *)
Lemma elem_of_addConnected u s c x :
  x ∈ addConnected u s c ↔
  x ∈ s
  ∨ (x = requestorUserId c ∧ x ≠ Some u)
  ∨ (x = recipientUserId c ∧ x ≠ Some u)
  ∨ (x = careerAgentId c ∧ truthy x = true ∧ x ≠ Some u)
  ∨ (x = candidateId c ∧ truthy x = true ∧ x ≠ Some u).
Proof.
  unfold addConnected.
  destruct (truthy (careerAgentId c)) eqn:Ha, (truthy (candidateId c)) eqn:Hk;
    repeat case_bool_decide; simpl;
    rewrite ?elem_of_union, ?elem_of_singleton; split; intros Hx;
    repeat match goal with
           | H : _ ∨ _ |- _ => destruct H as [H|H]
           | H : _ ∧ _ |- _ => destruct H
           end; subst; try congruence; eauto 10.
Qed.

Lemma elem_of_foldl_addConnected u l s x :
  x ∈ foldl (addConnected u) s l ↔
  x ∈ s ∨ ∃ c, c ∈ l ∧ x ∈ addConnected u ∅ c.
Proof.
  revert s. induction l as [|c l IH]; intros s; simpl.
  - split; [by left|]. intros [H|(c & Hc & _)]; [done|]. by apply elem_of_nil in Hc.
  - rewrite IH, (elem_of_addConnected u s c).
    split.
    + intros [[H|H]|(d & Hd & H)].
      * by left.
      * right. exists c. split; [apply list_elem_of_here|]. apply elem_of_addConnected. by right.
      * right. exists d. split; [by apply list_elem_of_further|done].
    + intros [H|(d & Hd & H)]; [by left; left|].
      apply elem_of_cons in Hd as [->|Hd].
      * apply elem_of_addConnected in H as [H|H]; [by apply elem_of_empty in H|].
        left. by right.
      * right. eauto.
Qed.

(** The ids excluded from the potential contacts: the user, and every
    party of a connection that the user is a party of. *)
Lemma excluded_iff u db p :
  p ≠ "" →
  Some p ∈ excludeUserIds u db ↔ p = u ∨ linked db u p.
Proof.
  intros Hp. unfold excludeUserIds, connectedUserIds, linked.
  rewrite elem_of_app, list_elem_of_singleton, elem_of_elements,
    elem_of_foldl_addConnected.
  split.
  - intros [[H|(c & Hc & H)]|[= ->]]; [by apply elem_of_empty in H| |by left].
    right. apply list_elem_of_filter in Hc as [Hinv Hc].
    exists c. split; [done|]. split; [by apply partyOf_involves|].
    apply elem_of_addConnected in H. unfold partyOf.
    rewrite !elem_of_cons.
    destruct H as [H|[[-> _]|[[-> _]|[[-> _]|[-> _]]]]]; [by apply elem_of_empty in H|..];
      eauto 10.
  - intros [->|(c & Hc & Hu & Hpc)]; [by right|].
    destruct (decide (p = u)) as [->|Hne]; [by right|].
    left. right. exists c. split.
    + apply list_elem_of_filter. split; [by apply partyOf_involves|done].
    + apply elem_of_addConnected. right.
      assert (Some p ≠ Some u) by congruence.
      assert (truthy (Some p) = true) by (by apply truthy_Some).
      unfold partyOf in Hpc. rewrite !elem_of_cons, elem_of_nil in Hpc.
      destruct Hpc as [H1|[H1|[H1|[H1|[]]]]]; eauto 10.
Qed.

(** Whoever is returned is a profile of the directory other than the
    user, linked to the user by no connection at all. *)
Lemma potentialcontact_sound user limit dir db p :
  p ≠ "" →
  p ∈ get_potentialcontact user limit dir db →
  p ∈ dir ∧ p ≠ userId user ∧ ¬ linked db (userId user) p.
Proof.
  intros Hp Hin. unfold get_potentialcontact in Hin.
  apply subseteq_take, list_elem_of_filter in Hin as [Hex Hdir].
  rewrite (excluded_iff _ _ _ Hp) in Hex. tauto.
Qed.

(** Within the limit, every other profile is returned. *)
Lemma potentialcontact_complete user limit dir db p :
  p ≠ "" →
  length dir ≤ parseLimit limit →
  p ∈ dir → p ≠ userId user → ¬ linked db (userId user) p →
  p ∈ get_potentialcontact user limit dir db.
Proof.
  intros Hp Hlen Hdir Hne Hl. unfold get_potentialcontact.
  rewrite take_ge.
  - apply list_elem_of_filter. split; [|done].
    rewrite (excluded_iff _ _ _ Hp). tauto.
  - etrans; [apply length_filter|done].
Qed.

(** *** Candidate exclusivity *)

(** A successful accept keeps the active career-agent connections of
    every candidate unique. *)
Lemma Connection_accept_exclusive now user cid db code r db' :
  exclusive db →
  put_accept now user cid db = (Json code r, db') →
  exclusive db'.
Proof.
  intros Hex H.
  apply put_accept_Json in H as (id & c & _ & _ & _ & _ & Hs & -> & _ & _).
  apply save_inr in Hs as (_ & Hno & _).
  set (c' := set_startDate (Some now) (set_relationshipStatus active c)) in *.
  assert (∀ y, y ∈ db → _id y ≠ _id c' → inCandidateIndex y = true →
               inCandidateIndex c' = true → candidateId y = candidateId c' → False) as Hclash.
  { intros y Hy Hid Hiy Hic Hk.
    assert (existsb (clashes c') db = true) as Hc; [|congruence].
    apply existsb_exists. exists y. split; [by apply list_elem_of_In|].
    unfold clashes. rewrite Hiy, Hic.
    rewrite (bool_decide_eq_false_2 _ Hid), (bool_decide_eq_true_2 _ Hk). done. }
  intros x y Hx Hy Hix Hiy Hk.
  apply elem_of_replace in Hx as [->|[Hx Hxid]];
    apply elem_of_replace in Hy as [->|[Hy Hyid]].
  - done.
  - exfalso. eapply (Hclash y); eauto.
  - exfalso. eapply (Hclash x); eauto.
  - by apply Hex.
Qed.

(** When another career-agent connection of the candidate is active,
    the write is refused by the unique index and the handler answers
    500; the collection is as before. *)
Lemma Connection_accept_breach now user id db c d :
  findById id db = Some c →
  recipientUserId c = Some (userId user) ∨ candidateId c = Some (userId user) →
  relationshipStatus c ∈ [requested; proposed; pending] →
  connectionType c = careerAgent →
  d ∈ db → _id d ≠ id → inCandidateIndex d = true → candidateId d = candidateId c →
  put_accept now user (Some id) db = (Error 500 InternalError, db).
Proof.
  intros Hc Hauth Hst Hty Hd Hid Hix Hk.
  pose proof (findById_Some _ _ _ Hc) as [_ Hidc].
  unfold put_accept. rewrite Hc.
  assert (negb (bool_decide (recipientUserId c = Some (userId user)))
          && negb (bool_decide (candidateId c = Some (userId user))) = false) as ->.
  { destruct Hauth as [H|H]; rewrite (bool_decide_eq_true_2 _ H); simpl;
      [done | apply andb_false_r]. }
  rewrite (bool_decide_eq_true_2 _ Hst). simpl.
  unfold save. destruct (negb (validate _)); [done|].
  assert (existsb (clashes (set_startDate (Some now) (set_relationshipStatus active c))) db
          = true) as ->; [|done].
  apply existsb_exists. exists d. split; [by apply list_elem_of_In|].
  unfold clashes, inCandidateIndex at 1. simpl. rewrite Hix.
  rewrite (bool_decide_eq_false_2 (_id d = _id c)) by congruence.
  rewrite (bool_decide_eq_true_2 _ Hty), (bool_decide_eq_true_2 _ Hk). done.
Qed.

End ConnectionLemmas.

(** ** The CareerAgent collection and its handlers *)

Module CareerAgentLemmas.
Import CareerAgentRoutes CareerAgentSpec.

Lemma findOne_Some (f : CareerAgent → bool) db c :
  findOne f db = Some c → c ∈ db ∧ f c = true.
Proof.
  unfold findOne. intros H. apply find_some in H as [Hin Hf].
  split; [by apply list_elem_of_In | done].
Qed.

Lemma rel_findOne_is_Some (f : CareerAgent → bool) db d :
  d ∈ db → f d = true → ∃ x, findOne f db = Some x.
Proof.
  intros Hin Hf. destruct (findOne f db) as [x|] eqn:E; [by eexists|].
  apply list_elem_of_In in Hin.
  pose proof (find_none _ _ E d Hin). congruence.
Qed.

Lemma rel_findById_Some id db c :
  findById id db = Some c → c ∈ db ∧ _id c = id.
Proof.
  intros H. apply findOne_Some in H as [Hin Hid].
  split; [done | by apply bool_decide_eq_true in Hid].
Qed.

Lemma rel_findById_replace_eq c db d :
  findById (_id c) db = Some d → findById (_id c) (replace c db) = Some c.
Proof.
  unfold findById, findOne, replace. induction db as [|x db IH]; simpl; [done|].
  destruct (bool_decide (_id x = _id c)) eqn:E; simpl.
  - intros _. by rewrite bool_decide_eq_true_2.
  - rewrite E. exact IH.
Qed.

Lemma rel_findById_replace_ne id c db :
  id ≠ _id c → findById id (replace c db) = findById id db.
Proof.
  intros Hne. unfold findById, findOne, replace.
  induction db as [|x db IH]; simpl; [done|].
  destruct (bool_decide (_id x = _id c)) eqn:E; simpl.
  - apply bool_decide_eq_true in E.
    rewrite (bool_decide_eq_false_2 (_id c = id)) by congruence.
    rewrite (bool_decide_eq_false_2 (_id x = id)) by congruence.
    exact IH.
  - destruct (bool_decide (_id x = id)); [done | exact IH].
Qed.

Lemma rel_elem_of_replace c db d :
  d ∈ replace c db → d = c ∨ (d ∈ db ∧ _id d ≠ _id c).
Proof.
  unfold replace. intros H. apply list_elem_of_fmap in H as (x & -> & Hx).
  case_bool_decide; [by left | right; done].
Qed.

Lemma rel_findById_app_fresh id db c :
  findById id (db ++ [c]) =
  match findById id db with
  | Some d => Some d
  | None => if bool_decide (_id c = id) then Some c else None
  end.
Proof.
  unfold findById, findOne. induction db as [|x db IH]; simpl; [done|].
  destruct (bool_decide (_id x = id)); [done | exact IH].
Qed.

Lemma rel_findById_fresh db : findById (freshId (map _id db)) db = None.
Proof.
  destruct (findById _ db) as [c|] eqn:Hf; [|done].
  apply rel_findById_Some in Hf as [Hin Hid].
  exfalso. apply (ConnectionLemmas.freshId_fresh (map _id db)). rewrite <- Hid.
  apply list_elem_of_fmap. eauto.
Qed.

(** Identifiers are unique: two stored documents with one identifier are one. *)
Lemma NoDup_ids_eq db x y :
  NoDup (map _id db) → x ∈ db → y ∈ db → _id x = _id y → x = y.
Proof.
  induction db as [|a db IH]; simpl; intros Hnd Hx Hy Heq.
  - by apply elem_of_nil in Hx.
  - apply NoDup_cons in Hnd as [Hnotin Hnd].
    apply elem_of_cons in Hx as [->|Hx]; apply elem_of_cons in Hy as [->|Hy].
    + done.
    + exfalso. apply Hnotin. rewrite Heq. apply list_elem_of_fmap. eauto.
    + exfalso. apply Hnotin. rewrite <- Heq. apply list_elem_of_fmap. eauto.
    + by apply IH.
Qed.

(** Under unique identifiers the query of accept and reject loads the
    document of that identifier, or nothing. *)
Lemma findOne_open_is_findById id db c r :
  NoDup (map _id db) →
  findById id db = Some c →
  findOne (λ d, bool_decide (_id d = id)
                && bool_decide (relationshipStatus d ∈ [pending; proposed])) db = Some r →
  r = c ∧ relationshipStatus c ∈ [pending; proposed].
Proof.
  intros Hnd Hc Hr.
  apply rel_findById_Some in Hc as [Hc Hid].
  apply findOne_Some in Hr as [Hr Hf].
  apply andb_true_iff in Hf as [Hrid Hst].
  apply bool_decide_eq_true in Hrid, Hst.
  assert (r = c) as -> by (eapply NoDup_ids_eq; eauto; congruence).
  done.
Qed.

Lemma rel_save_inr c db db' :
  save c db = inr db' →
  validate c = true ∧ existsb (clashes c) db = false ∧
  db' = match findById (_id c) db with
        | Some _ => replace c db
        | None => (db ++ [c])%list
        end.
Proof.
  unfold save, write. destruct (validate c); simpl; [|done].
  destruct (existsb (clashes c) db); [done|].
  destruct (findById (_id c) db); intros [= <-]; done.
Qed.

(** The anatomy of a successful accept. *)
Lemma rel_put_accept_Json now user id db code r db' c :
  NoDup (map _id db) →
  put_accept now user (Some id) db = (Json code r, db') →
  findById id db = Some c →
  relationshipStatus c ∈ [pending; proposed] ∧ isAuthorized user c = true ∧
  r = set_startDate (Some now) (set_relationshipStatus active c) ∧
  save r db = inr db' ∧ db' = replace r db ∧ findById id db' = Some r.
Proof.
  intros Hnd H Hc. unfold put_accept in H.
  destruct (findOne _ db) as [rel|] eqn:Hf; [|done].
  destruct (findOne_open_is_findById _ _ _ _ Hnd Hc Hf) as [-> Hst].
  destruct (negb (isAuthorized user c)) eqn:Hauth; [done|].
  destruct (save _ db) as [e|db1] eqn:Hs; [done|].
  injection H as <- <- <-.
  pose proof (rel_findById_Some _ _ _ Hc) as [_ Hid].
  pose proof (rel_save_inr _ _ _ Hs) as (_ & _ & Hdb). simpl in Hdb.
  rewrite Hid, Hc in Hdb. subst db1.
  repeat split; try done.
  - by apply negb_false_iff in Hauth.
  - subst id. exact (rel_findById_replace_eq
                       (set_startDate (Some now) (set_relationshipStatus active c)) db c Hc).
Qed.

(** The anatomy of a successful reject. *)
Lemma rel_put_reject_Json now user id m db code r db' c :
  NoDup (map _id db) →
  put_reject now user (Some id) m db = (Json code r, db') →
  findById id db = Some c →
  r = (if truthy m
       then set_message m (set_endDate (Some now) (set_relationshipStatus inactive c))
       else set_endDate (Some now) (set_relationshipStatus inactive c)) ∧
  db' = replace r db ∧ findById id db' = Some r.
Proof.
  intros Hnd H Hc. unfold put_reject in H.
  destruct (findOne _ db) as [rel|] eqn:Hf; [|done].
  destruct (findOne_open_is_findById _ _ _ _ Hnd Hc Hf) as [-> Hst].
  destruct (negb (isAuthorized user c)); [done|].
  destruct (save _ db) as [e|db1] eqn:Hs; [done|].
  injection H as <- <- <-.
  pose proof (rel_findById_Some _ _ _ Hc) as [_ Hid].
  apply rel_save_inr in Hs as (_ & _ & Hdb).
  set (r := if truthy m
            then set_message m (set_endDate (Some now) (set_relationshipStatus inactive c))
            else set_endDate (Some now) (set_relationshipStatus inactive c)) in *.
  assert (Hid' : _id r = id) by (unfold r; destruct (truthy m); exact Hid).
  rewrite Hid', Hc in Hdb. subst db1.
  repeat split; try done.
  rewrite <- Hid'. eapply rel_findById_replace_eq. rewrite Hid'. exact Hc.
Qed.

(** The receiving party alone may answer: the agent of a pending
    request, the candidate of a proposal. *)
Lemma CareerAgent_accept_reject_forbidden now user id m db c :
  findById id db = Some c →
  (relationshipStatus c = pending ∧ careerAgentId c ≠ Some (userId user))
  ∨ (relationshipStatus c = proposed ∧ candidateId c ≠ Some (userId user)) →
  put_accept now user (Some id) db = (Error 403 Forbidden, db) ∧
  put_reject now user (Some id) m db = (Error 403 Forbidden, db).
Proof.
  intros Hc Hst.
  assert (findOne (λ d, bool_decide (_id d = id)
            && bool_decide (relationshipStatus d ∈ [pending; proposed])) db = Some c) as Hf.
  { revert Hc. unfold findById, findOne.
    induction db as [|x db IH]; simpl; [done|].
    destruct (bool_decide (_id x = id)); simpl; [|exact IH].
    intros [= ->]. rewrite bool_decide_eq_true_2; [done|].
    rewrite !elem_of_cons. destruct Hst as [[-> _]|[-> _]]; auto. }
  assert (isAuthorized user c = false) as Hauth.
  { unfold isAuthorized. destruct Hst as [[-> H]|[-> H]]; by apply bool_decide_eq_false_2. }
  unfold put_accept, put_reject. rewrite Hf, Hauth. done.
Qed.

(** A rejected record is out of the reach of accept and reject. *)
Lemma CareerAgent_rejected_final now user id m db c :
  NoDup (map _id db) →
  findById id db = Some c →
  relationshipStatus c = rejected →
  put_accept now user (Some id) db = (Error 404 NotFound, db) ∧
  put_reject now user (Some id) m db = (Error 404 NotFound, db).
Proof.
  intros Hnd Hc Hst.
  assert (findOne (λ d, bool_decide (_id d = id)
            && bool_decide (relationshipStatus d ∈ [pending; proposed])) db = None) as Hf.
  { destruct (findOne _ db) as [r|] eqn:Hf; [|done].
    destruct (findOne_open_is_findById _ _ _ _ Hnd Hc Hf) as [_ H].
    rewrite Hst, !elem_of_cons, elem_of_nil in H.
    destruct H as [?|[?|[]]]; discriminate. }
  unfold put_accept, put_reject. rewrite Hf. done.
Qed.

(** The query of accept and reject finds the document of that
    identifier when it is still open. *)
Lemma findOne_open id db c :
  findById id db = Some c →
  relationshipStatus c ∈ [pending; proposed] →
  findOne (λ d, bool_decide (_id d = id)
                && bool_decide (relationshipStatus d ∈ [pending; proposed])) db = Some c.
Proof.
  intros Hc Hst. revert Hc. unfold findById, findOne.
  induction db as [|x db IH]; simpl; [done|].
  destruct (bool_decide (_id x = id)); simpl; [|exact IH].
  intros [= ->]. by rewrite bool_decide_eq_true_2.
Qed.

(** The anatomy of a successful direct creation. *)
Lemma rel_post_create_Json now b dir db code r db' :
  post_create now b dir db = (Json code r, db') →
  db' = (db ++ [r])%list ∧ code = 201 ∧
  startDate r = Some now ∧ endDate r = None ∧
  careerAgentId r = b_careerAgentId b ∧ candidateId r = b_candidateId b ∧
  (b_relationshipStatus b = None → relationshipStatus r = active) ∧
  (∀ s, b_relationshipStatus b = Some s →
        status_of_string s = Some (relationshipStatus r)).
Proof.
  unfold post_create.
  destruct (negb (validateCareerAgentRelationship b)) eqn:Hv; [done|].
  destruct (bool_decide (b_careerAgentId b = b_candidateId b)); [done|].
  destruct (negb (profileExists dir (b_careerAgentId b))); [done|].
  destruct (negb (profileExists dir (b_candidateId b))); [done|].
  destruct (findOne _ db); [done|].
  destruct (findOne _ db); [done|].
  destruct (status_of_string (or_else (b_relationshipStatus b) "active")) as [st|] eqn:Hst;
    [|done].
  match goal with |- context [save ?c db] => set (rel := c) end.
  destruct (save rel db) as [[]|db1] eqn:Hs; [done|done|].
  intros [= <- <- <-].
  apply rel_save_inr in Hs as (_ & _ & ->).
  change (_id rel) with (freshId (map _id db)). rewrite rel_findById_fresh.
  repeat split; try done.
  - intros Hn. rewrite Hn in Hst. simpl in Hst. by injection Hst as <-.
  - intros s Hs. rewrite Hs in Hst. simpl in Hst.
    case_bool_decide as Hne; [done|].
    subst s.
    apply negb_false_iff in Hv. unfold validateCareerAgentRelationship in Hv.
    rewrite Hs in Hv. simpl in Hv. by rewrite !andb_false_r in Hv.
Qed.

(** A proposal is refused when the candidate has an active agent, or
    when a pending or proposed record of the pair exists. *)
Lemma CareerAgent_propose_conflict now user b dir db d :
  Some (userId user) ≠ p_candidateId b →
  profileExists dir (p_candidateId b) = true →
  d ∈ db →
  (candidateId d = p_candidateId b ∧ relationshipStatus d = active)
  ∨ (careerAgentId d = Some (userId user) ∧ candidateId d = p_candidateId b
     ∧ relationshipStatus d ∈ [pending; proposed]) →
  post_propose now user b dir db = (Error 400 Conflict, db).
Proof.
  intros Hne Hp Hin Hd. unfold post_propose.
  rewrite (bool_decide_eq_false_2 _ Hne), Hp. simpl.
  destruct (findOne _ db) eqn:Ha; [done|].
  destruct Hd as [[H1 H2]|(H1 & H2 & H3)].
  - exfalso. apply list_elem_of_In in Hin.
    pose proof (find_none _ _ Ha d Hin) as Hn. simpl in Hn.
    by rewrite (bool_decide_eq_true_2 _ H1), (bool_decide_eq_true_2 _ H2) in Hn.
  - match goal with |- context [findOne ?f db] =>
      destruct (rel_findOne_is_Some f db d Hin) as [x ->]; [|done] end.
    simpl. by rewrite (bool_decide_eq_true_2 _ H1), (bool_decide_eq_true_2 _ H2),
      (bool_decide_eq_true_2 _ H3).
Qed.

(** A request is refused when the candidate has an active agent, or
    when a pending record of the pair exists. *)
Lemma CareerAgent_request_conflict now user b dir db d :
  r_careerAgentId b ≠ Some (userId user) →
  profileExists dir (r_careerAgentId b) = true →
  d ∈ db →
  (candidateId d = Some (userId user) ∧ relationshipStatus d = active)
  ∨ (careerAgentId d = r_careerAgentId b ∧ candidateId d = Some (userId user)
     ∧ relationshipStatus d = pending) →
  post_request now user b dir db = (Error 400 Conflict, db).
Proof.
  intros Hne Hp Hin Hd. unfold post_request.
  rewrite (bool_decide_eq_false_2 _ Hne), Hp. simpl.
  destruct (findOne _ db) eqn:Ha; [done|].
  destruct Hd as [[H1 H2]|(H1 & H2 & H3)].
  - exfalso. apply list_elem_of_In in Hin.
    pose proof (find_none _ _ Ha d Hin) as Hn. simpl in Hn.
    by rewrite (bool_decide_eq_true_2 _ H1), (bool_decide_eq_true_2 _ H2) in Hn.
  - match goal with |- context [findOne ?f db] =>
      destruct (rel_findOne_is_Some f db d Hin) as [x ->]; [|done] end.
    simpl. by rewrite (bool_decide_eq_true_2 _ H1), (bool_decide_eq_true_2 _ H2),
      (bool_decide_eq_true_2 _ H3).
Qed.

(** Nobody becomes their own career agent: the three creating handlers
    refuse equal parties before anything else is looked at. *)
Lemma CareerAgent_self_rejected now user dir db :
  (∀ b, b_careerAgentId b = b_candidateId b →
        post_create now b dir db = (Error 400 ValidationError, db)) ∧
  (∀ b, r_careerAgentId b = Some (userId user) →
        post_request now user b dir db = (Error 400 ValidationError, db)) ∧
  (∀ b, p_candidateId b = Some (userId user) →
        post_propose now user b dir db = (Error 400 ValidationError, db)).
Proof.
  split; [|split]; intros b Hb.
  - unfold post_create. destruct (negb _); [done|].
    by rewrite (bool_decide_eq_true_2 _ Hb).
  - unfold post_request. by rewrite (bool_decide_eq_true_2 _ Hb).
  - unfold post_propose. by rewrite bool_decide_eq_true_2.
Qed.

(** What a successful accept has written. *)
Lemma put_accept_saved now user cid db code r db' :
  put_accept now user cid db = (Json code r, db') →
  relationshipStatus r = active ∧ save r db = inr db' ∧ db' = replace r db.
Proof.
  unfold put_accept. destruct cid as [id|]; [|done].
  destruct (findOne _ db) as [rel|] eqn:Hf; [|done].
  destruct (negb (isAuthorized user rel)); [done|].
  destruct (save _ db) as [e|db1] eqn:Hs; [done|].
  intros [= <- <- <-]. split; [done|]. split; [done|].
  apply findOne_Some in Hf as [Hin Hid].
  apply andb_true_iff in Hid as [Hid _].
  pose proof (rel_save_inr _ _ _ Hs) as (_ & _ & ->). simpl.
  destruct (rel_findOne_is_Some (λ d, bool_decide (_id d = _id rel)) db rel Hin) as [x Hx].
  { by apply bool_decide_eq_true_2. }
  unfold findById. by rewrite Hx.
Qed.

(** A successful accept keeps the active relationship of every candidate unique. *)
Lemma CareerAgent_accept_exclusive now user cid db code r db' :
  exclusive db →
  put_accept now user cid db = (Json code r, db') →
  exclusive db'.
Proof.
  intros Hex H.
  apply put_accept_saved in H as (Hact & Hs & ->).
  apply rel_save_inr in Hs as (_ & Hno & _).
  assert (∀ y, y ∈ db → _id y ≠ _id r → relationshipStatus y = active →
               candidateId y = candidateId r → False) as Hclash.
  { intros y Hy Hid Hay Hk.
    assert (existsb (clashes r) db = true) as Hc; [|congruence].
    apply existsb_exists. exists y. split; [by apply list_elem_of_In|].
    unfold clashes.
    rewrite (bool_decide_eq_false_2 _ Hid), (bool_decide_eq_true_2 _ Hact),
      (bool_decide_eq_true_2 _ Hay), (bool_decide_eq_true_2 _ Hk). done. }
  intros x y Hx Hy Hax Hay Hk.
  apply rel_elem_of_replace in Hx as [->|[Hx Hxid]];
    apply rel_elem_of_replace in Hy as [->|[Hy Hyid]].
  - done.
  - exfalso. eapply (Hclash y); eauto.
  - exfalso. eapply (Hclash x); eauto.
  - by apply Hex.
Qed.

(** When the candidate already has an active agent, the write of the
    acceptance is refused by the unique index and the handler answers
    500; the collection is as before. *)
Lemma CareerAgent_accept_breach now user id db c d :
  findById id db = Some c →
  relationshipStatus c ∈ [pending; proposed] →
  isAuthorized user c = true →
  d ∈ db → _id d ≠ id → relationshipStatus d = active → candidateId d = candidateId c →
  put_accept now user (Some id) db = (Error 500 InternalError, db).
Proof.
  intros Hc Hst Hauth Hd Hid Hact Hk.
  pose proof (rel_findById_Some _ _ _ Hc) as [_ Hidc].
  unfold put_accept. rewrite (findOne_open _ _ _ Hc Hst), Hauth. simpl.
  unfold save. destruct (negb (validate _)); [done|].
  unfold write.
  assert (existsb (clashes (set_startDate (Some now) (set_relationshipStatus active c))) db
          = true) as ->; [|done].
  apply existsb_exists. exists d. split; [by apply list_elem_of_In|].
  unfold clashes. simpl.
  rewrite (bool_decide_eq_false_2 (_id d = _id c)) by congruence.
  rewrite (bool_decide_eq_true_2 _ Hact), (bool_decide_eq_true_2 _ Hk). done.
Qed.

(** *** Identifiers stay unique

    The hypothesis of unique identifiers in the lemmas above is an
    invariant of the collection: it holds of the empty collection and
    every handler keeps it. *)

Lemma ids_replace c db : map _id (replace c db) = map _id db.
Proof.
  unfold replace. rewrite <- list_fmap_compose. apply list_fmap_ext.
  intros i x _. simpl. by case_bool_decide.
Qed.

Lemma write_keeps_ids_unique c db db' :
  write c db = inr db' → NoDup (map _id db) → NoDup (map _id db').
Proof.
  unfold write. destruct (existsb (clashes c) db); [done|].
  destruct (findById (_id c) db) as [d|] eqn:Hf; intros [= <-] Hnd.
  - by rewrite ids_replace.
  - rewrite fmap_app. apply NoDup_app. split; [done|]. split.
    + intros i Hi Hc. apply list_elem_of_singleton in Hc as ->.
      apply list_elem_of_fmap in Hi as (x & Hid & Hx).
      destruct (rel_findOne_is_Some (λ d, bool_decide (_id d = _id c)) db x Hx) as [y Hy].
      { by apply bool_decide_eq_true_2. }
      unfold findById in Hf. congruence.
    + apply NoDup_singleton.
Qed.

Lemma save_keeps_ids_unique c db db' :
  save c db = inr db' → NoDup (map _id db) → NoDup (map _id db').
Proof.
  unfold save. destruct (negb (validate c)); [done|]. apply write_keeps_ids_unique.
Qed.

Lemma handlers_keep_ids_unique now user dir db :
  NoDup (map _id db) →
  (∀ b, NoDup (map _id (post_create now b dir db).2))
  ∧ (∀ b, NoDup (map _id (post_request now user b dir db).2))
  ∧ (∀ b, NoDup (map _id (post_propose now user b dir db).2))
  ∧ (∀ id, NoDup (map _id (put_accept now user id db).2))
  ∧ (∀ id m, NoDup (map _id (put_reject now user id m db).2))
  ∧ (∀ id u, NoDup (map _id (put_update now user id u db).2)).
Proof.
  intros Hnd.
  repeat split; intros;
    unfold post_create, post_request, post_propose, put_accept, put_reject, put_update,
      findOneAndUpdate;
    repeat case_match; simpl; simplify_eq; try done;
    eauto using save_keeps_ids_unique, write_keeps_ids_unique.
Qed.

End CareerAgentLemmas.

(** * The claims of the specification

    Each claim is settled on both route files where both implement the
    operation. *)

Section Claims.

Import Scenario.
Local Open Scope Z_scope.

(** ** C1: exclusivity at the moment of acceptance *)

(** C1.  The claim asks an accept to fail with Conflict when the
    candidate already has an active career agent.  In both route files
    the acceptance is then refused by the unique index of the store, the
    record stays as it was, and the handler answers 500, an internal
    error, where the creating handler of the same file answers 400 for
    the same duplicate key.  Here [A1] and [A2] both proposed to [C1],
    [C1] accepted [A1] and now accepts [A2]. *)
Theorem accept_with_second_active_agent_answers_500 :
  (ConnectionRoutes.relationshipStatus <$> Conn.accepted1 = [active; proposed]
   ∧ ConnectionRoutes.candidateId <$> Conn.accepted1 = [Some "C1"; Some "C1"]
   ∧ ConnectionRoutes.put_accept 13 C1 (Some 2%nat) Conn.accepted1
     = (Error 500 InternalError, Conn.accepted1))
  ∧ (CareerAgentRoutes.relationshipStatus <$> Agent.accepted1 = [active; proposed]
     ∧ CareerAgentRoutes.candidateId <$> Agent.accepted1 = [Some "C1"; Some "C1"]
     ∧ CareerAgentRoutes.put_accept 13 C1 (Some 2%nat) Agent.accepted1
       = (Error 500 InternalError, Agent.accepted1)).
Proof. repeat split; vm_compute; reflexivity. Qed.

(** ** C2: conflict checks of request and propose *)

(** C2, as stated, fails.  In the Connection routes [A2]'s proposal to
    [C1] is created although [C1] has the active agent [A1]; in the
    CareerAgent routes [C1]'s request to [A1] is created although the
    proposal of [A1] to [C1] is still open. *)
Lemma request_propose_conflict_counterexample :
  (ConnectionRoutes.relationshipStatus <$> Conn.active1 = [active]
   ∧ ConnectionRoutes.candidateId <$> Conn.active1 = [Some "C1"]
   ∧ ∃ c, ConnectionRoutes.post_propose 14 A2
            (ConnectionRoutes.mkProposeBody (Some "C1") None) directory Conn.active1
          = (Json 201 (Some c), Conn.active1 ++ [c])
          ∧ ConnectionRoutes.careerAgentId c = Some "A2"
          ∧ ConnectionRoutes.candidateId c = Some "C1")
  ∧ (CareerAgentRoutes.relationshipStatus <$> Agent.proposed1 = [proposed]
     ∧ CareerAgentRoutes.careerAgentId <$> Agent.proposed1 = [Some "A1"]
     ∧ CareerAgentRoutes.candidateId <$> Agent.proposed1 = [Some "C1"]
     ∧ ∃ c, CareerAgentRoutes.post_request 14 C1
              (CareerAgentRoutes.mkRequestBody (Some "A1") None) directory Agent.proposed1
            = (Json 201 c, Agent.proposed1 ++ [c])
            ∧ CareerAgentRoutes.careerAgentId c = Some "A1"
            ∧ CareerAgentRoutes.candidateId c = Some "C1").
Proof.
  split; repeat split; try (vm_compute; reflexivity);
    eexists; repeat split; vm_compute; reflexivity.
Qed.

(** C2, amended.  In the CareerAgent routes a request or a proposal
    between two different people, the other of whom has a profile, fails
    with Conflict and creates nothing when the candidate has an active
    relationship with any agent, or when the pair already has a pending
    record (request) or a pending or proposed record (propose).  In the
    Connection routes a request or a proposal to a person with a profile
    fails with Conflict and creates nothing when a connection of that
    kind, of any status, already links the two. *)
Theorem request_propose_conflict_checks :
  (∀ now user b dir db d,
     CareerAgentRoutes.r_careerAgentId b ≠ Some (userId user) →
     profileExists dir (CareerAgentRoutes.r_careerAgentId b) = true →
     d ∈ db →
     (CareerAgentRoutes.candidateId d = Some (userId user)
      ∧ CareerAgentRoutes.relationshipStatus d = active)
     ∨ (CareerAgentRoutes.careerAgentId d = CareerAgentRoutes.r_careerAgentId b
        ∧ CareerAgentRoutes.candidateId d = Some (userId user)
        ∧ CareerAgentRoutes.relationshipStatus d = pending) →
     CareerAgentRoutes.post_request now user b dir db = (Error 400 Conflict, db))
  ∧ (∀ now user b dir db d,
       Some (userId user) ≠ CareerAgentRoutes.p_candidateId b →
       profileExists dir (CareerAgentRoutes.p_candidateId b) = true →
       d ∈ db →
       (CareerAgentRoutes.candidateId d = CareerAgentRoutes.p_candidateId b
        ∧ CareerAgentRoutes.relationshipStatus d = active)
       ∨ (CareerAgentRoutes.careerAgentId d = Some (userId user)
          ∧ CareerAgentRoutes.candidateId d = CareerAgentRoutes.p_candidateId b
          ∧ CareerAgentRoutes.relationshipStatus d ∈ [pending; proposed]) →
       CareerAgentRoutes.post_propose now user b dir db = (Error 400 Conflict, db))
  ∧ (∀ now user b dir db ty d,
       truthy (ConnectionRoutes.r_recipientUserId b) = true →
       ConnectionRoutes.r_connectionType b ≫= connectionType_of_string = Some ty →
       profileExists dir (ConnectionRoutes.r_recipientUserId b) = true →
       d ∈ db →
       ConnectionRoutes.connectionType d = ty →
       (ConnectionRoutes.requestorUserId d = Some (userId user)
        ∧ ConnectionRoutes.recipientUserId d = ConnectionRoutes.r_recipientUserId b)
       ∨ (ConnectionRoutes.requestorUserId d = ConnectionRoutes.r_recipientUserId b
          ∧ ConnectionRoutes.recipientUserId d = Some (userId user)) →
       ConnectionRoutes.post_request now user b dir db = (Error 400 Conflict, db))
  ∧ (∀ now user b dir db d,
       truthy (ConnectionRoutes.p_candidateUserId b) = true →
       profileExists dir (ConnectionRoutes.p_candidateUserId b) = true →
       d ∈ db →
       ConnectionRoutes.connectionType d = careerAgent →
       (ConnectionRoutes.careerAgentId d = Some (userId user)
        ∧ ConnectionRoutes.candidateId d = ConnectionRoutes.p_candidateUserId b)
       ∨ (ConnectionRoutes.requestorUserId d = Some (userId user)
          ∧ ConnectionRoutes.recipientUserId d = ConnectionRoutes.p_candidateUserId b)
       ∨ (ConnectionRoutes.requestorUserId d = ConnectionRoutes.p_candidateUserId b
          ∧ ConnectionRoutes.recipientUserId d = Some (userId user)) →
       ConnectionRoutes.post_propose now user b dir db = (Error 400 Conflict, db)).
Proof.
  split; [|split; [|split]].
  - intros. by eapply CareerAgentLemmas.CareerAgent_request_conflict.
  - intros. by eapply CareerAgentLemmas.CareerAgent_propose_conflict.
  - intros. by eapply ConnectionLemmas.Connection_request_conflict.
  - intros. by eapply ConnectionLemmas.Connection_propose_conflict.
Qed.

(** The amended C2 at work: with [A1] the active agent of [C1], a
    request of [C1] to [A2] and a proposal of [A2] to [C1] are refused
    in the CareerAgent routes; in the Connection routes a second request
    or proposal between [A1] and [C1] is. *)
Lemma request_propose_conflict_checks_witness :
  CareerAgentRoutes.post_request 14 C1
    (CareerAgentRoutes.mkRequestBody (Some "A2") None) directory Agent.active1
  = (Error 400 Conflict, Agent.active1)
  ∧ CareerAgentRoutes.post_propose 14 A2
      (CareerAgentRoutes.mkProposeBody (Some "C1") None) directory Agent.active1
    = (Error 400 Conflict, Agent.active1)
  ∧ ConnectionRoutes.post_request 14 C1
      (ConnectionRoutes.mkRequestBody (Some "A1") (Some "careerAgent") None)
      directory Conn.active1
    = (Error 400 Conflict, Conn.active1)
  ∧ ConnectionRoutes.post_propose 14 A1
      (ConnectionRoutes.mkProposeBody (Some "C1") None) directory Conn.active1
    = (Error 400 Conflict, Conn.active1).
Proof.
  destruct request_propose_conflict_checks as (H1 & H2 & H3 & H4).
  split; [|split; [|split]].
  - apply (H1 14 C1 _ directory Agent.active1
             (CareerAgentRoutes.mkCareerAgent 1%nat (Some "A1") (Some "C1") active
                (Some 12) None (Some "Ann has proposed to mentor you")));
      [discriminate | reflexivity | vm_compute; left | left; split; reflexivity].
  - apply (H2 14 A2 _ directory Agent.active1
             (CareerAgentRoutes.mkCareerAgent 1%nat (Some "A1") (Some "C1") active
                (Some 12) None (Some "Ann has proposed to mentor you")));
      [discriminate | reflexivity | vm_compute; left | left; split; reflexivity].
  - apply (H3 14 C1 _ directory Conn.active1 careerAgent
             (ConnectionRoutes.mkConnection 1%nat (Some "A1") (Some "C1") (Some "A1") (Some "C1")
                careerAgent active (Some 12) None None));
      [reflexivity | reflexivity | reflexivity | vm_compute; left | reflexivity
      | right; split; reflexivity].
  - apply (H4 14 A1 _ directory Conn.active1
             (ConnectionRoutes.mkConnection 1%nat (Some "A1") (Some "C1") (Some "A1") (Some "C1")
                careerAgent active (Some 12) None None));
      [reflexivity | reflexivity | vm_compute; left | reflexivity
      | left; split; reflexivity].
Defined.

(** ** C3: self-relationships *)

(** C3.  The claim is what the CareerAgent routes do
    ([CareerAgentLemmas.CareerAgent_self_rejected]); the Connection
    routes have no such check.  With a stored profile [U1], a direct
    creation and a request of a friendship of [U1] with [U1], and a
    proposal of [U1] to [U1], are each answered 201 and each create the
    record. *)
Theorem self_connection_is_created :
  ConnectionRoutes.post_create 5
    (ConnectionRoutes.mkCreateBody None None (Some "U1") (Some "U1") (Some "friend") None None)
    directory []
  = (Json 201 (Some (ConnectionRoutes.mkConnection 1%nat None None (Some "U1") (Some "U1")
                       friend pending (Some 5) None None)),
     [ConnectionRoutes.mkConnection 1%nat None None (Some "U1") (Some "U1")
        friend pending (Some 5) None None])
  ∧ ConnectionRoutes.post_request 5 U1
      (ConnectionRoutes.mkRequestBody (Some "U1") (Some "friend") None) directory []
    = (Json 201 (Some (ConnectionRoutes.mkConnection 1%nat None None (Some "U1") (Some "U1")
                         friend requested (Some 5) None None)),
       [ConnectionRoutes.mkConnection 1%nat None None (Some "U1") (Some "U1")
          friend requested (Some 5) None None])
  ∧ ConnectionRoutes.post_propose 5 U1
      (ConnectionRoutes.mkProposeBody (Some "U1") None) directory []
    = (Json 201 (Some (ConnectionRoutes.mkConnection 1%nat (Some "U1") (Some "U1")
                         (Some "U1") (Some "U1") careerAgent proposed (Some 5) None None)),
       [ConnectionRoutes.mkConnection 1%nat (Some "U1") (Some "U1")
          (Some "U1") (Some "U1") careerAgent proposed (Some 5) None None]).
Proof. repeat split; vm_compute; reflexivity. Qed.

(** ** C4: the effect of reject *)

(** C4, as stated, fails.  In the Connection routes the rejected record
    has no end date; in the CareerAgent routes it is stamped with the
    end date and its status is Inactive, not Rejected. *)
Lemma reject_effect_counterexample :
  (∃ c, ConnectionRoutes.put_reject U2 (Some 1%nat) None Conn.friendRequest
        = (Json 200 (Some c), [c])
        ∧ ConnectionRoutes.relationshipStatus c = rejected
        ∧ ConnectionRoutes.endDate c = None)
  ∧ (∃ c, CareerAgentRoutes.put_reject 15 C1 (Some 1%nat) None Agent.proposed1
          = (Json 200 c, [c])
          ∧ CareerAgentRoutes.relationshipStatus c = inactive
          ∧ CareerAgentRoutes.endDate c = Some 15).
Proof. split; eexists; repeat split; vm_compute; reflexivity. Qed.

(** C4, amended.  After a successful reject in the Connection routes the
    record has status Rejected, and the message of the call when that is
    a non-empty string, else the message it had.  After a successful
    reject in the CareerAgent routes (identifiers being unique) the
    record has status Inactive, end date now, and its message is
    replaced in the same way. *)
Theorem reject_effect :
  (∀ user id m db code r db' c,
     ConnectionRoutes.put_reject user (Some id) m db = (Json code r, db') →
     ConnectionRoutes.findById id db = Some c →
     ∃ c', ConnectionRoutes.findById id db' = Some c' ∧ r = Some c'
           ∧ ConnectionRoutes.relationshipStatus c' = rejected
           ∧ ConnectionRoutes.message c'
             = (if truthy m then m else ConnectionRoutes.message c))
  ∧ (∀ now user id m db code r db' c,
       NoDup (map CareerAgentRoutes._id db) →
       CareerAgentRoutes.put_reject now user (Some id) m db = (Json code r, db') →
       CareerAgentRoutes.findById id db = Some c →
       CareerAgentRoutes.findById id db' = Some r
       ∧ CareerAgentRoutes.relationshipStatus r = inactive
       ∧ CareerAgentRoutes.endDate r = Some now
       ∧ CareerAgentRoutes.message r
         = (if truthy m then m else CareerAgentRoutes.message c)).
Proof.
  split.
  - intros user id m db code r db' c H Hc.
    destruct (ConnectionLemmas.put_reject_Json _ _ _ _ _ _ _ _ H Hc) as (Hf & -> & _).
    eexists. split; [exact Hf|]. destruct (truthy m); done.
  - intros now user id m db code r db' c Hnd H Hc.
    destruct (CareerAgentLemmas.rel_put_reject_Json _ _ _ _ _ _ _ _ _ Hnd H Hc) as (-> & _ & Hf).
    split; [exact Hf|]. destruct (truthy m); done.
Qed.

(** The amended C4 at work: [U2] declines the friend request of [U1]
    with a reason; [C1] declines the proposal of [A1] without one. *)
Lemma reject_effect_witness :
  (∃ c', ConnectionRoutes.findById 1%nat
           (ConnectionRoutes.put_reject U2 (Some 1%nat) (Some "no") Conn.friendRequest).2
         = Some c'
         ∧ ConnectionRoutes.relationshipStatus c' = rejected
         ∧ ConnectionRoutes.message c' = Some "no")
  ∧ (∃ r, CareerAgentRoutes.findById 1%nat
            (CareerAgentRoutes.put_reject 15 C1 (Some 1%nat) None Agent.proposed1).2
          = Some r
          ∧ CareerAgentRoutes.relationshipStatus r = inactive
          ∧ CareerAgentRoutes.endDate r = Some 15
          ∧ CareerAgentRoutes.message r = Some "Ann has proposed to mentor you").
Proof.
  destruct reject_effect as [H1 H2]. split.
  - destruct (H1 U2 1%nat (Some "no") Conn.friendRequest 200%nat
                (Some (ConnectionRoutes.mkConnection 1%nat None None (Some "U1") (Some "U2")
                         friend rejected (Some 20) None (Some "no")))
                (ConnectionRoutes.put_reject U2 (Some 1%nat) (Some "no") Conn.friendRequest).2
                (ConnectionRoutes.mkConnection 1%nat None None (Some "U1") (Some "U2")
                   friend requested (Some 20) None None))
      as (c' & Hf & _ & Hs & Hm); [reflexivity | reflexivity |].
    exists c'. repeat split; assumption.
  - destruct (H2 15 C1 1%nat None Agent.proposed1 200%nat
                (CareerAgentRoutes.mkCareerAgent 1%nat (Some "A1") (Some "C1") inactive
                   (Some 10) (Some 15) (Some "Ann has proposed to mentor you"))
                (CareerAgentRoutes.put_reject 15 C1 (Some 1%nat) None Agent.proposed1).2
                (CareerAgentRoutes.mkCareerAgent 1%nat (Some "A1") (Some "C1") proposed
                   (Some 10) None (Some "Ann has proposed to mentor you")))
      as (Hf & Hs & He & Hm);
      [vm_compute; repeat constructor; set_solver | reflexivity | reflexivity |].
    eexists. repeat split; eassumption.
Defined.

(** ** C5: status and start date of a direct creation *)

(** C5, as stated, fails.  A record created with the status Pending
    carries a start date all the same, in both route files; and the
    Connection routes give a record created without a status the
    status Pending. *)
Lemma createDirect_counterexample :
  (∃ c, CareerAgentRoutes.post_create 40
          (CareerAgentRoutes.mkCreateBody (Some "A1") (Some "C1") None (Some "pending"))
          directory []
        = (Json 201 c, [c])
        ∧ CareerAgentRoutes.relationshipStatus c = pending
        ∧ CareerAgentRoutes.startDate c = Some 40)
  ∧ (∃ c, ConnectionRoutes.post_create 40
            (ConnectionRoutes.mkCreateBody None None (Some "U1") (Some "U2")
               (Some "friend") None None) directory []
          = (Json 201 (Some c), [c])
          ∧ ConnectionRoutes.relationshipStatus c = pending
          ∧ ConnectionRoutes.startDate c = Some 40).
Proof. split; eexists; repeat split; vm_compute; reflexivity. Qed.

(** C5, amended.  Every successful direct creation appends one record
    whose status is the supplied status when the caller supplies one,
    and whose start date is the time of the creation whatever the
    status; in the CareerAgent routes the status is Active when the
    caller supplies none. *)
Theorem createDirect_status_and_startDate :
  (∀ now b dir db code r db',
     ConnectionRoutes.post_create now b dir db = (Json code r, db') →
     ∃ c, r = Some c ∧ db' = db ++ [c]
          ∧ ConnectionRoutes.startDate c = Some now
          ∧ ∀ s, ConnectionRoutes.b_relationshipStatus b = Some s →
                 status_of_string s = Some (ConnectionRoutes.relationshipStatus c))
  ∧ (∀ now b dir db code r db',
       CareerAgentRoutes.post_create now b dir db = (Json code r, db') →
       db' = db ++ [r]
       ∧ CareerAgentRoutes.startDate r = Some now
       ∧ (CareerAgentRoutes.b_relationshipStatus b = None →
          CareerAgentRoutes.relationshipStatus r = active)
       ∧ ∀ s, CareerAgentRoutes.b_relationshipStatus b = Some s →
              status_of_string s = Some (CareerAgentRoutes.relationshipStatus r)).
Proof.
  split.
  - intros now b dir db code r db' H.
    apply ConnectionLemmas.post_create_Json in H
      as (c & -> & -> & _ & Hs & _ & _ & _ & Hst).
    by exists c.
  - intros now b dir db code r db' H.
    apply CareerAgentLemmas.rel_post_create_Json in H
      as (-> & _ & Hs & _ & _ & _ & Hd & Hst).
    done.
Qed.

(** The amended C5 at work: a friendship created as Requested, and a
    career-agent relationship created without a status. *)
Lemma createDirect_status_and_startDate_witness :
  (∃ c, [c] = (ConnectionRoutes.post_create 40
                 (ConnectionRoutes.mkCreateBody None None (Some "U1") (Some "U2")
                    (Some "friend") None (Some "requested")) directory []).2
        ∧ ConnectionRoutes.startDate c = Some 40
        ∧ Some requested = Some (ConnectionRoutes.relationshipStatus c))
  ∧ (CareerAgentRoutes.startDate
       (CareerAgentRoutes.mkCareerAgent 1%nat (Some "A1") (Some "C1") active
          (Some 40) None (Some "")) = Some 40
     ∧ CareerAgentRoutes.relationshipStatus
         (CareerAgentRoutes.mkCareerAgent 1%nat (Some "A1") (Some "C1") active
            (Some 40) None (Some "")) = active).
Proof.
  destruct createDirect_status_and_startDate as [H1 H2]. split.
  - destruct (H1 40 (ConnectionRoutes.mkCreateBody None None (Some "U1") (Some "U2")
                       (Some "friend") None (Some "requested")) directory [] 201%nat
                (Some (ConnectionRoutes.mkConnection 1%nat None None (Some "U1") (Some "U2")
                         friend requested (Some 40) None None))
                (ConnectionRoutes.post_create 40
                   (ConnectionRoutes.mkCreateBody None None (Some "U1") (Some "U2")
                      (Some "friend") None (Some "requested")) directory []).2)
      as (c & _ & Hdb & Hs & Hst); [reflexivity|].
    exists c. split; [exact (eq_sym Hdb)|]. split; [exact Hs|].
    exact (Hst "requested" eq_refl).
  - destruct (H2 40 (CareerAgentRoutes.mkCreateBody (Some "A1") (Some "C1") None None)
                directory [] 201%nat
                (CareerAgentRoutes.mkCareerAgent 1%nat (Some "A1") (Some "C1") active
                   (Some 40) None (Some ""))
                [CareerAgentRoutes.mkCareerAgent 1%nat (Some "A1") (Some "C1") active
                   (Some 40) None (Some "")])
      as (_ & Hs & Hd & _); [reflexivity|].
    split; [exact Hs | exact (Hd eq_refl)].
Defined.

(** ** C6: who may accept or reject *)

(** C6, as stated, fails.  The career-agent connection below was
    created on behalf of the candidate [C1], who is its requestor; its
    receiving party is the agent [A1].  The Connection routes let [C1]
    accept it. *)
Lemma accept_by_non_receiver_counterexample :
  ConnectionSpec.receivingParty <$> Conn.candidateInitiated = [Some "A1"]
  ∧ ConnectionRoutes.relationshipStatus <$> Conn.candidateInitiated = [pending]
  ∧ userId C1 ≠ "A1"
  ∧ ∃ c, ConnectionRoutes.put_accept 31 C1 (Some 1%nat) Conn.candidateInitiated
         = (Json 200 (Some c), [c])
         ∧ ConnectionRoutes.relationshipStatus c = active.
Proof.
  split; [vm_compute; reflexivity|]. split; [vm_compute; reflexivity|].
  split; [discriminate|]. eexists. split; vm_compute; reflexivity.
Qed.

(** C6, amended.  In the Connection routes an accept or a reject of a
    stored connection by someone who is neither its recipient nor its
    candidate fails with Forbidden and leaves the collection as it was.
    In the CareerAgent routes an accept or a reject of a pending request
    by someone other than its agent, or of a proposal by someone other
    than its candidate, fails with Forbidden and leaves the collection
    as it was. *)
Theorem accept_reject_forbidden :
  (∀ now user id m db c,
     ConnectionRoutes.findById id db = Some c →
     ConnectionRoutes.recipientUserId c ≠ Some (userId user) →
     ConnectionRoutes.candidateId c ≠ Some (userId user) →
     ConnectionRoutes.put_accept now user (Some id) db = (Error 403 Forbidden, db)
     ∧ ConnectionRoutes.put_reject user (Some id) m db = (Error 403 Forbidden, db))
  ∧ (∀ now user id m db c,
       CareerAgentRoutes.findById id db = Some c →
       (CareerAgentRoutes.relationshipStatus c = pending
        ∧ CareerAgentRoutes.careerAgentId c ≠ Some (userId user))
       ∨ (CareerAgentRoutes.relationshipStatus c = proposed
          ∧ CareerAgentRoutes.candidateId c ≠ Some (userId user)) →
       CareerAgentRoutes.put_accept now user (Some id) db = (Error 403 Forbidden, db)
       ∧ CareerAgentRoutes.put_reject now user (Some id) m db = (Error 403 Forbidden, db)).
Proof.
  split.
  - intros. by apply ConnectionLemmas.Connection_accept_reject_forbidden with (c := c).
  - intros. by apply CareerAgentLemmas.CareerAgent_accept_reject_forbidden with (c := c).
Qed.

(** The amended C6 at work: the stranger [X], and the proposing agent
    [A1] himself, answer the proposal of [A1] to [C1]. *)
Lemma accept_reject_forbidden_witness :
  (ConnectionRoutes.put_accept 13 X (Some 1%nat) Conn.proposed1
   = (Error 403 Forbidden, Conn.proposed1)
   ∧ ConnectionRoutes.put_reject X (Some 1%nat) None Conn.proposed1
     = (Error 403 Forbidden, Conn.proposed1))
  ∧ (CareerAgentRoutes.put_accept 13 A1 (Some 1%nat) Agent.proposed1
     = (Error 403 Forbidden, Agent.proposed1)
     ∧ CareerAgentRoutes.put_reject 13 A1 (Some 1%nat) None Agent.proposed1
       = (Error 403 Forbidden, Agent.proposed1)).
Proof.
  destruct accept_reject_forbidden as [H1 H2]. split.
  - apply (H1 13 X 1%nat None Conn.proposed1
             (ConnectionRoutes.mkConnection 1%nat (Some "A1") (Some "C1") (Some "A1")
                (Some "C1") careerAgent proposed (Some 10) None None));
      [reflexivity | discriminate | discriminate].
  - apply (H2 13 A1 1%nat None Agent.proposed1
             (CareerAgentRoutes.mkCareerAgent 1%nat (Some "A1") (Some "C1") proposed
                (Some 10) None (Some "Ann has proposed to mentor you")));
      [reflexivity | right; split; [reflexivity | discriminate]].
Defined.

(** ** C7: Rejected is terminal *)

(** C7, as stated, fails.  The friendship that [U2] rejected is made
    Active by an update of [U1], one of its parties. *)
Lemma rejected_then_updated_counterexample :
  ConnectionRoutes.relationshipStatus <$> Conn.friendRejected = [rejected]
  ∧ ∃ c, ConnectionRoutes.put_update U1 (Some 1%nat)
           (ConnectionRoutes.mkUpdateBody (Some "active") None None) Conn.friendRejected
         = (Json 200 (Some c), [c])
         ∧ ConnectionRoutes.relationshipStatus c = active.
Proof. split; [vm_compute; reflexivity|]. eexists. split; vm_compute; reflexivity. Qed.

(** C7, amended.  Once a record is Rejected, no accept and no reject
    changes its status: in the Connection routes an accept fails and
    leaves the collection as it was, and after a reject, failed or not,
    the record is still Rejected; in the CareerAgent routes (identifiers
    being unique) both answer NotFound and leave the collection as it
    was. *)
Theorem rejected_is_final_for_accept_and_reject :
  (∀ id db c,
     ConnectionRoutes.findById id db = Some c →
     ConnectionRoutes.relationshipStatus c = rejected →
     (∀ now user, ∃ r, ConnectionRoutes.put_accept now user (Some id) db = (r, db)
                       ∧ failed r)
     ∧ (∀ user m r db',
          ConnectionRoutes.put_reject user (Some id) m db = (r, db') →
          ∃ c', ConnectionRoutes.findById id db' = Some c'
                ∧ ConnectionRoutes.relationshipStatus c' = rejected))
  ∧ (∀ now user id m db c,
       NoDup (map CareerAgentRoutes._id db) →
       CareerAgentRoutes.findById id db = Some c →
       CareerAgentRoutes.relationshipStatus c = rejected →
       CareerAgentRoutes.put_accept now user (Some id) db = (Error 404 NotFound, db)
       ∧ CareerAgentRoutes.put_reject now user (Some id) m db = (Error 404 NotFound, db)).
Proof.
  split.
  - intros id db c Hc Hst. by apply ConnectionLemmas.Connection_rejected_final with (c := c).
  - intros. by apply CareerAgentLemmas.CareerAgent_rejected_final with (c := c).
Qed.

(** The amended C7 at work, on the friendship that [U2] rejected and on
    a career-agent relationship stored as Rejected. *)
Lemma rejected_is_final_for_accept_and_reject_witness :
  ((∃ r, ConnectionRoutes.put_accept 21 U2 (Some 1%nat) Conn.friendRejected
         = (r, Conn.friendRejected) ∧ failed r)
   ∧ (∃ c', ConnectionRoutes.findById 1%nat
              (ConnectionRoutes.put_reject U2 (Some 1%nat) (Some "again")
                 Conn.friendRejected).2 = Some c'
            ∧ ConnectionRoutes.relationshipStatus c' = rejected))
  ∧ (CareerAgentRoutes.put_accept 21 C1 (Some 1%nat)
       [CareerAgentRoutes.mkCareerAgent 1%nat (Some "A1") (Some "C1") rejected
          (Some 10) None None]
     = (Error 404 NotFound,
        [CareerAgentRoutes.mkCareerAgent 1%nat (Some "A1") (Some "C1") rejected
           (Some 10) None None])
     ∧ CareerAgentRoutes.put_reject 21 C1 (Some 1%nat) None
         [CareerAgentRoutes.mkCareerAgent 1%nat (Some "A1") (Some "C1") rejected
            (Some 10) None None]
       = (Error 404 NotFound,
          [CareerAgentRoutes.mkCareerAgent 1%nat (Some "A1") (Some "C1") rejected
             (Some 10) None None])).
Proof.
  destruct rejected_is_final_for_accept_and_reject as [H1 H2]. split.
  - destruct (H1 1%nat Conn.friendRejected
                (ConnectionRoutes.mkConnection 1%nat None None (Some "U1") (Some "U2")
                   friend rejected (Some 20) None None) eq_refl eq_refl) as [Ha Hr].
    split; [exact (Ha 21 U2)|].
    exact (Hr U2 (Some "again") _ _ eq_refl).
  - apply (H2 21 C1 1%nat None _
             (CareerAgentRoutes.mkCareerAgent 1%nat (Some "A1") (Some "C1") rejected
                (Some 10) None None));
      [repeat constructor; set_solver | reflexivity | reflexivity].
Defined.

(** ** C8: potential contacts *)

(** C8, as stated, fails.  The only connection between [U1] and [U2] is
    Rejected, and [U2] is still left out of the potential contacts of
    [U1]. *)
Lemma potentialcontact_counterexample :
  ConnectionRoutes.relationshipStatus <$> Conn.friendRejected = [rejected]
  ∧ ConnectionRoutes.requestorUserId <$> Conn.friendRejected = [Some "U1"]
  ∧ ConnectionRoutes.recipientUserId <$> Conn.friendRejected = [Some "U2"]
  ∧ "U2" ∈ directory
  ∧ ConnectionRoutes.get_potentialcontact U1 None directory Conn.friendRejected
    = ["U3"; "A1"; "A2"; "C1"].
Proof.
  repeat split; try (vm_compute; reflexivity).
  unfold directory. set_solver.
Qed.

(** C8, amended.  The potential contacts of a user are profiles of the
    directory other than the user that no connection, whatever its
    status, links to the user; and every such profile is returned when
    the directory is no longer than the limit. *)
Theorem potentialcontact_excludes_every_linked_profile :
  ∀ user limit dir db p,
    p ≠ "" →
    (p ∈ ConnectionRoutes.get_potentialcontact user limit dir db →
     p ∈ dir ∧ p ≠ userId user ∧ ¬ ConnectionSpec.linked db (userId user) p)
    ∧ ((length dir ≤ ConnectionRoutes.parseLimit limit)%nat →
       p ∈ dir → p ≠ userId user → ¬ ConnectionSpec.linked db (userId user) p →
       p ∈ ConnectionRoutes.get_potentialcontact user limit dir db).
Proof.
  intros user limit dir db p Hp. split.
  - by apply ConnectionLemmas.potentialcontact_sound.
  - by apply ConnectionLemmas.potentialcontact_complete.
Qed.

(** The amended C8 at work: [U3] is linked to [U1] by nothing, and is
    returned to [U1]. *)
Lemma potentialcontact_excludes_every_linked_profile_witness :
  ("U3" ∈ directory ∧ "U3" ≠ userId U1
   ∧ ¬ ConnectionSpec.linked Conn.friendRejected (userId U1) "U3")
  ∧ "U3" ∈ ConnectionRoutes.get_potentialcontact U1 None directory Conn.friendRejected.
Proof.
  assert ("U3" ≠ "") as Hne by discriminate.
  destruct (potentialcontact_excludes_every_linked_profile
              U1 None directory Conn.friendRejected "U3" Hne) as [Hs Hc].
  assert ("U3" ∈ directory ∧ "U3" ≠ userId U1
          ∧ ¬ ConnectionSpec.linked Conn.friendRejected (userId U1) "U3") as H.
  { apply Hs. vm_compute. apply list_elem_of_here. }
  split; [exact H|].
  destruct H as (Hd & Hu & Hl).
  apply Hc; [vm_compute; lia | exact Hd | exact Hu | exact Hl].
Defined.

(** ** C9: who may update *)

(** C9.  The claim is what the Connection routes do
    ([ConnectionLemmas.Connection_update_forbidden]); the update of the
    CareerAgent routes checks no party at all.  [X], a stranger to the
    proposal of [A1] to [C1], ends it. *)
Theorem careerAgent_update_by_stranger :
  CareerAgentRoutes.careerAgentId <$> Agent.proposed1 = [Some "A1"]
  ∧ CareerAgentRoutes.candidateId <$> Agent.proposed1 = [Some "C1"]
  ∧ CareerAgentRoutes.relationshipStatus <$> Agent.proposed1 = [proposed]
  ∧ CareerAgentRoutes.put_update 16 X (Some 1%nat)
      (CareerAgentRoutes.mkUpdateData None None (Some "inactive") None None None)
      Agent.proposed1
    = (Json 200
         (CareerAgentRoutes.mkCareerAgent 1%nat (Some "A1") (Some "C1") inactive
            (Some 10) (Some 16) (Some "Ann has proposed to mentor you")),
       [CareerAgentRoutes.mkCareerAgent 1%nat (Some "A1") (Some "C1") inactive
          (Some 10) (Some 16) (Some "Ann has proposed to mentor you")]).
Proof. repeat split; vm_compute; reflexivity. Qed.

(** ** C10: the frame of accept *)

(** C10.  Every successful accept leaves the kind, the four party
    identifiers, the message and the end date of the accepted record as
    they were, in the Connection routes and (identifiers being unique)
    in the CareerAgent routes; the other records are not touched. *)
Theorem accept_changes_only_status_and_startDate :
  (∀ now user id db code r db' c,
     ConnectionRoutes.put_accept now user (Some id) db = (Json code r, db') →
     ConnectionRoutes.findById id db = Some c →
     ∃ c', ConnectionRoutes.findById id db' = Some c' ∧ r = Some c'
           ∧ ConnectionSpec.sameFrame c c'
           ∧ ∀ id', id' ≠ id →
                    ConnectionRoutes.findById id' db' = ConnectionRoutes.findById id' db)
  ∧ (∀ now user id db code r db' c,
       NoDup (map CareerAgentRoutes._id db) →
       CareerAgentRoutes.put_accept now user (Some id) db = (Json code r, db') →
       CareerAgentRoutes.findById id db = Some c →
       CareerAgentRoutes.findById id db' = Some r
       ∧ CareerAgentSpec.sameFrame c r
       ∧ ∀ id', id' ≠ id →
                CareerAgentRoutes.findById id' db' = CareerAgentRoutes.findById id' db).
Proof.
  split.
  - intros now user id db code r db' c H Hc.
    exact (ConnectionLemmas.Connection_accept_frame _ _ _ _ _ _ _ _ H Hc).
  - intros now user id db code r db' c Hnd H Hc.
    pose proof (CareerAgentLemmas.rel_findById_Some _ _ _ Hc) as [_ Hid].
    destruct (CareerAgentLemmas.rel_put_accept_Json _ _ _ _ _ _ _ _ Hnd H Hc)
      as (_ & _ & -> & _ & -> & Hf).
    split; [exact Hf|]. split; [by repeat split|].
    intros id' Hne. apply CareerAgentLemmas.rel_findById_replace_ne. simpl. congruence.
Qed.

(** C10 at work: [C1] accepts the proposal of [A1], in both route files. *)
Lemma accept_changes_only_status_and_startDate_witness :
  (∃ c', ConnectionRoutes.findById 1%nat Conn.active1 = Some c'
         ∧ ConnectionSpec.sameFrame
             (ConnectionRoutes.mkConnection 1%nat (Some "A1") (Some "C1") (Some "A1")
                (Some "C1") careerAgent proposed (Some 10) None None) c')
  ∧ (CareerAgentRoutes.findById 1%nat Agent.active1
     = Some (CareerAgentRoutes.mkCareerAgent 1%nat (Some "A1") (Some "C1") active
               (Some 12) None (Some "Ann has proposed to mentor you"))
     ∧ CareerAgentSpec.sameFrame
         (CareerAgentRoutes.mkCareerAgent 1%nat (Some "A1") (Some "C1") proposed
            (Some 10) None (Some "Ann has proposed to mentor you"))
         (CareerAgentRoutes.mkCareerAgent 1%nat (Some "A1") (Some "C1") active
            (Some 12) None (Some "Ann has proposed to mentor you"))).
Proof.
  destruct accept_changes_only_status_and_startDate as [H1 H2]. split.
  - destruct (H1 12 C1 1%nat Conn.proposed1 200%nat
                (ConnectionRoutes.findById 1%nat Conn.active1) Conn.active1
                (ConnectionRoutes.mkConnection 1%nat (Some "A1") (Some "C1") (Some "A1")
                   (Some "C1") careerAgent proposed (Some 10) None None)
                eq_refl eq_refl) as (c' & Hf & _ & Hfr & _).
    exists c'. split; assumption.
  - destruct (H2 12 C1 1%nat Agent.proposed1 200%nat
                (CareerAgentRoutes.mkCareerAgent 1%nat (Some "A1") (Some "C1") active
                   (Some 12) None (Some "Ann has proposed to mentor you"))
                Agent.active1
                (CareerAgentRoutes.mkCareerAgent 1%nat (Some "A1") (Some "C1") proposed
                   (Some 10) None (Some "Ann has proposed to mentor you")))
      as (Hf & Hfr & _);
      [vm_compute; repeat constructor; set_solver | reflexivity | reflexivity |].
    split; assumption.
Defined.

End Claims.

(** * Further properties of the handlers *)

(** ** Invariants of the Connection collection *)

Module ConnectionInvariants.
Import ConnectionRoutes ConnectionSpec ConnectionLemmas.

Lemma findById_absent id db d :
  findById id db = None → d ∈ db → _id d ≠ id.
Proof.
  unfold findById. intros H Hd Heq.
  apply list_elem_of_In in Hd.
  pose proof (find_none _ _ H d Hd) as Hn. simpl in Hn.
  by apply bool_decide_eq_false in Hn.
Qed.

Lemma conn_ids_replace c db : map _id (replace c db) = map _id db.
Proof.
  unfold replace. rewrite <- list_fmap_compose. apply list_fmap_ext.
  intros i x _. simpl. by case_bool_decide.
Qed.

(** The documents after a successful save: the saved one, and the
    stored ones of another identifier. *)
Lemma save_elem c db db' x :
  save c db = inr db' → x ∈ db' → x = c ∨ (x ∈ db ∧ _id x ≠ _id c).
Proof.
  intros Hs Hx. apply save_inr in Hs as (_ & _ & ->).
  destruct (findById (_id c) db) eqn:Hf.
  - by apply elem_of_replace.
  - apply elem_of_app in Hx as [Hx|Hx].
    + right. split; [done|]. by eapply findById_absent.
    + left. by apply list_elem_of_singleton in Hx.
Qed.

Lemma save_uniqueIds c db db' :
  save c db = inr db' → uniqueIds db → uniqueIds db'.
Proof.
  unfold uniqueIds. intros Hs Hnd. apply save_inr in Hs as (_ & _ & ->).
  destruct (findById (_id c) db) eqn:Hf.
  - by rewrite conn_ids_replace.
  - rewrite fmap_app. apply NoDup_app. split; [done|]. split; [|apply NoDup_singleton].
    intros i Hi Hc. apply list_elem_of_singleton in Hc as ->.
    apply list_elem_of_fmap in Hi as (x & Hid & Hx).
    by eapply findById_absent.
Qed.

Lemma save_allValid c db db' :
  save c db = inr db' → allValid db → allValid db'.
Proof.
  intros Hs Hv x Hx.
  destruct (save_elem _ _ _ _ Hs Hx) as [->|[Hin _]]; [|by apply Hv].
  by apply save_inr in Hs as (? & _).
Qed.

(** The unique index keeps the active career agent of a candidate unique. *)
Lemma save_exclusive c db db' :
  save c db = inr db' → exclusive db → exclusive db'.
Proof.
  intros Hs Hex.
  pose proof (save_inr _ _ _ Hs) as (_ & Hno & _).
  assert (∀ y, y ∈ db → _id y ≠ _id c → inCandidateIndex y = true →
               inCandidateIndex c = true → candidateId y = candidateId c → False) as Hclash.
  { intros y Hy Hid Hiy Hic Hk.
    assert (existsb (clashes c) db = true) as Hc; [|congruence].
    apply existsb_exists. exists y. split; [by apply list_elem_of_In|].
    unfold clashes. rewrite Hiy, Hic.
    rewrite (bool_decide_eq_false_2 _ Hid), (bool_decide_eq_true_2 _ Hk). done. }
  intros x y Hx Hy Hix Hiy Hk.
  destruct (save_elem _ _ _ _ Hs Hx) as [->|[Hx' Hxid]];
    destruct (save_elem _ _ _ _ Hs Hy) as [->|[Hy' Hyid]].
  - done.
  - exfalso. eapply (Hclash y); eauto.
  - exfalso. eapply (Hclash x); eauto.
  - by apply Hex.
Qed.



Lemma effect_saves db db' :
  Effect db db' → db' = db ∨ ∃ c, save c db = inr db'.
Proof. intros [->|c Hs _ _|c0 c _ Hs _ _ _]; eauto. Qed.

(** *** What each handler does *)

Lemma post_create_effect now b dir db : Effect db (post_create now b dir db).2.
Proof.
  unfold post_create.
  destruct (negb (validateConnectionRelationship b)); [by apply Unchanged|].
  destruct (b_connectionType b ≫= connectionType_of_string) as [ty|]; [|by apply Unchanged].
  destruct (status_of_string _) as [st|]; [|by apply Unchanged].
  match goal with |- context [if ?g then _ else _] => destruct g end; [by apply Unchanged|].
  destruct (negb (profileExists dir (b_requestorUserId b))); [by apply Unchanged|].
  destruct (negb (profileExists dir (b_recipientUserId b))); [by apply Unchanged|].
  destruct (findOne _ db) eqn:Hnone; [by apply Unchanged|].
  match goal with |- context [save ?c db] => set (conn := c) end.
  destruct (save conn db) as [[]|db1] eqn:Hs; [by apply Unchanged|by apply Unchanged|].
  simpl. apply (Inserted _ _ conn Hs); [apply findById_fresh|].
  intros d Hd [Ht Hp]. apply list_elem_of_In in Hd.
  pose proof (find_none _ _ Hnone d Hd) as Hn. simpl in Hn, Ht, Hp.
  rewrite (bool_decide_eq_true_2 (connectionType d = ty)) in Hn by done.
  destruct Hp as [[H1 H2]|[H1 H2]];
    rewrite (bool_decide_eq_true_2 _ (eq_sym H1)), (bool_decide_eq_true_2 _ (eq_sym H2)) in Hn;
    simpl in Hn; rewrite ?orb_true_r in Hn; done.
Qed.

Lemma post_request_effect now user b dir db : Effect db (post_request now user b dir db).2.
Proof.
  unfold post_request.
  destruct (negb _ || negb _); [by apply Unchanged|].
  destruct (r_connectionType b ≫= connectionType_of_string) as [ty|]; [|by apply Unchanged].
  destruct (negb (profileExists dir (r_recipientUserId b))); [by apply Unchanged|].
  destruct (findOne _ db) eqn:Hnone; [by apply Unchanged|].
  match goal with |- context [save ?c db] => set (conn := c) end.
  destruct (save conn db) as [e|db1] eqn:Hs; [by apply Unchanged|].
  simpl. apply (Inserted _ _ conn Hs); [apply findById_fresh|].
  intros d Hd [Ht Hp]. apply list_elem_of_In in Hd.
  pose proof (find_none _ _ Hnone d Hd) as Hn. simpl in Hn, Ht, Hp.
  rewrite (bool_decide_eq_true_2 (connectionType d = ty)) in Hn by done.
  destruct Hp as [[H1 H2]|[H1 H2]];
    rewrite (bool_decide_eq_true_2 _ (eq_sym H1)), (bool_decide_eq_true_2 _ (eq_sym H2)) in Hn;
    simpl in Hn; rewrite ?orb_true_r in Hn; done.
Qed.

Lemma post_propose_effect now user b dir db : Effect db (post_propose now user b dir db).2.
Proof.
  unfold post_propose.
  destruct (negb (truthy (p_candidateUserId b))); [by apply Unchanged|].
  destruct (negb (profileExists dir (p_candidateUserId b))); [by apply Unchanged|].
  destruct (findOne _ db) eqn:Hnone; [by apply Unchanged|].
  match goal with |- context [save ?c db] => set (conn := c) end.
  destruct (save conn db) as [e|db1] eqn:Hs; [by apply Unchanged|].
  simpl. apply (Inserted _ _ conn Hs); [apply findById_fresh|].
  intros d Hd [Ht Hp]. apply list_elem_of_In in Hd.
  pose proof (find_none _ _ Hnone d Hd) as Hn. simpl in Hn, Ht, Hp.
  rewrite (bool_decide_eq_true_2 (connectionType d = careerAgent)) in Hn by done.
  destruct Hp as [[H1 H2]|[H1 H2]];
    rewrite (bool_decide_eq_true_2 _ (eq_sym H1)), (bool_decide_eq_true_2 _ (eq_sym H2)) in Hn;
    simpl in Hn; rewrite ?orb_true_r in Hn; done.
Qed.

Lemma put_accept_effect now user id db : Effect db (put_accept now user id db).2.
Proof.
  unfold put_accept. destruct id as [id|]; [|by apply Unchanged].
  destruct (findById id db) as [c|] eqn:Hf; [|by apply Unchanged].
  destruct (negb _ && negb _); [by apply Unchanged|].
  destruct (negb (bool_decide _)); [by apply Unchanged|].
  destruct (save _ db) as [e|db1] eqn:Hs; [by apply Unchanged|].
  simpl. pose proof (findById_Some _ _ _ Hf) as [_ Hid]. subst id.
  refine (Rewritten _ _ c _ _ Hs _ _ _); solve [exact Hf | done].
Qed.

Lemma put_reject_effect user id m db : Effect db (put_reject user id m db).2.
Proof.
  unfold put_reject. destruct id as [id|]; [|by apply Unchanged].
  destruct (findById id db) as [c|] eqn:Hf; [|by apply Unchanged].
  destruct (bool_decide _ && bool_decide _); [by apply Unchanged|].
  destruct (save _ db) as [e|db1] eqn:Hs; [by apply Unchanged|].
  simpl. pose proof (findById_Some _ _ _ Hf) as [_ Hid]. subst id.
  destruct (truthy m); refine (Rewritten _ _ c _ _ Hs _ _ _); solve [exact Hf | done].
Qed.

Lemma put_update_effect user id b db : Effect db (put_update user id b db).2.
Proof.
  unfold put_update. destruct id as [id|]; [|by apply Unchanged].
  destruct (findById id db) as [c|] eqn:Hf; [|by apply Unchanged].
  destruct (negb (bool_decide _)); [by apply Unchanged|].
  pose proof (findById_Some _ _ _ Hf) as [_ Hid]. subst id.
  destruct (truthy (u_relationshipStatus b)).
  - destruct (u_relationshipStatus b ≫= status_of_string) as [st|]; simpl;
      [|by apply Unchanged].
    destruct (save _ db) as [e|db1] eqn:Hs; [by apply Unchanged|].
    simpl. destruct (u_message b), (u_endDate b); refine (Rewritten _ _ c _ _ Hs _ _ _); solve [exact Hf | done].
  - destruct (save _ db) as [e|db1] eqn:Hs; [by apply Unchanged|].
    simpl. destruct (u_message b), (u_endDate b); refine (Rewritten _ _ c _ _ Hs _ _ _); solve [exact Hf | done].
Qed.

Lemma step_effect db db' : step db db' → Effect db db'.
Proof.
  intros []; eauto using post_create_effect, post_request_effect, post_propose_effect,
    put_accept_effect, put_reject_effect, put_update_effect.
Qed.

(** *** The invariants of every reachable collection *)

Lemma reachable_ind (P : list Connection → Prop) :
  P [] → (∀ db db', Effect db db' → P db → P db') → ∀ db, reachable db → P db.
Proof.
  intros H0 Hstep. unfold reachable. apply rtc_ind_r; [done|].
  intros y z _ Hs IH. eapply Hstep; [by apply step_effect|done].
Qed.

(** X1.  Candidate exclusivity holds of every collection that the
    handlers produce from the empty one: whatever the sequence of
    creations, requests, proposals, acceptances, rejections and updates,
    two active career-agent connections of one candidate are one and the
    same document. *)
Theorem reachable_exclusive db : reachable db → exclusive db.
Proof.
  apply reachable_ind.
  - intros c d Hc. by apply elem_of_nil in Hc.
  - intros db1 db2 He Hex. destruct (effect_saves _ _ He) as [->|[c Hs]]; [done|].
    by eapply save_exclusive.
Qed.

Lemma reachable_accepted1 : reachable Scenario.Conn.accepted1.
Proof.
  unfold reachable.
  eapply rtc_l; [apply (step_propose 10%Z Scenario.A1
                          (mkProposeBody (Some "C1") None) Scenario.directory [])|].
  eapply rtc_l; [apply (step_propose 11%Z Scenario.A2
                          (mkProposeBody (Some "C1") None) Scenario.directory)|].
  eapply rtc_l; [apply (step_accept 12%Z Scenario.C1 (Some 1))|].
  apply rtc_refl.
Defined.

Lemma reachable_exclusive_witness : exclusive Scenario.Conn.accepted1.
Proof. apply reachable_exclusive. exact reachable_accepted1. Defined.




(** X3.  Every document of a reachable collection passes the validators
    of the schema: a career-agent connection names its agent and its
    candidate, a friend connection its requestor and its recipient, and
    no stored message is longer than 1000 characters. *)
Theorem reachable_allValid db c :
  reachable db → c ∈ db →
  match connectionType c with
  | careerAgent => truthy (careerAgentId c) = true ∧ truthy (candidateId c) = true
  | friend => truthy (requestorUserId c) = true ∧ truthy (recipientUserId c) = true
  end
  ∧ ∀ m, message c = Some m → String.length m ≤ 1000.
Proof.
  intros Hr Hc.
  assert (allValid db) as Hv.
  { clear Hc. revert db Hr. apply reachable_ind.
    - intros x Hx. by apply elem_of_nil in Hx.
    - intros db1 db2 He Hv. destruct (effect_saves _ _ He) as [->|[x Hs]]; [done|].
      by eapply save_allValid. }
  specialize (Hv c Hc). unfold validate in Hv.
  apply andb_true_iff in Hv as [Hp Hm]. split.
  - destruct (connectionType c); by apply andb_true_iff in Hp.
  - intros m Hmsg. rewrite Hmsg in Hm. by apply bool_decide_eq_true in Hm.
Qed.

Lemma reachable_allValid_witness :
  let c := mkConnection 1 (Some "A1") (Some "C1") (Some "A1") (Some "C1")
             careerAgent active (Some 12%Z) None None in
  (truthy (careerAgentId c) = true ∧ truthy (candidateId c) = true)
  ∧ ∀ m, message c = Some m → String.length m ≤ 1000.
Proof.
  exact (reachable_allValid Scenario.Conn.accepted1
           (mkConnection 1 (Some "A1") (Some "C1") (Some "A1") (Some "C1")
              careerAgent active (Some 12%Z) None None)
           reachable_accepted1 (list_elem_of_here _ _)).
Defined.

(** X4.  Identifiers are unique in every reachable collection, so that
    a lookup by identifier finds the one document that carries it. *)
Theorem reachable_uniqueIds db : reachable db → NoDup (map _id db).
Proof.
  revert db. apply (reachable_ind uniqueIds).
  - apply NoDup_nil_2.
  - intros db1 db2 He Hex. destruct (effect_saves _ _ He) as [->|[c Hs]]; [done|].
    by eapply save_uniqueIds.
Qed.

Lemma reachable_uniqueIds_witness : NoDup (map _id Scenario.Conn.accepted1).
Proof. apply reachable_uniqueIds. exact reachable_accepted1. Defined.

(** X5.  No handler that answers with an error has written: the
    collection after a failed creation, request, proposal, acceptance,
    rejection or update is the collection before it. *)
Theorem failure_writes_nothing :
  (∀ now b dir db,
     failed (post_create now b dir db).1 → (post_create now b dir db).2 = db)
  ∧ (∀ now user b dir db,
       failed (post_request now user b dir db).1 → (post_request now user b dir db).2 = db)
  ∧ (∀ now user b dir db,
       failed (post_propose now user b dir db).1 → (post_propose now user b dir db).2 = db)
  ∧ (∀ now user id db,
       failed (put_accept now user id db).1 → (put_accept now user id db).2 = db)
  ∧ (∀ user id m db,
       failed (put_reject user id m db).1 → (put_reject user id m db).2 = db)
  ∧ (∀ user id b db,
       failed (put_update user id b db).1 → (put_update user id b db).2 = db).
Proof.
  repeat split; intros until db;
    unfold post_create, post_request, post_propose, put_accept, put_reject, put_update;
    repeat case_match; simpl; done.
Qed.

Lemma failure_writes_nothing_witness :
  (put_accept 13%Z Scenario.X (Some 1) Scenario.Conn.proposed1).2 = Scenario.Conn.proposed1.
Proof.
  destruct failure_writes_nothing as (_ & _ & _ & H & _).
  apply (H 13%Z Scenario.X (Some 1) Scenario.Conn.proposed1). exact I.
Defined.

End ConnectionInvariants.

(** ** How the Connection handlers compose *)

Module ConnectionBehaviour.
Import ConnectionRoutes ConnectionSpec ConnectionLemmas ConnectionInvariants.

(** X6.  An accept succeeds only on a stored connection that is
    Requested, Proposed or Pending and only for its recipient or its
    candidate; the connection is then Active and its start date is the
    time of the acceptance. *)
Theorem accept_success_conditions now user id db code r db' :
  put_accept now user id db = (Json code r, db') →
  ∃ i c c',
    id = Some i ∧ findById i db = Some c
    ∧ relationshipStatus c ∈ [requested; proposed; pending]
    ∧ (recipientUserId c = Some (userId user) ∨ candidateId c = Some (userId user))
    ∧ findById i db' = Some c' ∧ r = Some c'
    ∧ relationshipStatus c' = active ∧ startDate c' = Some now.
Proof.
  intros H.
  pose proof (put_accept_Json _ _ _ _ _ _ _ H)
    as (i & c & -> & Hf & Hauth & Hst & _ & -> & -> & _).
  exists i, c, (set_startDate (Some now) (set_relationshipStatus active c)).
  repeat split; try done.
  pose proof (findById_Some _ _ _ Hf) as [_ Hid]. subst i.
  exact (findById_replace_eq
           (set_startDate (Some now) (set_relationshipStatus active c)) db c Hf).
Qed.

Lemma accept_success_conditions_witness :
  ∃ i c c',
    Some 1 = Some i ∧ findById i Scenario.Conn.proposed1 = Some c
    ∧ relationshipStatus c ∈ [requested; proposed; pending]
    ∧ (recipientUserId c = Some (userId Scenario.C1)
       ∨ candidateId c = Some (userId Scenario.C1))
    ∧ findById i Scenario.Conn.active1 = Some c'
    ∧ findById 1 Scenario.Conn.active1 = Some c'
    ∧ relationshipStatus c' = active ∧ startDate c' = Some 12%Z.
Proof.
  exact (accept_success_conditions 12%Z Scenario.C1 (Some 1) Scenario.Conn.proposed1
           200 (findById 1 Scenario.Conn.active1) Scenario.Conn.active1 eq_refl).
Defined.





(** The anatomy of a successful request. *)
Lemma post_request_Json now user b dir db code r db' :
  post_request now user b dir db = (Json code r, db') →
  truthy (r_recipientUserId b) = true
  ∧ profileExists dir (r_recipientUserId b) = true
  ∧ ∃ c, r = Some c ∧ db' = db ++ [c] ∧ validate c = true
         ∧ requestorUserId c = Some (userId user)
         ∧ recipientUserId c = r_recipientUserId b
         ∧ relationshipStatus c = requested
         ∧ (connectionType c = careerAgent →
            careerAgentId c = Some (userId user) ∧ candidateId c = r_recipientUserId b).
Proof.
  unfold post_request.
  destruct (truthy (r_recipientUserId b)); [|done].
  destruct (truthy (r_connectionType b)); [|done]. cbn [negb orb].
  destruct (r_connectionType b ≫= connectionType_of_string) as [ty|]; [|done].
  destruct (profileExists dir (r_recipientUserId b)); [|done]. cbn [negb].
  destruct (findOne _ db); [done|].
  match goal with |- context [save ?c db] => set (conn := c) end.
  destruct (save conn db) as [e|db1] eqn:Hs; [done|].
  intros [= <- <- <-].
  pose proof (save_inr _ _ _ Hs) as (Hv & _ & _).
  apply (save_fresh conn db db1 eq_refl) in Hs as [-> Hf].
  split; [done|]. split; [done|]. exists conn. rewrite <- Hf.
  repeat split; try done; simpl in *; by subst ty.
Qed.



End ConnectionBehaviour.

(** ** Filtering, sorting and limiting a result list *)

Module ListFacts.

Section Lists.
Context {A : Type}.

Lemma elem_of_stdlib_filter (f : A → bool) l x :
  x ∈ List.filter f l ↔ x ∈ l ∧ f x = true.
Proof. rewrite !list_elem_of_In. apply filter_In. Qed.

Lemma stdlib_filter_sublist (f : A → bool) l : List.filter f l `sublist_of` l.
Proof.
  induction l as [|x l IH]; simpl; [constructor|].
  destruct (f x); [by apply sublist_skip | by apply sublist_cons].
Qed.

Lemma stdlib_filter_all (f : A → bool) l :
  (∀ x, x ∈ l → f x = true) → List.filter f l = l.
Proof.
  induction l as [|x l IH]; intros H; simpl; [done|].
  rewrite (H x) by apply list_elem_of_here. f_equal. apply IH.
  intros y Hy. apply H. by apply list_elem_of_further.
Qed.

Lemma StronglySorted_take (R : relation A) l n :
  StronglySorted R l → StronglySorted R (take n l).
Proof.
  intros Hs. revert n. induction Hs as [|x l Hs IH Hall]; intros [|n]; simpl;
    try constructor; [apply IH|].
  apply Forall_forall. intros y Hy. rewrite Forall_forall in Hall.
  apply Hall. by eapply subseteq_take.
Qed.

Context (R : relation A) `{!∀ x y, Decision (R x y)}.
Context (Rtrans : Transitive R) (Rtotal : Total R).

(** The shape of every listing: filter, sort, cut. *)
Lemma listing_sound (f : A → bool) l n x :
  x ∈ take n (merge_sort R (List.filter f l)) → x ∈ l ∧ f x = true.
Proof.
  intros Hx. apply subseteq_take in Hx.
  rewrite merge_sort_Permutation in Hx. by apply elem_of_stdlib_filter.
Qed.

Lemma listing_sorted (f : A → bool) l n :
  StronglySorted R (take n (merge_sort R (List.filter f l))).
Proof. apply StronglySorted_take. by apply StronglySorted_merge_sort. Qed.

Lemma listing_complete (f : A → bool) l n :
  length l ≤ n → take n (merge_sort R (List.filter f l)) ≡ₚ List.filter f l.
Proof.
  intros Hn. rewrite take_ge; [apply merge_sort_Permutation|].
  rewrite merge_sort_Permutation.
  etrans; [apply sublist_length, stdlib_filter_sublist|done].
Qed.

Lemma listing_NoDup (f : A → bool) l n :
  NoDup l → NoDup (take n (merge_sort R (List.filter f l))).
Proof.
  intros Hnd. eapply sublist_NoDup; [|apply sublist_take].
  rewrite merge_sort_Permutation.
  eapply sublist_NoDup; [exact Hnd|apply stdlib_filter_sublist].
Qed.

End Lists.

End ListFacts.

(** ** The reading handlers of the Connection routes *)

Module ConnectionQueries.
Import ConnectionRoutes ConnectionSpec ConnectionLemmas ConnectionInvariants ListFacts.

Lemma parseLimit_positive limit : 1 ≤ parseLimit limit.
Proof.
  unfold parseLimit. destruct limit as [n|]; [|lia].
  case_bool_decide; lia.
Qed.

(** X10.  The potential contacts are a selection of the directory in the
    order of the directory, never longer than the limit, which is 50
    when the caller gives none or gives 0; whoever the caller has just
    sent a successful request to is no longer among them, and the caller
    is no longer among the potential contacts of that person. *)
Theorem potentialcontact_after_request now user b dir db code r db' p :
  post_request now user b dir db = (Json code r, db') →
  r_recipientUserId b = Some p →
  ∀ limit dir' other,
    userId other = p →
    (get_potentialcontact user limit dir' db' `sublist_of` dir')
    ∧ length (get_potentialcontact user limit dir' db') ≤ parseLimit limit
    ∧ (p ∉ get_potentialcontact user limit dir' db')
    ∧ (userId user ∉ get_potentialcontact other limit dir' db').
Proof.
  intros H Hp limit dir' other Ho.
  assert (p ≠ "" ∧ userId user ≠ ""
          ∧ ∃ c, c ∈ db' ∧ requestorUserId c = Some (userId user)
                 ∧ recipientUserId c = Some p) as (Hpne & Hune & c & Hc & Hq & Hr).
  { destruct (ConnectionBehaviour.post_request_Json _ _ _ _ _ _ _ _ H)
      as (Ht & _ & c & _ & -> & Hv & Hq & Hr & _ & Hrole).
    rewrite Hp in Ht, Hr.
    split; [by apply truthy_Some|]. split.
    - unfold validate in Hv. apply andb_true_iff in Hv as [Hv _].
      destruct (connectionType c) eqn:Hty.
      + rewrite Hq in Hv. apply andb_true_iff in Hv as [Hv _]. by apply truthy_Some.
      + destruct (Hrole eq_refl) as [Ha _].
        rewrite Ha in Hv. apply andb_true_iff in Hv as [Hv _]. by apply truthy_Some.
    - exists c. split; [|done]. apply elem_of_app. right. apply list_elem_of_here. }
  assert (partyOf (userId user) c ∧ partyOf p c) as [Hpu Hpp].
  { unfold partyOf. rewrite Hq, Hr. split; [apply list_elem_of_here|].
    apply list_elem_of_further, list_elem_of_here. }
  split; [|split; [|split]].
  - unfold get_potentialcontact.
    etrans; [apply sublist_take|apply sublist_filter].
  - unfold get_potentialcontact. rewrite length_take. lia.
  - intros Hin. apply (potentialcontact_sound _ _ _ _ _ Hpne) in Hin as (_ & _ & Hl).
    apply Hl. by exists c.
  - intros Hin. apply (potentialcontact_sound _ _ _ _ _ Hune) in Hin as (_ & _ & Hl).
    apply Hl. rewrite Ho. by exists c.
Qed.

Lemma potentialcontact_after_request_witness :
  (get_potentialcontact Scenario.U1 None Scenario.directory Scenario.Conn.friendRequest
     `sublist_of` Scenario.directory)
  ∧ length (get_potentialcontact Scenario.U1 None Scenario.directory
              Scenario.Conn.friendRequest) ≤ parseLimit None
  ∧ ("U2" ∉ get_potentialcontact Scenario.U1 None Scenario.directory
              Scenario.Conn.friendRequest)
  ∧ (userId Scenario.U1 ∉ get_potentialcontact Scenario.U2 None Scenario.directory
                            Scenario.Conn.friendRequest).
Proof.
  exact (potentialcontact_after_request 20%Z Scenario.U1
           (mkRequestBody (Some "U2") (Some "friend") None) Scenario.directory []
           201 (findById 1 Scenario.Conn.friendRequest) Scenario.Conn.friendRequest "U2"
           eq_refl eq_refl None Scenario.directory Scenario.U2 eq_refl).
Defined.

Lemma newerFirst_trans createdAt : Transitive (newerFirst createdAt).
Proof. intros x y z. unfold newerFirst. lia. Qed.

Lemma newerFirst_total createdAt : Total (newerFirst createdAt).
Proof. intros x y. unfold newerFirst. lia. Qed.

(** X11.  The proposals received are career-agent connections of the
    collection that are Proposed and have the caller as candidate, the
    proposals sent those that have the caller as agent; either list is
    ordered from the newest to the oldest, is no longer than the limit,
    and holds every such proposal when the collection is no larger than
    the limit. *)
Theorem proposals_listing createdAt user limit db :
  ∃ received sent,
    get_proposals_received createdAt user limit db = Json 200 received
    ∧ get_proposals_sent createdAt user limit db = Json 200 sent
    ∧ (∀ c, c ∈ received →
            c ∈ db ∧ candidateId c = Some (userId user)
            ∧ connectionType c = careerAgent ∧ relationshipStatus c = proposed)
    ∧ (∀ c, c ∈ sent →
            c ∈ db ∧ careerAgentId c = Some (userId user)
            ∧ connectionType c = careerAgent ∧ relationshipStatus c = proposed)
    ∧ StronglySorted (newerFirst createdAt) received
    ∧ StronglySorted (newerFirst createdAt) sent
    ∧ length received ≤ parseLimit limit ∧ length sent ≤ parseLimit limit
    ∧ (length db ≤ parseLimit limit →
       ∀ c, c ∈ db → connectionType c = careerAgent → relationshipStatus c = proposed →
            (candidateId c = Some (userId user) → c ∈ received)
            ∧ (careerAgentId c = Some (userId user) → c ∈ sent)).
Proof.
  eexists _, _. split; [reflexivity|]. split; [reflexivity|].
  unfold findSortedLimited, sortByCreatedAtDesc.
  pose proof (newerFirst_trans createdAt) as Htr.
  pose proof (newerFirst_total createdAt) as Hto.
  repeat split.
  - by apply listing_sound in H as [? _].
  - apply listing_sound in H as [_ H].
    by apply andb_true_iff in H as [H _]; apply andb_true_iff in H as [H _];
      apply bool_decide_eq_true in H.
  - apply listing_sound in H as [_ H].
    by apply andb_true_iff in H as [H _]; apply andb_true_iff in H as [_ H];
      apply bool_decide_eq_true in H.
  - apply listing_sound in H as [_ H].
    by apply andb_true_iff in H as [_ H]; apply bool_decide_eq_true in H.
  - by apply listing_sound in H as [? _].
  - apply listing_sound in H as [_ H].
    by apply andb_true_iff in H as [H _]; apply andb_true_iff in H as [H _];
      apply bool_decide_eq_true in H.
  - apply listing_sound in H as [_ H].
    by apply andb_true_iff in H as [H _]; apply andb_true_iff in H as [_ H];
      apply bool_decide_eq_true in H.
  - apply listing_sound in H as [_ H].
    by apply andb_true_iff in H as [_ H]; apply bool_decide_eq_true in H.
  - by apply listing_sorted.
  - by apply listing_sorted.
  - rewrite length_take. lia.
  - rewrite length_take. lia.
  - intros Hk. rewrite listing_complete by done.
    apply elem_of_stdlib_filter. split; [done|].
    by rewrite !bool_decide_eq_true_2.
  - intros Hk. rewrite listing_complete by done.
    apply elem_of_stdlib_filter. split; [done|].
    by rewrite !bool_decide_eq_true_2.
Qed.

End ConnectionQueries.

(** ** Invariants of the CareerAgent collection *)

Module CareerAgentInvariants.
Import CareerAgentRoutes CareerAgentSpec CareerAgentLemmas.

Lemma rel_findById_absent id db d :
  findById id db = None → d ∈ db → _id d ≠ id.
Proof.
  unfold findById, findOne. intros H Hd Heq.
  apply list_elem_of_In in Hd.
  pose proof (find_none _ _ H d Hd) as Hn. simpl in Hn.
  by apply bool_decide_eq_false in Hn.
Qed.

(** The documents after a successful write: the written one, and the
    stored ones of another identifier. *)
Lemma write_elem c db db' x :
  write c db = inr db' → x ∈ db' → x = c ∨ (x ∈ db ∧ _id x ≠ _id c).
Proof.
  unfold write. destruct (existsb (clashes c) db); [done|].
  destruct (findById (_id c) db) eqn:Hf; intros [= <-] Hx.
  - by apply rel_elem_of_replace.
  - apply elem_of_app in Hx as [Hx|Hx].
    + right. split; [done|]. by eapply rel_findById_absent.
    + left. by apply list_elem_of_singleton in Hx.
Qed.

(** The unique index keeps the active agent of a candidate unique. *)
Lemma write_exclusive c db db' :
  write c db = inr db' → exclusive db → exclusive db'.
Proof.
  intros Hw Hex.
  assert (existsb (clashes c) db = false) as Hno.
  { revert Hw. unfold write. by destruct (existsb (clashes c) db). }
  assert (∀ y, y ∈ db → _id y ≠ _id c → relationshipStatus y = active →
               relationshipStatus c = active → candidateId y = candidateId c → False)
    as Hclash.
  { intros y Hy Hid Hay Hac Hk.
    assert (existsb (clashes c) db = true) as Hc; [|congruence].
    apply existsb_exists. exists y. split; [by apply list_elem_of_In|].
    unfold clashes.
    rewrite (bool_decide_eq_false_2 _ Hid), (bool_decide_eq_true_2 _ Hac),
      (bool_decide_eq_true_2 _ Hay), (bool_decide_eq_true_2 _ Hk). done. }
  intros x y Hx Hy Hax Hay Hk.
  destruct (write_elem _ _ _ _ Hw Hx) as [->|[Hx' Hxid]];
    destruct (write_elem _ _ _ _ Hw Hy) as [->|[Hy' Hyid]].
  - done.
  - exfalso. eapply (Hclash y); eauto.
  - exfalso. eapply (Hclash x); eauto.
  - by apply Hex.
Qed.

Lemma deleteOne_sublist id db : deleteOne id db `sublist_of` db.
Proof.
  induction db as [|d db IH]; simpl; [constructor|].
  case_bool_decide; [by apply sublist_cons | by apply sublist_skip].
Qed.

Lemma save_writes c db db' :
  save c db = inr db' → validate c = true ∧ write c db = inr db'.
Proof. unfold save. by destruct (validate c). Qed.

(** An update that passes the update validators keeps a valid document valid. *)
Lemma applyUpdate_valid u c :
  validateUpdate u = true → validate c = true → validate (applyUpdate u c) = true.
Proof.
  unfold validateUpdate, validate, applyUpdate. simpl.
  rewrite !andb_true_iff. intros [[[Ha Hk] _] Hm] [[Hca Hck] Hcm].
  repeat split.
  - destruct (u_careerAgentId u); [exact Ha | exact Hca].
  - destruct (u_candidateId u); [exact Hk | exact Hck].
  - destruct (u_message u); [exact Hm | exact Hcm].
Qed.

(** *** What each handler does *)

Lemma save_effect c db db' : save c db = inr db' → Effect db db'.
Proof. intros Hs. apply save_writes in Hs as [Hv Hw]. by apply (Written _ _ c). Qed.

Lemma handler_effects now user dir db :
  (∀ b, Effect db (post_create now b dir db).2)
  ∧ (∀ b, Effect db (post_request now user b dir db).2)
  ∧ (∀ b, Effect db (post_propose now user b dir db).2)
  ∧ (∀ id, Effect db (put_accept now user id db).2)
  ∧ (∀ id m, Effect db (put_reject now user id m db).2)
  ∧ (∀ id, Effect db (delete_relationship user id db).2).
Proof.
  repeat split; intros;
    unfold post_create, post_request, post_propose, put_accept, put_reject,
      delete_relationship, findOneAndDelete;
    repeat case_match; simpl; simplify_eq;
    solve [ by apply Unchanged | by eapply save_effect | by eapply Deleted ].
Qed.

Lemma rel_put_update_effect now user id u db : Effect db (put_update now user id u db).2.
Proof.
  unfold put_update. destruct id as [id|]; [|by apply Unchanged].
  match goal with |- context [findOneAndUpdate id ?v db] => set (u' := v) end.
  unfold findOneAndUpdate.
  destruct (validateUpdate u') eqn:Hv; simpl; [|by apply Unchanged].
  destruct (findById id db) as [c|] eqn:Hf; [|by apply Unchanged].
  destruct (write (applyUpdate u' c) db) as [e|db1] eqn:Hw; [by apply Unchanged|].
  simpl. apply (Written _ _ _ Hw). intros Hall.
  apply applyUpdate_valid; [done|]. apply Hall.
  by apply rel_findById_Some in Hf as [? _].
Qed.

Lemma rel_step_effect db db' : step db db' → Effect db db'.
Proof.
  intros [now b dir db0|now user b dir db0|now user b dir db0|now user id db0
         |now user id m db0|now user id u db0|user id db0].
  - apply (handler_effects now (mkUser "" None) dir db0).
  - apply (handler_effects now user dir db0).
  - apply (handler_effects now user dir db0).
  - apply (handler_effects now user [] db0).
  - apply (handler_effects now user [] db0).
  - apply rel_put_update_effect.
  - apply (handler_effects 0%Z user [] db0).
Qed.

Lemma rel_reachable_ind (P : list CareerAgent → Prop) :
  P [] → (∀ db db', Effect db db' → P db → P db') → ∀ db, reachable db → P db.
Proof.
  intros H0 Hstep. unfold reachable. apply rtc_ind_r; [done|].
  intros y z _ Hs IH. eapply Hstep; [by apply rel_step_effect|done].
Qed.

(** *** The invariants of every reachable collection *)

(** X12.  In the CareerAgent routes too, candidate exclusivity holds of
    every collection that the handlers produce from the empty one,
    deletions and free-form updates included: two active relationships
    of one candidate are one and the same document. *)
Theorem rel_reachable_exclusive db : reachable db → exclusive db.
Proof.
  apply rel_reachable_ind.
  - intros c d Hc. by apply elem_of_nil in Hc.
  - intros db1 db2 [->|c Hw _|id ->] Hex; [done|by eapply write_exclusive|].
    intros x y Hx Hy. apply Hex; eapply elem_of_sublist; eauto using deleteOne_sublist.
Qed.

Lemma rel_reachable_accepted1 : reachable Scenario.Agent.accepted1.
Proof.
  unfold reachable.
  eapply rtc_l; [apply (step_propose 10%Z Scenario.A1
                          (mkProposeBody (Some "C1") None) Scenario.directory [])|].
  eapply rtc_l; [apply (step_propose 11%Z Scenario.A2
                          (mkProposeBody (Some "C1") None) Scenario.directory)|].
  eapply rtc_l; [apply (step_accept 12%Z Scenario.C1 (Some 1))|].
  apply rtc_refl.
Defined.

Lemma rel_reachable_exclusive_witness : exclusive Scenario.Agent.accepted1.
Proof. apply rel_reachable_exclusive. exact rel_reachable_accepted1. Defined.

(** X13.  Identifiers are unique in every reachable collection of
    relationships. *)
Theorem rel_reachable_uniqueIds db : reachable db → NoDup (map _id db).
Proof.
  revert db. apply (rel_reachable_ind uniqueIds).
  - apply NoDup_nil_2.
  - intros db1 db2 [->|c Hw _|id ->] Hnd; [done|by eapply write_keeps_ids_unique|].
    unfold uniqueIds. eapply sublist_NoDup; [exact Hnd|].
    apply fmap_sublist, deleteOne_sublist.
Qed.

Lemma rel_reachable_uniqueIds_witness : NoDup (map _id Scenario.Agent.accepted1).
Proof. apply rel_reachable_uniqueIds. exact rel_reachable_accepted1. Defined.

(** X14.  Every relationship of a reachable collection names its agent
    and its candidate, and carries no message longer than 1000
    characters, whatever the updates it went through. *)
Theorem rel_reachable_allValid db c :
  reachable db → c ∈ db →
  truthy (careerAgentId c) = true ∧ truthy (candidateId c) = true
  ∧ ∀ m, message c = Some m → String.length m ≤ 1000.
Proof.
  intros Hr Hc.
  assert (allValid db) as Hv.
  { clear Hc. revert db Hr. apply rel_reachable_ind.
    - intros x Hx. by apply elem_of_nil in Hx.
    - intros db1 db2 [->|x Hw Hval|id ->] Hv; [done|..]; intros y Hy.
      + destruct (write_elem _ _ _ _ Hw Hy) as [->|[Hin _]]; [by apply Hval|by apply Hv].
      + apply Hv. eapply elem_of_sublist; eauto using deleteOne_sublist. }
  specialize (Hv c Hc). unfold validate in Hv.
  apply andb_true_iff in Hv as [Hp Hm]. apply andb_true_iff in Hp as [Ha Hk].
  repeat split; try done.
  intros m Hmsg. rewrite Hmsg in Hm. by apply bool_decide_eq_true in Hm.
Qed.

Lemma rel_reachable_allValid_witness :
  let c := mkCareerAgent 1 (Some "A1") (Some "C1") active (Some 12%Z) None
             (Some "Ann has proposed to mentor you") in
  truthy (careerAgentId c) = true ∧ truthy (candidateId c) = true
  ∧ ∀ m, message c = Some m → String.length m ≤ 1000.
Proof.
  exact (rel_reachable_allValid Scenario.Agent.accepted1
           (mkCareerAgent 1 (Some "A1") (Some "C1") active (Some 12%Z) None
              (Some "Ann has proposed to mentor you"))
           rel_reachable_accepted1 (list_elem_of_here _ _)).
Defined.

(** X15.  No handler of the CareerAgent routes that answers with an
    error has written or deleted anything. *)
Theorem rel_failure_writes_nothing now user dir db :
  (∀ b, failed (post_create now b dir db).1 → (post_create now b dir db).2 = db)
  ∧ (∀ b, failed (post_request now user b dir db).1 →
          (post_request now user b dir db).2 = db)
  ∧ (∀ b, failed (post_propose now user b dir db).1 →
          (post_propose now user b dir db).2 = db)
  ∧ (∀ id, failed (put_accept now user id db).1 → (put_accept now user id db).2 = db)
  ∧ (∀ id m, failed (put_reject now user id m db).1 →
             (put_reject now user id m db).2 = db)
  ∧ (∀ id u, failed (put_update now user id u db).1 →
             (put_update now user id u db).2 = db)
  ∧ (∀ id, failed (delete_relationship user id db).1 →
           (delete_relationship user id db).2 = db).
Proof.
  repeat split; intros;
    revert H;
    unfold post_create, post_request, post_propose, put_accept, put_reject, put_update,
      delete_relationship, findOneAndUpdate, findOneAndDelete;
    repeat case_match; simpl; simplify_eq; done.
Qed.

Lemma rel_failure_writes_nothing_witness :
  (put_accept 13%Z Scenario.A1 (Some 1) Scenario.Agent.proposed1).2
  = Scenario.Agent.proposed1.
Proof.
  destruct (rel_failure_writes_nothing 13%Z Scenario.A1 [] Scenario.Agent.proposed1)
    as (_ & _ & _ & H & _).
  apply (H (Some 1)). exact I.
Defined.

End CareerAgentInvariants.

(** ** The reading and deleting handlers of the CareerAgent routes *)

Module CareerAgentQueries.
Import CareerAgentRoutes CareerAgentSpec CareerAgentLemmas CareerAgentInvariants ListFacts.

(** *** DELETE /:relationshipId *)

Lemma findById_deleteOne_ne id id' db :
  id' ≠ id → findById id' (deleteOne id db) = findById id' db.
Proof.
  intros Hne. unfold findById, findOne. induction db as [|d db IH]; simpl; [done|].
  destruct (bool_decide (_id d = id)) eqn:E; simpl.
  - apply bool_decide_eq_true in E.
    by rewrite (bool_decide_eq_false_2 (_id d = id')) by congruence.
  - destruct (bool_decide (_id d = id')); [done|exact IH].
Qed.

Lemma findById_deleteOne_eq id db :
  NoDup (map _id db) → findById id (deleteOne id db) = None.
Proof.
  unfold findById, findOne. induction db as [|d db IH]; simpl; intros Hnd; [done|].
  apply NoDup_cons in Hnd as [Hnotin Hnd].
  destruct (bool_decide (_id d = id)) eqn:E; simpl.
  - apply bool_decide_eq_true in E. subst id.
    destruct (find _ db) as [x|] eqn:Hx; [|done].
    apply find_some in Hx as [Hin Hid]. apply bool_decide_eq_true in Hid.
    exfalso. apply Hnotin. rewrite <- Hid. apply list_elem_of_fmap.
    exists x. split; [done|by apply list_elem_of_In].
  - rewrite E. by apply IH.
Qed.

Lemma length_deleteOne id db c :
  findById id db = Some c → length (deleteOne id db) + 1 = length db.
Proof.
  unfold findById, findOne. induction db as [|d db IH]; simpl; [done|].
  destruct (bool_decide (_id d = id)); simpl; [lia|].
  intros H. specialize (IH H). lia.
Qed.

(** X16.  A delete of an identifier that no relationship carries
    answers NotFound and changes nothing; a delete of a stored
    relationship, by whoever asks, takes exactly that relationship out:
    it is no longer found, every other identifier is found as before,
    and the collection is one document shorter. *)
Theorem delete_removes_one user id db :
  (findById id db = None →
   delete_relationship user (Some id) db = (Error 404 NotFound, db))
  ∧ (∀ c, findById id db = Some c → NoDup (map _id db) →
       ∃ db', delete_relationship user (Some id) db = (Json 200 (), db')
              ∧ findById id db' = None
              ∧ (∀ id', id' ≠ id → findById id' db' = findById id' db)
              ∧ length db' + 1 = length db).
Proof.
  unfold delete_relationship, findOneAndDelete. split.
  - by intros ->.
  - intros c Hc Hnd. rewrite Hc. eexists. split; [reflexivity|].
    split; [by apply findById_deleteOne_eq|].
    split; [by intros; apply findById_deleteOne_ne|by eapply length_deleteOne].
Qed.

Lemma delete_removes_one_witness :
  ∃ db', delete_relationship Scenario.X (Some 1) Scenario.Agent.accepted1
         = (Json 200 (), db')
         ∧ findById 1 db' = None
         ∧ (∀ id', id' ≠ 1 → findById id' db' = findById id' Scenario.Agent.accepted1)
         ∧ length db' + 1 = length Scenario.Agent.accepted1.
Proof.
  apply (proj2 (delete_removes_one Scenario.X 1 Scenario.Agent.accepted1)
           (mkCareerAgent 1 (Some "A1") (Some "C1") active (Some 12%Z) None
              (Some "Ann has proposed to mentor you")));
    [reflexivity | vm_compute; apply NoDup_cons_2; [|apply NoDup_singleton];
                   intros Hin; apply list_elem_of_singleton in Hin; discriminate].
Defined.

(** *** GET /candidate/:candidateId *)

(** X17.  The lookup of a candidate answers NotFound exactly when the
    candidate has no active, pending or proposed relationship, and
    otherwise returns such a relationship of that candidate; right after
    a successful proposal to a candidate the lookup of that candidate
    succeeds. *)
Theorem candidate_lookup k db :
  (get_candidate k db = Error 404 NotFound ↔
   ∀ d, d ∈ db → candidateId d = Some k →
        relationshipStatus d ∉ [active; pending; proposed])
  ∧ (∀ code r, get_candidate k db = Json code r →
       r ∈ db ∧ candidateId r = Some k
       ∧ relationshipStatus r ∈ [active; pending; proposed])
  ∧ (∀ now user b dir db0 code r,
       post_propose now user b dir db0 = (Json code r, db) →
       p_candidateId b = Some k →
       ∃ r', get_candidate k db = Json 200 r').
Proof.
  unfold get_candidate. split; [|split].
  - destruct (findOne _ db) as [x|] eqn:Hf.
    + split; [done|]. intros H. exfalso.
      apply findOne_Some in Hf as [Hin Hq].
      apply andb_true_iff in Hq as [Hk Hs]. apply bool_decide_eq_true in Hk, Hs.
      by apply (H x).
    + split; [|done]. intros _ d Hd Hk Hs. apply list_elem_of_In in Hd.
      pose proof (find_none _ _ Hf d Hd) as Hn. simpl in Hn.
      by rewrite (bool_decide_eq_true_2 _ Hk), (bool_decide_eq_true_2 _ Hs) in Hn.
  - intros code r. destruct (findOne _ db) as [x|] eqn:Hf; [|done].
    intros [= <- <-]. apply findOne_Some in Hf as [Hin Hq].
    apply andb_true_iff in Hq as [Hk Hs]. apply bool_decide_eq_true in Hk, Hs. done.
  - intros now user b dir db0 code r H Hk.
    assert (∃ c, c ∈ db ∧ candidateId c = Some k ∧ relationshipStatus c = proposed)
      as (c & Hc & Hck & Hcs).
    { revert H. unfold post_propose.
      destruct (bool_decide _); [done|]. destruct (negb _); [done|].
      destruct (findOne _ db0); [done|]. destruct (findOne _ db0); [done|].
      match goal with |- context [save ?c db0] => set (rel := c) end.
      destruct (save rel db0) as [e|db1] eqn:Hs; [done|].
      intros [= <- <- <-]. exists rel. split; [|done].
      apply rel_save_inr in Hs as (_ & _ & ->).
      change (_id rel) with (freshId (map _id db0)). rewrite rel_findById_fresh.
      apply elem_of_app. right. apply list_elem_of_here. }
    match goal with |- context [findOne ?f db] =>
      destruct (rel_findOne_is_Some f db c Hc) as [x ->]; [|by eexists] end.
    rewrite (bool_decide_eq_true_2 _ Hck), Hcs. done.
Qed.

Lemma candidate_lookup_witness :
  ∃ r', get_candidate "C1" Scenario.Agent.proposed1 = Json 200 r'.
Proof.
  destruct (candidate_lookup "C1" Scenario.Agent.proposed1) as (_ & _ & H).
  exact (H 10%Z Scenario.A1 (mkProposeBody (Some "C1") None) Scenario.directory []
           201 (mkCareerAgent 1 (Some "A1") (Some "C1") proposed (Some 10%Z) None
                  (Some "Ann has proposed to mentor you")) eq_refl eq_refl).
Defined.

(** *** GET /stats/agent/:careerAgentId *)

Lemma total_foldl_addStat l acc :
  totalCandidates (foldl addStat acc l) = totalCandidates acc + sum_list (l.*2).
Proof.
  revert acc. induction l as [|[s n] l IH]; intros acc; [simpl; lia|].
  rewrite fmap_cons. cbn [foldl sum_list snd]. rewrite IH.
  unfold addStat. destruct s; simpl; lia.
Qed.

Lemma statOf_addStat_ne s g acc :
  g.1 ≠ s → statOf s (addStat acc g) = statOf s acc.
Proof. destruct g as [t n]. simpl. intros Hne. by destruct s, t. Qed.

Lemma statOf_foldl_absent s l acc :
  s ∉ l.*1 → statOf s (foldl addStat acc l) = statOf s acc.
Proof.
  revert acc. induction l as [|g l IH]; intros acc Hs; simpl; [done|].
  rewrite fmap_cons in Hs. apply not_elem_of_cons in Hs as [Hne Hs].
  rewrite IH by done. by apply statOf_addStat_ne.
Qed.

Lemma statOf_foldl_present s n l acc :
  s ∈ [active; pending; proposed; inactive] →
  NoDup (l.*1) → (s, n) ∈ l → statOf s (foldl addStat acc l) = n.
Proof.
  intros Hs. revert acc. induction l as [|g l IH]; intros acc Hnd Hin; simpl.
  - by apply elem_of_nil in Hin.
  - rewrite fmap_cons in Hnd. apply NoDup_cons in Hnd as [Hnotin Hnd].
    apply elem_of_cons in Hin as [<-|Hin].
    + rewrite statOf_foldl_absent by done.
      rewrite !elem_of_cons, elem_of_nil in Hs.
      destruct Hs as [->|[->|[->|[->|[]]]]]; done.
    + by apply IH.
Qed.

Lemma sum_nonzero (l : list (Status * nat)) :
  sum_list ((List.filter (λ g, negb (Nat.eqb g.2 0)) l).*2) = sum_list (l.*2).
Proof.
  induction l as [|[s n] l IH]; [done|].
  cbn [List.filter snd].
  destruct (Nat.eqb_spec n 0) as [->|Hn]; cbn [negb]; rewrite !fmap_cons; simpl;
    simpl in IH; lia.
Qed.

Lemma sum_countStatus docs :
  countStatus active docs + countStatus inactive docs + countStatus pending docs
  + countStatus proposed docs + countStatus requested docs + countStatus rejected docs
  = length docs.
Proof.
  unfold countStatus. induction docs as [|d docs IH]; simpl; [done|].
  destruct (relationshipStatus d); simpl; lia.
Qed.

Lemma groupByStatus_keys docs : NoDup ((groupByStatus docs).*1).
Proof.
  unfold groupByStatus.
  eapply sublist_NoDup; [|apply fmap_sublist, stdlib_filter_sublist].
  simpl. repeat (apply NoDup_cons_2; [rewrite ?elem_of_cons, elem_of_nil; intuition discriminate|]).
  apply NoDup_nil_2.
Qed.

Lemma elem_of_groupByStatus docs s n :
  (s, n) ∈ groupByStatus docs ↔ n = countStatus s docs ∧ n ≠ 0.
Proof.
  unfold groupByStatus. rewrite elem_of_stdlib_filter. simpl.
  rewrite negb_true_iff, Nat.eqb_neq.
  split.
  - intros [Hin Hn]. split; [|done].
    rewrite !elem_of_cons, elem_of_nil in Hin.
    destruct Hin as [H|[H|[H|[H|[H|[H|[]]]]]]]; by injection H as -> ->.
  - intros [-> Hn]. split; [|done].
    rewrite !elem_of_cons. destruct s; auto 10.
Qed.

(** X18.  The statistics of an agent do not depend on the order in which
    the store returns the groups of the aggregation: the total is the
    number of relationships of the agent, whatever their status, and the
    four counters are the numbers of those that are Active, Pending,
    Proposed and Inactive; the Requested and the Rejected ones are in
    the total and in no counter. *)
Theorem stats_count_by_status agent db groups :
  groups ≡ₚ aggregateStats agent db →
  let docs := List.filter (λ d, bool_decide (careerAgentId d = Some agent)) db in
  formatStats groups
  = mkStats (length docs) (countStatus active docs) (countStatus pending docs)
      (countStatus proposed docs) (countStatus inactive docs)
  ∧ totalCandidates (formatStats groups)
    = activeCandidates (formatStats groups) + pendingCandidates (formatStats groups)
      + proposedCandidates (formatStats groups) + inactiveCandidates (formatStats groups)
      + countStatus requested docs + countStatus rejected docs.
Proof.
  intros Hp docs. unfold aggregateStats in Hp. fold docs in Hp.
  assert (NoDup (groups.*1)) as Hnd by (rewrite Hp; apply groupByStatus_keys).
  assert (∀ s, s ∈ [active; pending; proposed; inactive] →
               statOf s (formatStats groups) = countStatus s docs) as Hstat.
  { intros s Hs. unfold formatStats.
    destruct (decide (countStatus s docs = 0)) as [Hz|Hz].
    - rewrite statOf_foldl_absent; [by destruct s|].
      intros Hin. apply list_elem_of_fmap in Hin as ([s' n] & Heq & Hin).
      simpl in Heq. subst s'. rewrite Hp in Hin.
      apply elem_of_groupByStatus in Hin as [-> Hn]. done.
    - apply statOf_foldl_present; [done|done|].
      rewrite Hp. by apply elem_of_groupByStatus. }
  assert (totalCandidates (formatStats groups) = length docs) as Htot.
  { unfold formatStats. rewrite total_foldl_addStat. simpl. rewrite Hp.
    unfold groupByStatus. rewrite sum_nonzero. simpl.
    pose proof (sum_countStatus docs). unfold countStatus in *. lia. }
  pose proof (Hstat active ltac:(set_solver)) as Ha.
  pose proof (Hstat pending ltac:(set_solver)) as Hpe.
  pose proof (Hstat proposed ltac:(set_solver)) as Hpr.
  pose proof (Hstat inactive ltac:(set_solver)) as Hi.
  simpl in Ha, Hpe, Hpr, Hi.
  split.
  - destruct (formatStats groups). simpl in *. congruence.
  - rewrite Htot, Ha, Hpe, Hpr, Hi. pose proof (sum_countStatus docs). lia.
Qed.

Lemma stats_count_by_status_witness :
  formatStats [(proposed, 1); (active, 1)] = mkStats 2 1 0 1 0.
Proof.
  refine (proj1 (stats_count_by_status "A1"
                   [mkCareerAgent 1 (Some "A1") (Some "C1") active (Some 12%Z) None None;
                    mkCareerAgent 2 (Some "A1") (Some "C2") proposed (Some 13%Z) None None;
                    mkCareerAgent 3 (Some "A2") (Some "C3") pending (Some 14%Z) None None]
                   [(proposed, 1); (active, 1)] _)).
  vm_compute. apply perm_swap.
Defined.

(** *** The listing handlers *)

Lemma rel_newerFirst_trans createdAt : Transitive (newerFirst createdAt).
Proof. intros x y z. unfold newerFirst. lia. Qed.

Lemma rel_newerFirst_total createdAt : Total (newerFirst createdAt).
Proof. intros x y. unfold newerFirst. lia. Qed.

Lemma findSortedLimited_Listing createdAt query limit db :
  Listing createdAt limit db (λ c, query c = true)
    (findSortedLimited createdAt query limit db).
Proof.
  pose proof (rel_newerFirst_trans createdAt) as Htr.
  pose proof (rel_newerFirst_total createdAt) as Hto.
  unfold Listing, findSortedLimited, limitTo, sortByCreatedAtDesc.
  case_bool_decide as Hz.
  - repeat split.
    + rewrite merge_sort_Permutation in H. by apply elem_of_stdlib_filter in H as [? _].
    + rewrite merge_sort_Permutation in H. by apply elem_of_stdlib_filter in H as [_ ?].
    + by apply StronglySorted_merge_sort.
    + done.
    + intros _ c Hc Hq. rewrite merge_sort_Permutation. by apply elem_of_stdlib_filter.
  - repeat split.
    + by apply listing_sound in H as [? _].
    + by apply listing_sound in H as [_ ?].
    + by apply listing_sorted.
    + intros _. rewrite length_take. lia.
    + intros [?|Hlen] c Hc Hq; [done|].
      rewrite listing_complete by done. by apply elem_of_stdlib_filter.
Qed.

Lemma Listing_iff createdAt limit db (P Q : CareerAgent → Prop) l :
  (∀ c, P c ↔ Q c) → Listing createdAt limit db P l → Listing createdAt limit db Q l.
Proof.
  intros Hpq (Hs & Hsort & Hb & Hc). repeat split; try done.
  - by apply Hs in H as [? _].
  - apply Hpq. by apply Hs in H as [_ ?].
  - intros Hl c Hin Hq. apply Hc; [done|done|]. by apply Hpq.
Qed.

Lemma statusQuery_true status c :
  statusQuery status c = true ↔
  (truthy status = true → status ≫= status_of_string = Some (relationshipStatus c)).
Proof.
  unfold statusQuery. destruct (truthy status).
  - rewrite bool_decide_eq_true. naive_solver.
  - split; [done|]. done.
Qed.

(** X19.  The four inboxes of the CareerAgent routes list relationships
    of the collection, from the newest to the oldest: the requests
    received are the Pending ones whose agent is the caller, the
    requests sent the Pending ones whose candidate is the caller, the
    proposals received the Proposed ones whose candidate is the caller,
    the proposals sent the Proposed ones whose agent is the caller.  A
    list is cut at the limit, 50 by default, and is complete when the
    collection is no larger than the limit or the limit is 0, which here
    means no limit. *)
Theorem inbox_listings createdAt user limit db :
  ∃ requestsReceived requestsSent proposalsReceived proposalsSent,
    get_requests_received createdAt user limit db = Json 200 requestsReceived
    ∧ get_requests_sent createdAt user limit db = Json 200 requestsSent
    ∧ get_proposals_received createdAt user limit db = Json 200 proposalsReceived
    ∧ get_proposals_sent createdAt user limit db = Json 200 proposalsSent
    ∧ Listing createdAt limit db
        (λ c, careerAgentId c = Some (userId user) ∧ relationshipStatus c = pending)
        requestsReceived
    ∧ Listing createdAt limit db
        (λ c, candidateId c = Some (userId user) ∧ relationshipStatus c = pending)
        requestsSent
    ∧ Listing createdAt limit db
        (λ c, candidateId c = Some (userId user) ∧ relationshipStatus c = proposed)
        proposalsReceived
    ∧ Listing createdAt limit db
        (λ c, careerAgentId c = Some (userId user) ∧ relationshipStatus c = proposed)
        proposalsSent.
Proof.
  eexists _, _, _, _. do 4 (split; [reflexivity|]).
  refine (conj _ (conj _ (conj _ _)));
    (eapply Listing_iff; [|apply findSortedLimited_Listing]);
    intros c; simpl; by rewrite andb_true_iff, !bool_decide_eq_true.
Qed.

(** X20.  The relationships of a user (as candidate or as agent) and
    the candidates of an agent are listed in the same way, of every
    status when the caller names none, of the named status otherwise;
    for a status outside the six of the schema both lists are empty. *)
Theorem connected_listings createdAt user agent limit status db :
  ∃ connected candidates,
    get_connected createdAt user limit status db = Json 200 connected
    ∧ get_agent createdAt agent status limit db = Json 200 candidates
    ∧ Listing createdAt limit db
        (λ c, (candidateId c = Some (userId user) ∨ careerAgentId c = Some (userId user))
              ∧ (truthy status = true →
                 status ≫= status_of_string = Some (relationshipStatus c)))
        connected
    ∧ Listing createdAt limit db
        (λ c, careerAgentId c = Some agent
              ∧ (truthy status = true →
                 status ≫= status_of_string = Some (relationshipStatus c)))
        candidates
    ∧ (truthy status = true → status ≫= status_of_string = None →
       connected = [] ∧ candidates = []).
Proof.
  eexists _, _. do 2 (split; [reflexivity|]).
  assert (∀ P l, Listing createdAt limit db P l → (∀ c, ¬ P c) → l = []) as Hempty.
  { intros P l (Hs & _) Hno. destruct l as [|x l]; [done|].
    exfalso. apply (Hno x). apply Hs, list_elem_of_here. }
  assert (Listing createdAt limit db
            (λ c, (candidateId c = Some (userId user) ∨ careerAgentId c = Some (userId user))
                  ∧ (truthy status = true →
                     status ≫= status_of_string = Some (relationshipStatus c)))
            (findSortedLimited createdAt
               (λ d, (bool_decide (candidateId d = Some (userId user))
                      || bool_decide (careerAgentId d = Some (userId user)))
                     && statusQuery status d) limit db)) as H1.
  { eapply Listing_iff; [|apply findSortedLimited_Listing].
    intros c. simpl.
    by rewrite andb_true_iff, orb_true_iff, !bool_decide_eq_true, statusQuery_true. }
  assert (Listing createdAt limit db
            (λ c, careerAgentId c = Some agent
                  ∧ (truthy status = true →
                     status ≫= status_of_string = Some (relationshipStatus c)))
            (findSortedLimited createdAt
               (λ d, bool_decide (careerAgentId d = Some agent) && statusQuery status d)
               limit db)) as H2.
  { eapply Listing_iff; [|apply findSortedLimited_Listing].
    intros c. simpl. by rewrite andb_true_iff, !bool_decide_eq_true, statusQuery_true. }
  split; [exact H1|]. split; [exact H2|].
  intros Ht Hn. split.
  - eapply Hempty; [exact H1|]. intros c [_ Hc]. specialize (Hc Ht). congruence.
  - eapply Hempty; [exact H2|]. intros c [_ Hc]. specialize (Hc Ht). congruence.
Qed.

End CareerAgentQueries.

(** ** The aggregations of the Connection routes *)

Module ConnectionAggregations.
Import ConnectionRoutes ConnectionSpec ConnectionLemmas ConnectionInvariants ListFacts.
Import ConnectionBehaviour.

(** *** Grouping by the other user *)

Lemma elem_of_keys_groupInsert k c gs k' :
  k' ∈ (groupInsert k c gs).*1 ↔ k' = k ∨ k' ∈ gs.*1.
Proof.
  induction gs as [|[k0 [f r]] gs IH]; simpl.
  - rewrite list_elem_of_singleton, elem_of_nil. tauto.
  - case_bool_decide as Hk; simpl; rewrite !elem_of_cons.
    + subst k0. tauto.
    + rewrite IH. tauto.
Qed.

Lemma NoDup_keys_groupInsert k c gs :
  NoDup (gs.*1) → NoDup ((groupInsert k c gs).*1).
Proof.
  induction gs as [|[k0 [f r]] gs IH]; simpl; intros Hnd.
  - apply NoDup_singleton.
  - apply NoDup_cons in Hnd as [Hnotin Hnd].
    case_bool_decide as Hk; simpl; apply NoDup_cons_2; auto.
    rewrite elem_of_keys_groupInsert. intros [->|?]; done.
Qed.

Lemma length_groupInsert k c gs : length (groupInsert k c gs) ≤ S (length gs).
Proof.
  induction gs as [|[k0 [f r]] gs IH]; simpl; [lia|].
  case_bool_decide; simpl; lia.
Qed.

Lemma groups_foldl other docs gs :
  NoDup (gs.*1) →
  NoDup ((foldl (λ groups c, groupInsert (other c) c groups) gs docs).*1)
  ∧ (∀ k, k ∈ (foldl (λ groups c, groupInsert (other c) c groups) gs docs).*1 ↔
          k ∈ gs.*1 ∨ ∃ c, c ∈ docs ∧ other c = k)
  ∧ length (foldl (λ groups c, groupInsert (other c) c groups) gs docs)
    ≤ length gs + length docs.
Proof.
  revert gs. induction docs as [|d docs IH]; intros gs Hnd; simpl.
  - split; [done|]. split; [|lia].
    intros k. split; [by left|]. intros [?|(c & Hc & _)]; [done|].
    by apply elem_of_nil in Hc.
  - destruct (IH (groupInsert (other d) d gs)) as (H1 & H2 & H3).
    { by apply NoDup_keys_groupInsert. }
    split; [done|]. split.
    + intros k. rewrite H2, elem_of_keys_groupInsert. split.
      * intros [[->|?]|(c & Hc & Hk)]; [right|by left|right].
        -- exists d. split; [apply list_elem_of_here|done].
        -- exists c. split; [by apply list_elem_of_further|done].
      * intros [?|(c & Hc & Hk)]; [by left; right|].
        apply elem_of_cons in Hc as [->|Hc]; [by left; left|]. right. eauto.
    + pose proof (length_groupInsert (other d) d gs). lia.
Qed.

Lemma groupByOther_keys other docs :
  NoDup ((groupByOther other docs).*1)
  ∧ (∀ k, k ∈ (groupByOther other docs).*1 ↔ ∃ c, c ∈ docs ∧ other c = k)
  ∧ length (groupByOther other docs) ≤ length docs.
Proof.
  destruct (groups_foldl other docs [] (NoDup_nil_2)) as (H1 & H2 & H3).
  split; [done|]. split; [|done].
  intros k. unfold groupByOther. rewrite (H2 k). simpl. rewrite elem_of_nil. tauto.
Qed.

(** *** One row per user, sorted and cut *)

Section Pipeline.
Context {Row : Type} (row : option string * (Connection * list Connection) → Row).
Context (key : Row → option string) (Hkey : ∀ g, key (row g) = g.1).
Context (newer : relation Row) `{!∀ x y, Decision (newer x y)}.
Context (Htrans : Transitive newer) (Htotal : Total newer).
Context (other : Connection → option string) (query : Connection → bool).

Lemma keys_of_rows gs : key <$> (map row gs) = gs.*1.
Proof.
  induction gs as [|g gs IH]; [done|].
  simpl. rewrite Hkey. f_equal. exact IH.
Qed.

Lemma pipeline_OnePerUser n db :
  OnePerUser n db query other
    (key <$> take n (merge_sort newer (map row (groupByOther other (List.filter query db))))).
Proof.
  pose proof (groupByOther_keys other (List.filter query db)) as (Hnd & Hk & Hlen).
  refine (conj _ (conj _ (conj _ _))).
  - eapply sublist_NoDup; [|apply fmap_sublist, sublist_take].
    by rewrite merge_sort_Permutation, keys_of_rows.
  - rewrite length_fmap, length_take. lia.
  - intros k Hin.
    assert (k ∈ (groupByOther other (List.filter query db)).*1) as Hin'.
    { rewrite <- keys_of_rows, <- (merge_sort_Permutation newer).
      eapply elem_of_sublist; [exact Hin|]. apply fmap_sublist, sublist_take. }
    apply Hk in Hin' as (c & Hc & Hko).
    apply elem_of_stdlib_filter in Hc as [Hc Hq]. eauto.
  - intros Hn c Hc Hq. rewrite take_ge.
    + rewrite merge_sort_Permutation, keys_of_rows. apply Hk.
      exists c. split; [by apply elem_of_stdlib_filter|done].
    + rewrite merge_sort_Permutation, length_map.
      etrans; [exact Hlen|]. etrans; [apply sublist_length, stdlib_filter_sublist|done].
Qed.


End Pipeline.

Lemma limitStage_Json {A} limit (rows : list A) :
  (∀ n, limit = Some n → (0 ≤ n)%Z) →
  limitStage limit rows = Json 200 (take (parseLimit limit) rows).
Proof.
  intros H. unfold limitStage. destruct limit as [n|]; [|done].
  specialize (H n eq_refl). case_bool_decide; [lia|done].
Qed.











(** *** What a handler writes is what the listings show *)

(** The anatomy of a successful proposal. *)
Lemma post_propose_Json now user b dir db code r db' :
  post_propose now user b dir db = (Json code r, db') →
  ∃ c, r = Some c ∧ db' = db ++ [c]
       ∧ careerAgentId c = Some (userId user)
       ∧ candidateId c = p_candidateUserId b
       ∧ requestorUserId c = Some (userId user)
       ∧ recipientUserId c = p_candidateUserId b
       ∧ connectionType c = careerAgent
       ∧ relationshipStatus c = proposed.
Proof.
  unfold post_propose.
  destruct (negb (truthy (p_candidateUserId b))); [done|].
  destruct (negb (profileExists dir (p_candidateUserId b))); [done|].
  destruct (findOne _ db); [done|].
  match goal with |- context [save ?c db] => set (conn := c) end.
  destruct (save conn db) as [e|db1] eqn:Hs; [done|].
  intros [= <- <- <-].
  apply (save_fresh conn db db1 eq_refl) in Hs as [-> Hf].
  exists conn. rewrite <- Hf. repeat split; done.
Qed.

Lemma elem_of_snoc (c : Connection) db : c ∈ db ++ [c].
Proof. apply elem_of_app. right. apply list_elem_of_here. Qed.

Lemma received_complete createdAt user limit db c :
  (∀ n, limit = Some n → (0 ≤ n)%Z) → length db ≤ parseLimit limit →
  c ∈ db → receivedMatch (userId user) None c = true →
  ∃ rows, get_requests_received createdAt user limit None db = Json 200 rows
          ∧ receivedOther (userId user) c ∈ rq_userId <$> rows.
Proof.
  intros Hl Hlen Hc Hm. unfold get_requests_received. rewrite (limitStage_Json _ _ Hl).
  eexists. split; [reflexivity|].
  by apply (pipeline_OnePerUser _ rq_userId).
Qed.

Lemma sent_complete createdAt user limit db c :
  (∀ n, limit = Some n → (0 ≤ n)%Z) → length db ≤ parseLimit limit →
  c ∈ db → sentMatch (userId user) None c = true →
  ∃ rows, get_requests_sent createdAt user limit None db = Json 200 rows
          ∧ sentOther (userId user) c ∈ rq_userId <$> rows.
Proof.
  intros Hl Hlen Hc Hm. unfold get_requests_sent. rewrite (limitStage_Json _ _ Hl).
  eexists. split; [reflexivity|].
  by apply (pipeline_OnePerUser _ rq_userId).
Qed.

Lemma connected_complete createdAt user limit db c :
  (∀ n, limit = Some n → (0 ≤ n)%Z) → length db ≤ parseLimit limit →
  c ∈ db → connectedMatch (userId user) None None c = true →
  ∃ rows, get_connected createdAt user limit None None db = Json 200 rows
          ∧ connectedOther (userId user) c ∈ cu_userId <$> rows.
Proof.
  intros Hl Hlen Hc Hm. unfold get_connected. rewrite (limitStage_Json _ _ Hl).
  eexists. split; [reflexivity|].
  by apply (pipeline_OnePerUser _ cu_userId).
Qed.

(** X24.  A request that succeeded is seen from both sides: when the
    collection is no longer than the limit, the person addressed finds
    the requestor in GET /requests/received and the requestor finds the
    person addressed in GET /requests/sent, for a friend request as for a
    career-agent request. *)
Theorem request_is_listed createdAt now user recipient b dir db code r db' limit :
  post_request now user b dir db = (Json code r, db') →
  r_recipientUserId b = Some (userId recipient) →
  (∀ n, limit = Some n → (0 ≤ n)%Z) →
  length db' ≤ parseLimit limit →
  (∃ rows, get_requests_received createdAt recipient limit None db' = Json 200 rows
           ∧ Some (userId user) ∈ rq_userId <$> rows)
  ∧ (∃ rows, get_requests_sent createdAt user limit None db' = Json 200 rows
             ∧ Some (userId recipient) ∈ rq_userId <$> rows).
Proof.
  intros H Hrec Hl Hlen.
  apply post_request_Json in H
    as (_ & _ & c & _ & Hdb & _ & Hreq & Hrcp & Hst & Hrole).
  rewrite Hrec in Hrcp, Hrole.
  assert (c ∈ db') as Hc by (rewrite Hdb; apply elem_of_snoc).
  split.
  - replace (Some (userId user)) with (receivedOther (userId recipient) c).
    + apply received_complete; [done..|].
      unfold receivedMatch, typeQuery. rewrite Hst, Hrcp.
      destruct (connectionType c) eqn:Ety.
      * by rewrite !bool_decide_eq_true_2 by (done || apply list_elem_of_here).
      * destruct (Hrole eq_refl) as [_ ->].
        rewrite (bool_decide_eq_true_2 (Some (userId recipient) = Some (userId recipient)))
          by done.
        by rewrite !(bool_decide_eq_true_2 (requested ∈ _)) by apply list_elem_of_here.
    + unfold receivedOther. rewrite Hrcp.
      destruct (connectionType c) eqn:Ety.
      * by rewrite !bool_decide_eq_true_2 by done.
      * destruct (Hrole eq_refl) as [-> ->].
        rewrite (bool_decide_eq_false_2 (careerAgent = friend)) by done.
        by rewrite !bool_decide_eq_true_2 by done.
  - replace (Some (userId recipient)) with (sentOther (userId user) c).
    + apply sent_complete; [done..|].
      unfold sentMatch, typeQuery. rewrite Hst, Hreq.
      destruct (connectionType c) eqn:Ety.
      * by rewrite !bool_decide_eq_true_2 by (done || apply list_elem_of_here).
      * destruct (Hrole eq_refl) as [-> _].
        rewrite (bool_decide_eq_true_2 (Some (userId user) = Some (userId user))) by done.
        by rewrite !(bool_decide_eq_true_2 (requested ∈ _)) by apply list_elem_of_here.
    + unfold sentOther. rewrite Hreq.
      destruct (connectionType c) eqn:Ety.
      * by rewrite !bool_decide_eq_true_2 by done.
      * destruct (Hrole eq_refl) as [-> ->].
        rewrite (bool_decide_eq_false_2 (careerAgent = friend)) by done.
        by rewrite !bool_decide_eq_true_2 by done.
Qed.

Lemma request_is_listed_witness :
  (∃ rows, get_requests_received (λ i, Z.of_nat i) Scenario.U2 None None
             Scenario.Conn.friendRequest = Json 200 rows
           ∧ Some (userId Scenario.U1) ∈ rq_userId <$> rows)
  ∧ (∃ rows, get_requests_sent (λ i, Z.of_nat i) Scenario.U1 None None
               Scenario.Conn.friendRequest = Json 200 rows
             ∧ Some (userId Scenario.U2) ∈ rq_userId <$> rows).
Proof.
  apply (request_is_listed (λ i, Z.of_nat i) 20%Z Scenario.U1 Scenario.U2
           (mkRequestBody (Some "U2") (Some "friend") None) Scenario.directory []
           201 (findById 1 Scenario.Conn.friendRequest) Scenario.Conn.friendRequest None);
    [reflexivity | reflexivity | intros n Hn; discriminate Hn | vm_compute; lia].
Defined.

(** X25.  A proposal that succeeded is seen from both sides: when the
    collection is no longer than the limit, the candidate finds the
    agent in GET /requests/received and in GET /proposals/received, and
    the agent finds the candidate in GET /requests/sent. *)
Theorem proposal_is_listed createdAt now user candidate b dir db code r db' limit :
  post_propose now user b dir db = (Json code r, db') →
  p_candidateUserId b = Some (userId candidate) →
  (∀ n, limit = Some n → (0 ≤ n)%Z) →
  length db' ≤ parseLimit limit →
  (∃ rows, get_requests_received createdAt candidate limit None db' = Json 200 rows
           ∧ Some (userId user) ∈ rq_userId <$> rows)
  ∧ (∃ rows, get_requests_sent createdAt user limit None db' = Json 200 rows
             ∧ Some (userId candidate) ∈ rq_userId <$> rows)
  ∧ (∃ c l, r = Some c
            ∧ get_proposals_received createdAt candidate limit db' = Json 200 l
            ∧ c ∈ l).
Proof.
  intros H Hcand Hl Hlen.
  apply post_propose_Json in H
    as (c & -> & Hdb & Hag & Hcd & Hreq & Hrcp & Hty & Hst).
  rewrite Hcand in Hcd, Hrcp.
  assert (c ∈ db') as Hc by (rewrite Hdb; apply elem_of_snoc).
  split; [|split].
  - replace (Some (userId user)) with (receivedOther (userId candidate) c).
    + apply received_complete; [done..|].
      unfold receivedMatch, typeQuery. rewrite Hst, Hrcp, Hty, Hcd.
      rewrite (bool_decide_eq_true_2 (Some (userId candidate) = Some (userId candidate)))
        by done.
      rewrite (bool_decide_eq_true_2 (proposed ∈ [proposed; pending])) by apply list_elem_of_here.
      rewrite (bool_decide_eq_true_2 (careerAgent = careerAgent)) by done.
      simpl. by rewrite ?orb_true_r.
    + unfold receivedOther. rewrite Hty, Hcd, Hag.
      rewrite (bool_decide_eq_false_2 (careerAgent = friend)) by done.
      by rewrite !bool_decide_eq_true_2 by done.
  - replace (Some (userId candidate)) with (sentOther (userId user) c).
    + apply sent_complete; [done..|].
      unfold sentMatch, typeQuery. rewrite Hst, Hreq, Hty, Hag.
      rewrite (bool_decide_eq_true_2 (Some (userId user) = Some (userId user))) by done.
      rewrite (bool_decide_eq_true_2 (proposed ∈ [proposed; pending])) by apply list_elem_of_here.
      rewrite (bool_decide_eq_true_2 (careerAgent = careerAgent)) by done.
      simpl. by rewrite ?orb_true_r.
    + unfold sentOther. rewrite Hty, Hag, Hcd.
      rewrite (bool_decide_eq_false_2 (careerAgent = friend)) by done.
      by rewrite !bool_decide_eq_true_2 by done.
  - exists c. eexists. split; [done|]. split; [reflexivity|].
    unfold findSortedLimited, sortByCreatedAtDesc.
    rewrite (listing_complete _ _ _ _ Hlen).
    apply elem_of_stdlib_filter. split; [done|].
    rewrite Hcd, Hty, Hst. by rewrite !bool_decide_eq_true_2 by done.
Qed.

Lemma proposal_is_listed_witness :
  (∃ rows, get_requests_received (λ i, Z.of_nat i) Scenario.C1 None None
             Scenario.Conn.proposed1 = Json 200 rows
           ∧ Some (userId Scenario.A1) ∈ rq_userId <$> rows)
  ∧ (∃ rows, get_requests_sent (λ i, Z.of_nat i) Scenario.A1 None None
               Scenario.Conn.proposed1 = Json 200 rows
             ∧ Some (userId Scenario.C1) ∈ rq_userId <$> rows)
  ∧ (∃ c l, findById 1 Scenario.Conn.proposed1 = Some c
            ∧ get_proposals_received (λ i, Z.of_nat i) Scenario.C1 None
                Scenario.Conn.proposed1 = Json 200 l
            ∧ c ∈ l).
Proof.
  apply (proposal_is_listed (λ i, Z.of_nat i) 10%Z Scenario.A1 Scenario.C1
           (mkProposeBody (Some "C1") None) Scenario.directory []
           201 (findById 1 Scenario.Conn.proposed1) Scenario.Conn.proposed1 None);
    [reflexivity | reflexivity | intros n Hn; discriminate Hn | vm_compute; lia].
Defined.

(** X26.  An accepted connection is seen from both sides: after a
    successful accept, when the collection is no longer than the limit,
    GET /connected with its default filter names the recipient to the
    requestor of the connection and the requestor to its recipient. *)
Theorem accepted_is_connected createdAt now user id db code r db' limit :
  put_accept now user id db = (Json code r, db') →
  (∀ n, limit = Some n → (0 ≤ n)%Z) →
  length db' ≤ parseLimit limit →
  ∃ c, r = Some c ∧ ∀ q : User,
    (requestorUserId c = Some (userId q) →
     ∃ rows, get_connected createdAt q limit None None db' = Json 200 rows
             ∧ recipientUserId c ∈ cu_userId <$> rows)
    ∧ (recipientUserId c = Some (userId q) →
       ∃ rows, get_connected createdAt q limit None None db' = Json 200 rows
               ∧ requestorUserId c ∈ cu_userId <$> rows).
Proof.
  intros H Hl Hlen.
  apply put_accept_Json in H as (i & c0 & -> & Hf & _ & _ & _ & Hdb & -> & _).
  set (c := set_startDate (Some now) (set_relationshipStatus active c0)) in *.
  exists c. split; [done|].
  assert (c ∈ db') as Hc.
  { pose proof (findById_Some _ _ _ Hf) as [_ Hid].
    assert (findById (_id c) db = Some c0) as Hf' by (by rewrite <- Hid in Hf).
    rewrite Hdb. exact (proj1 (findById_Some _ _ _ (findById_replace_eq c db c0 Hf'))). }
  assert (relationshipStatus c = active) as Hst by done.
  intros q. split; intros Hq.
  - replace (recipientUserId c) with (connectedOther (userId q) c).
    + apply connected_complete; [done..|].
      unfold connectedMatch, involves, typeQuery. rewrite Hst, Hq.
      by rewrite (bool_decide_eq_true_2 (Some (userId q) = Some (userId q))) by done.
    + unfold connectedOther. rewrite Hq. by rewrite bool_decide_eq_true_2 by done.
  - replace (requestorUserId c) with (connectedOther (userId q) c).
    + apply connected_complete; [done..|].
      unfold connectedMatch, involves, typeQuery. rewrite Hst, Hq.
      rewrite (bool_decide_eq_true_2 (Some (userId q) = Some (userId q))) by done.
      simpl. by rewrite ?orb_true_r.
    + unfold connectedOther. rewrite Hq.
      rewrite (bool_decide_eq_true_2 (Some (userId q) = Some (userId q))) by done.
      case_bool_decide as E; [by rewrite E|done].
Qed.

Lemma accepted_is_connected_witness :
  ∃ c, findById 1 Scenario.Conn.active1 = Some c ∧ ∀ q : User,
    (requestorUserId c = Some (userId q) →
     ∃ rows, get_connected (λ i, Z.of_nat i) q None None None Scenario.Conn.active1
             = Json 200 rows
             ∧ recipientUserId c ∈ cu_userId <$> rows)
    ∧ (recipientUserId c = Some (userId q) →
       ∃ rows, get_connected (λ i, Z.of_nat i) q None None None Scenario.Conn.active1
               = Json 200 rows
               ∧ requestorUserId c ∈ cu_userId <$> rows).
Proof.
  apply (accepted_is_connected (λ i, Z.of_nat i) 12%Z Scenario.C1 (Some 1)
           Scenario.Conn.proposed1 200 (findById 1 Scenario.Conn.active1)
           Scenario.Conn.active1 None);
    [reflexivity | intros n Hn; discriminate Hn | vm_compute; lia].
Defined.

End ConnectionAggregations.

(** ** The cover letters *)

Module CoverLetterFacts.
Import CoverLetterRoutes.

Lemma find_own_absent user id db :
  id ∉ map _id db → List.find (ownQuery user id) db = None.
Proof.
  induction db as [|d db IH]; simpl; [done|].
  intros Hid. apply not_elem_of_cons in Hid as [Hne Hid].
  unfold ownQuery at 1. rewrite (bool_decide_eq_false_2 (_id d = id)) by done.
  simpl. by apply IH.
Qed.

Lemma find_own user c db :
  NoDup (map _id db) → c ∈ db →
  List.find (ownQuery user (_id c)) db
  = if bool_decide (forUserId c = userId user) || bool_decide (fromUserId c = userId user)
    then Some c else None.
Proof.
  induction db as [|d db IH]; simpl; intros Hnd Hc.
  - by apply elem_of_nil in Hc.
  - apply NoDup_cons in Hnd as [Hd Hnd].
    apply elem_of_cons in Hc as [->|Hc].
    + unfold ownQuery at 1. rewrite (bool_decide_eq_true_2 (_id d = _id d)) by done.
      simpl. destruct (_ || _); [done|]. by apply find_own_absent.
    + assert (_id d ≠ _id c) as Hne.
      { intros E. apply Hd. rewrite E. apply list_elem_of_fmap. eauto. }
      unfold ownQuery at 1. rewrite (bool_decide_eq_false_2 (_id d = _id c)) by done.
      simpl. by apply IH.
Qed.

Lemma deleteFirst_own user c db :
  NoDup (map _id db) → c ∈ db →
  bool_decide (forUserId c = userId user) || bool_decide (fromUserId c = userId user) = true →
  ∀ d, d ∈ deleteFirst (ownQuery user (_id c)) db ↔ d ∈ db ∧ d ≠ c.
Proof.
  intros Hnd Hc Hown. induction db as [|d0 db IH]; simpl.
  - by apply elem_of_nil in Hc.
  - apply NoDup_cons in Hnd as [Hd Hnd].
    apply elem_of_cons in Hc as [->|Hc].
    + unfold ownQuery at 1. rewrite (bool_decide_eq_true_2 (_id d0 = _id d0)) by done.
      rewrite Hown. simpl. intros d. rewrite elem_of_cons. split.
      * intros Hin. split; [by right|]. intros ->. apply Hd.
        apply list_elem_of_fmap. eauto.
      * intros [[->|Hin] Hne]; done.
    + assert (_id d0 ≠ _id c) as Hne.
      { intros E. apply Hd. rewrite E. apply list_elem_of_fmap. eauto. }
      unfold ownQuery at 1. rewrite (bool_decide_eq_false_2 (_id d0 = _id c)) by done.
      simpl. intros d. rewrite !elem_of_cons, (IH Hnd Hc). split.
      * intros [->|[Hin Hdc]]; [|by split; [right|]].
        split; [by left|]. intros E. apply Hne. by rewrite E.
      * intros [[->|Hin] Hdc]; [by left|by right].
Qed.

(** X27.  A cover letter is open to the person it is for and to the
    person who wrote it, and to nobody else.  In a collection of unique
    identifiers, GET /:id answers either of the two with the letter and
    DELETE /:id removes that letter and no other; anybody else is
    answered 404 by both, and the collection stays as it was. *)
Theorem letter_access user c db :
  NoDup (map _id db) → c ∈ db →
  (forUserId c = userId user ∨ fromUserId c = userId user →
   get_letter user (Some (_id c)) db = Json 200 c
   ∧ ∃ db', delete_letter user (Some (_id c)) db = (Json 200 (), db')
            ∧ ∀ d, d ∈ db' ↔ d ∈ db ∧ d ≠ c)
  ∧ (forUserId c ≠ userId user → fromUserId c ≠ userId user →
     get_letter user (Some (_id c)) db = Error 404 NotFound
     ∧ delete_letter user (Some (_id c)) db = (Error 404 NotFound, db)).
Proof.
  intros Hnd Hc. pose proof (find_own user c db Hnd Hc) as Hf.
  unfold get_letter, delete_letter. split.
  - intros Hown.
    assert (bool_decide (forUserId c = userId user)
            || bool_decide (fromUserId c = userId user) = true) as Hb.
    { destruct Hown as [H|H]; rewrite (bool_decide_eq_true_2 _ H); [done|].
      by rewrite orb_true_r. }
    rewrite Hb in Hf. rewrite Hf. split; [done|].
    eexists. split; [reflexivity|]. by apply deleteFirst_own.
  - intros H1 H2.
    rewrite (bool_decide_eq_false_2 _ H1), (bool_decide_eq_false_2 _ H2) in Hf.
    simpl in Hf. by rewrite Hf.
Qed.

Lemma letter_access_witness :
  (forUserId (mkUserCoverLetter 1 "A1" "C1" "Application" "Dear team" 5%Z)
   = userId Scenario.X
   ∨ fromUserId (mkUserCoverLetter 1 "A1" "C1" "Application" "Dear team" 5%Z)
     = userId Scenario.X →
   get_letter Scenario.X (Some 1)
     [mkUserCoverLetter 1 "A1" "C1" "Application" "Dear team" 5%Z;
      mkUserCoverLetter 2 "A2" "C1" "Second" "Hello" 6%Z]
   = Json 200 (mkUserCoverLetter 1 "A1" "C1" "Application" "Dear team" 5%Z)
   ∧ ∃ db', delete_letter Scenario.X (Some 1)
              [mkUserCoverLetter 1 "A1" "C1" "Application" "Dear team" 5%Z;
               mkUserCoverLetter 2 "A2" "C1" "Second" "Hello" 6%Z]
            = (Json 200 (), db')
            ∧ ∀ d, d ∈ db' ↔
                   d ∈ [mkUserCoverLetter 1 "A1" "C1" "Application" "Dear team" 5%Z;
                        mkUserCoverLetter 2 "A2" "C1" "Second" "Hello" 6%Z]
                   ∧ d ≠ mkUserCoverLetter 1 "A1" "C1" "Application" "Dear team" 5%Z)
  ∧ (forUserId (mkUserCoverLetter 1 "A1" "C1" "Application" "Dear team" 5%Z)
     ≠ userId Scenario.X →
     fromUserId (mkUserCoverLetter 1 "A1" "C1" "Application" "Dear team" 5%Z)
     ≠ userId Scenario.X →
     get_letter Scenario.X (Some 1)
       [mkUserCoverLetter 1 "A1" "C1" "Application" "Dear team" 5%Z;
        mkUserCoverLetter 2 "A2" "C1" "Second" "Hello" 6%Z]
     = Error 404 NotFound
     ∧ delete_letter Scenario.X (Some 1)
         [mkUserCoverLetter 1 "A1" "C1" "Application" "Dear team" 5%Z;
          mkUserCoverLetter 2 "A2" "C1" "Second" "Hello" 6%Z]
       = (Error 404 NotFound,
          [mkUserCoverLetter 1 "A1" "C1" "Application" "Dear team" 5%Z;
           mkUserCoverLetter 2 "A2" "C1" "Second" "Hello" 6%Z])).
Proof.
  apply (letter_access Scenario.X
           (mkUserCoverLetter 1 "A1" "C1" "Application" "Dear team" 5%Z)
           [mkUserCoverLetter 1 "A1" "C1" "Application" "Dear team" 5%Z;
            mkUserCoverLetter 2 "A2" "C1" "Second" "Hello" 6%Z]).
  - simpl. apply NoDup_cons_2; [|apply NoDup_singleton].
    intros H. apply list_elem_of_singleton in H. discriminate H.
  - apply list_elem_of_here.
Defined.

(** X28.  GET /user/:userId lists letters that the caller wrote for
    that user, and only those; in a collection of unique identifiers the
    caller can read each of them again by its identifier. *)
Theorem listed_letters_are_readable user forUser db l :
  NoDup (map _id db) →
  get_for_user user forUser db = Json 200 l →
  l `sublist_of` db
  ∧ (∀ d, d ∈ l ↔ d ∈ db ∧ forUserId d = forUser ∧ fromUserId d = userId user)
  ∧ (∀ d, d ∈ l → get_letter user (Some (_id d)) db = Json 200 d).
Proof.
  intros Hnd [= <-].
  assert (∀ d, d ∈ List.filter (λ d, bool_decide (forUserId d = forUser)
                                   && bool_decide (fromUserId d = userId user)) db
               ↔ d ∈ db ∧ forUserId d = forUser ∧ fromUserId d = userId user) as Hiff.
  { intros d. rewrite ListFacts.elem_of_stdlib_filter, andb_true_iff,
      !bool_decide_eq_true. tauto. }
  split; [apply ListFacts.stdlib_filter_sublist|]. split; [exact Hiff|].
  intros d Hd. apply Hiff in Hd as (Hin & _ & Hfrom).
  unfold get_letter. rewrite (find_own user d db Hnd Hin).
  rewrite (bool_decide_eq_true_2 (fromUserId d = userId user)) by done.
  by rewrite orb_true_r.
Qed.

Lemma listed_letters_are_readable_witness :
  [mkUserCoverLetter 1 "A1" "C1" "Application" "Dear team" 5%Z]
  `sublist_of` [mkUserCoverLetter 1 "A1" "C1" "Application" "Dear team" 5%Z;
                mkUserCoverLetter 2 "A2" "C1" "Second" "Hello" 6%Z]
  ∧ (∀ d, d ∈ [mkUserCoverLetter 1 "A1" "C1" "Application" "Dear team" 5%Z] ↔
          d ∈ [mkUserCoverLetter 1 "A1" "C1" "Application" "Dear team" 5%Z;
               mkUserCoverLetter 2 "A2" "C1" "Second" "Hello" 6%Z]
          ∧ forUserId d = "C1" ∧ fromUserId d = userId Scenario.A1)
  ∧ (∀ d, d ∈ [mkUserCoverLetter 1 "A1" "C1" "Application" "Dear team" 5%Z] →
          get_letter Scenario.A1 (Some (_id d))
            [mkUserCoverLetter 1 "A1" "C1" "Application" "Dear team" 5%Z;
             mkUserCoverLetter 2 "A2" "C1" "Second" "Hello" 6%Z]
          = Json 200 d).
Proof.
  apply (listed_letters_are_readable Scenario.A1 "C1"
           [mkUserCoverLetter 1 "A1" "C1" "Application" "Dear team" 5%Z;
            mkUserCoverLetter 2 "A2" "C1" "Second" "Hello" 6%Z]).
  - simpl. apply NoDup_cons_2; [|apply NoDup_singleton].
    intros H. apply list_elem_of_singleton in H. discriminate H.
  - reflexivity.
Defined.

End CoverLetterFacts.

(** ** What the CareerAgent handlers do when they succeed *)

Module CareerAgentBehaviour.
Import CareerAgentRoutes CareerAgentSpec CareerAgentLemmas CareerAgentInvariants.

(** X29.  An accept of the CareerAgent routes succeeds only on a stored
    relationship that is Pending, for its career agent, or Proposed,
    for its candidate; the relationship is then stored as Active with
    the time of the acceptance as its start date, and nothing else of
    it changes. *)
Theorem relationship_accept_conditions now user id db code r db' :
  put_accept now user id db = (Json code r, db') →
  ∃ i c,
    id = Some i ∧ c ∈ db ∧ _id c = i
    ∧ ((relationshipStatus c = pending ∧ careerAgentId c = Some (userId user))
       ∨ (relationshipStatus c = proposed ∧ candidateId c = Some (userId user)))
    ∧ code = 200
    ∧ r = set_startDate (Some now) (set_relationshipStatus active c)
    ∧ r ∈ db'.
Proof.
  intros H. pose proof (put_accept_saved _ _ _ _ _ _ _ H) as (_ & _ & Hdb).
  unfold put_accept in H. destruct id as [i|]; [|done].
  destruct (findOne _ db) as [c|] eqn:Hf; [|done].
  destruct (negb (isAuthorized user c)) eqn:Hauth; [done|].
  destruct (save _ db) as [e|db1] eqn:Hs; [done|].
  injection H as <- <- <-.
  apply findOne_Some in Hf as [Hin Hq].
  apply andb_true_iff in Hq as [Hid _]. apply bool_decide_eq_true in Hid.
  apply negb_false_iff in Hauth.
  exists i, c. repeat split; try done.
  - unfold isAuthorized in Hauth.
    destruct (relationshipStatus c); try done;
      apply bool_decide_eq_true in Hauth; [left|right]; done.
  - rewrite Hdb. unfold replace. apply list_elem_of_fmap.
    exists c. split; [|done]. by rewrite bool_decide_eq_true_2.
Qed.

Lemma relationship_accept_conditions_witness :
  ∃ i c,
    Some 1 = Some i ∧ c ∈ Scenario.Agent.proposed1 ∧ _id c = i
    ∧ ((relationshipStatus c = pending ∧ careerAgentId c = Some (userId Scenario.C1))
       ∨ (relationshipStatus c = proposed ∧ candidateId c = Some (userId Scenario.C1)))
    ∧ 200 = 200
    ∧ mkCareerAgent 1 (Some "A1") (Some "C1") active (Some 12%Z) None
        (Some "Ann has proposed to mentor you")
      = set_startDate (Some 12%Z) (set_relationshipStatus active c)
    ∧ mkCareerAgent 1 (Some "A1") (Some "C1") active (Some 12%Z) None
        (Some "Ann has proposed to mentor you")
      ∈ Scenario.Agent.active1.
Proof.
  exact (relationship_accept_conditions 12%Z Scenario.C1 (Some 1)
           Scenario.Agent.proposed1 200
           (mkCareerAgent 1 (Some "A1") (Some "C1") active (Some 12%Z) None
              (Some "Ann has proposed to mentor you"))
           Scenario.Agent.active1 eq_refl).
Defined.



End CareerAgentBehaviour.
